(** * Plex preview generator: the BIF encoder and the per-item job

    A shallow embedding of [src/plex/generator.py] (with the parts of
    [src/config/settings.py] and [src/metrics/db.py] it relies on):

    - [generate_bif]    the binary preview-index encoder,
    - [generate_images] the frame extraction step with its accelerator
                        admission test and the renaming of the frames,
    - [process_item]    the per-media-part job (idempotency gate, extraction,
                        encoding, cleanup).

    Python integers are [Z]; [bytes] objects are [list byte]; [str] objects
    are [string]; the file system, the metrics table and the list of spawned
    processes form an explicit [World] threaded through an exception/state
    monad. *)

From stdpp Require Import gmap strings list sorting.
From Stdlib Require Import ZArith Lia Ascii String.
From Stdlib.Strings Require Import Byte.

Open Scope string_scope.
Open Scope Z_scope.

(* ===================================================================== *)
(** ** Exceptions and results *)
(* ===================================================================== *)

(** The Python exception classes that the modelled code can raise.  All of
    them derive from [Exception], so every [except Exception] clause of the
    source catches each of them. *)
Inductive exn : Type :=
  | ZeroDivisionError
  | ValueError
  | StructError          (* struct.error *)
  | OSError              (* ENOSPC while writing *)
  | FileNotFoundError
  | IsADirectoryError
  | NotADirectoryError
  | AttributeError
  | TypeError.

Inductive result (A : Type) : Type :=
  | Ok (a : A)
  | Raise (e : exn).
Arguments Ok {A} a.
Arguments Raise {A} e.

Global Instance exn_eq_dec : EqDecision exn.
Proof. solve_decision. Defined.

(* ===================================================================== *)
(** ** Bytes and [struct.pack("<I", _)] *)
(* ===================================================================== *)

Module Bytes.

Definition byte_of_Z (z : Z) : byte :=
  match Byte.of_N (Z.to_N (Z.land z 255)) with
  | Some b => b
  | None => x00
  end.

Definition Z_of_byte (b : byte) : Z := Z.of_N (Byte.to_N b).

(** The four bytes of a 32-bit value, least significant first. *)
Definition le32 (v : Z) : list byte :=
  [ byte_of_Z v;
    byte_of_Z (Z.shiftr v 8);
    byte_of_Z (Z.shiftr v 16);
    byte_of_Z (Z.shiftr v 24) ].

(** [struct.pack("<I", v)]: a [struct.error] outside [0, 2^32). *)
Definition struct_pack_I (v : Z) : result (list byte) :=
  if (0 <=? v) && (v <=? 4294967295) then Ok (le32 v) else Raise StructError.

(** Reading back a little-endian unsigned 32-bit field
    ([struct.unpack("<I", _)]), used to state what an artifact contains. *)
Definition u32_of_bytes (bs : list byte) : Z :=
  match bs with
  | [b0; b1; b2; b3] =>
      Z.lor (Z_of_byte b0)
        (Z.lor (Z.shiftl (Z_of_byte b1) 8)
           (Z.lor (Z.shiftl (Z_of_byte b2) 16) (Z.shiftl (Z_of_byte b3) 24)))
  | _ => -1
  end.

Definition u32_at (off : nat) (bs : list byte) : Z :=
  u32_of_bytes (take 4 (drop off bs)).

End Bytes.
Import Bytes.

(* ===================================================================== *)
(** ** Python string operations used by the source *)
(* ===================================================================== *)

Module PyStr.

Definition chars (s : string) : list ascii := list_ascii_of_string s.
Definition str (l : list ascii) : string := string_of_list_ascii l.

Definition mem_char (c : ascii) (set : list ascii) : bool :=
  existsb (Ascii.eqb c) set.

(** [s.endswith(suf)] and [s.startswith(pre)]. *)
Definition startswith (s pre : string) : bool := String.prefix pre s.
Definition endswith (s suf : string) : bool :=
  String.prefix (str (rev (chars suf))) (str (rev (chars s))).

(** [s.strip(cs)]: drops from both ends every character that occurs in
    [cs] (a set of characters, not a prefix or suffix). *)
Fixpoint lstrip_l (set : list ascii) (l : list ascii) : list ascii :=
  match l with
  | [] => []
  | c :: r => if mem_char c set then lstrip_l set r else l
  end.
Definition strip_l (set l : list ascii) : list ascii :=
  rev (lstrip_l set (rev (lstrip_l set l))).
Definition strip (s cs : string) : string := str (strip_l (chars cs) (chars s)).

(** ASCII decimal digits. *)
Definition is_digit (c : ascii) : bool :=
  let n := N_of_ascii c in (48 <=? n)%N && (n <=? 57)%N.
Definition digit_val (c : ascii) : Z := Z.of_N (N_of_ascii c) - 48.
Definition digit_char (d : Z) : ascii := ascii_of_N (Z.to_N (48 + d)).

(** Value of a digit sequence, most significant digit first. *)
Definition digits_val (l : list ascii) : Z :=
  fold_left (fun acc c => 10 * acc + digit_val c) l 0.

(** A decimal literal accepted by [int()]: digits, with single
    underscores allowed between digits. *)
Fixpoint int_body (prev_digit : bool) (l : list ascii) : bool :=
  match l with
  | [] => prev_digit
  | c :: r =>
      if is_digit c then int_body true r
      else if Ascii.eqb c "_" then prev_digit && int_body false r
      else false
  end.

(** The ASCII characters that Python counts as whitespace. *)
Definition whitespace : list ascii :=
  [" "; "009"; "010"; "011"; "012"; "013"; "028"; "029"; "030"; "031"]%char.

(** [int(s)] in base 10 on ASCII text: surrounding whitespace is ignored,
    one sign is allowed, anything else raises [ValueError]. *)
Definition py_int (s : string) : result Z :=
  let body := strip_l whitespace (chars s) in
  let '(neg, ds) :=
    match body with
    | "-"%char :: r => (true, r)
    | "+"%char :: r => (false, r)
    | _ => (false, body)
    end in
  if int_body false ds then
    let v := digits_val (filter (fun c => is_digit c = true) ds) in
    Ok (if neg then - v else v)
  else Raise ValueError.

(** Decimal digits of a non-negative integer, least significant first. *)
Fixpoint dec_digits_rev (fuel : nat) (n : Z) : list ascii :=
  match fuel with
  | O => []
  | S f =>
      digit_char (n mod 10) ::
      (if n / 10 =? 0 then [] else dec_digits_rev f (n / 10))
  end.

(** [str(n)] for [n >= 0]; the number of decimal digits never exceeds the
    number of binary digits, which bounds the recursion. *)
Definition dec_digits (n : Z) : list ascii :=
  rev (dec_digits_rev (S (Z.to_nat (Z.log2 n))) n).

Definition py_str (n : Z) : string :=
  if n <? 0 then str ("-"%char :: dec_digits (- n)) else str (dec_digits n).

(** [format(n, "0<w>d")]: sign first, then zeros up to the minimum width
    [w]; a longer number is not truncated. *)
Definition format_0wd (w : nat) (n : Z) : string :=
  if n <? 0 then
    let ds := dec_digits (- n) in
    str ("-"%char :: (repeat "0"%char (w - 1 - List.length ds)%nat ++ ds)%list)
  else
    let ds := dec_digits n in
    str (repeat "0"%char (w - List.length ds)%nat ++ ds)%list.

(** [s.replace(old, new)] for a non-empty [old]: occurrences are replaced
    from left to right without overlap; [skip] counts the characters of
    a replaced occurrence that are still to be passed over. *)
Fixpoint replace_go (old new s : string) (skip : nat) : string :=
  match s with
  | EmptyString => EmptyString
  | String c r =>
      match skip with
      | S k => replace_go old new r k
      | O =>
          if String.prefix old s
          then new ++ replace_go old new r (String.length old - 1)
          else String c (replace_go old new r 0)
      end
  end.
Definition replace (s old new : string) : string := replace_go old new s 0.

(** Python compares [str] values lexicographically by code point. *)
Definition str_lt (a b : string) : Prop := String.compare a b = Lt.

End PyStr.
Import PyStr.

(* ===================================================================== *)
(** ** Paths and text of the item loop *)
(* ===================================================================== *)

Module Path.

(** One step of [posixpath.join]: an absolute component replaces what
    has been joined so far; otherwise it is appended, after a separator
    unless the path is empty or ends in one. *)
Definition join2 (path b : string) : string :=
  if startswith b "/" then b
  else if String.eqb path "" || endswith path "/" then path ++ b
  else path ++ "/" ++ b.

(** [os.path.join(a, *p)] on a POSIX host. *)
Definition join (a : string) (p : list string) : string := fold_left join2 p a.

(** [sub in s]. *)
Fixpoint contains (s sub : string) : bool :=
  String.prefix sub s ||
  match s with
  | EmptyString => false
  | String _ r => contains r sub
  end.

(** [s.replace("", new)]: [new] before every character and at the end. *)
Fixpoint interleave (new s : string) : string :=
  match s with
  | EmptyString => new
  | String c r => new ++ String c (interleave new r)
  end.

(** [s.replace(old, new)]. *)
Definition py_replace (s old new : string) : string :=
  if String.eqb old "" then interleave new s else replace s old new.

(** [s.lower()] on ASCII text. *)
Definition lower_char (c : ascii) : ascii :=
  let n := N_of_ascii c in
  if (65 <=? n)%N && (n <=? 90)%N then ascii_of_N (n + 32) else c.
Fixpoint lower (s : string) : string :=
  match s with
  | EmptyString => EmptyString
  | String c r => String (lower_char c) (lower r)
  end.

End Path.

(* ===================================================================== *)
(** ** The world: file system, spawned processes, metrics table *)
(* ===================================================================== *)

(** The repr of a Python [float]; floating-point arithmetic is not
    modelled, the values are carried as text. *)
Definition pyfloat : Type := string.

(** One row of the [metrics] table written by [insert_metric]
    ([src/metrics/db.py]). *)
Record MetricRecord : Type := mkMetric {
  m_video_file : string;
  m_hw_accel : bool;
  m_time_seconds : pyfloat;
  m_speed : pyfloat }.

(** Regular files are keyed by their full path.  A directory is keyed by its
    full path and holds its (flat) entries by name; the code only ever looks
    at the entries of the temporary frame directory.  [disk_free] is the
    number of bytes the volume of the artifact accepts before a write fails
    with ENOSPC.  [spawned] lists the argument vectors handed to
    [subprocess.Popen], oldest first. *)
Record World : Type := mkWorld {
  files : gmap string (list byte);
  dirs : gmap string (gmap string (list byte));
  disk_free : Z;
  spawned : list (list string);
  metrics : list MetricRecord }.

Definition set_files (f : gmap string (list byte)) (w : World) : World :=
  mkWorld f (dirs w) (disk_free w) (spawned w) (metrics w).
Definition set_dirs (d : gmap string (gmap string (list byte))) (w : World) : World :=
  mkWorld (files w) d (disk_free w) (spawned w) (metrics w).
Definition add_spawned (args : list string) (w : World) : World :=
  mkWorld (files w) (dirs w) (disk_free w) (spawned w ++ [args]) (metrics w).
Definition add_metric (m : MetricRecord) (w : World) : World :=
  mkWorld (files w) (dirs w) (disk_free w) (spawned w) (metrics w ++ [m]).

(** Computations that read and change the world and may raise.  The world
    reached when an exception is raised is kept: whatever was written
    before stays written. *)
Definition IO (A : Type) : Type := World -> result A * World.

Global Instance IO_ret : MRet IO := fun A a w => (Ok a, w).
Global Instance IO_bind : MBind IO := fun A B f m w =>
  match m w with
  | (Ok a, w') => f a w'
  | (Raise e, w') => (Raise e, w')
  end.

Definition io_raise {A} (e : exn) : IO A := fun w => (Raise e, w).
Definition io_lift {A} (r : result A) : IO A := fun w => (r, w).

(** [try: body / except Exception as e: handler e]. *)
Definition try_except {A} (body : IO A) (handler : exn -> IO A) : IO A :=
  fun w =>
    match body w with
    | (Ok a, w') => (Ok a, w')
    | (Raise e, w') => handler e w'
    end.

(** [try: body / finally: fin]: [fin] runs on every exit of [body]; an
    exception of [fin] replaces the outcome of [body]. *)
Definition try_finally {A} (body : IO A) (fin : IO unit) : IO A :=
  fun w =>
    let '(r, w') := body w in
    match fin w' with
    | (Ok _, w'') => (r, w'')
    | (Raise e, w'') => (Raise e, w'')
    end.

(** Computations inside [with open(path, "wb") as f]: the state is what has
    been written to [f] so far. *)
Definition Wr (A : Type) : Type := list byte -> result A * list byte.

Global Instance Wr_ret : MRet Wr := fun A a buf => (Ok a, buf).
Global Instance Wr_bind : MBind Wr := fun A B f m buf =>
  match m buf with
  | (Ok a, buf') => f a buf'
  | (Raise e, buf') => (Raise e, buf')
  end.

Definition wr_lift {A} (r : result A) : Wr A := fun buf => (r, buf).

Module OS.

(** [os.path.isfile(p)]. *)
Definition isfile (p : string) : IO bool :=
  fun w => (Ok (bool_decide (is_Some (files w !! p))), w).

(** [os.path.exists(p)]. *)
Definition path_exists (p : string) : IO bool :=
  fun w => (Ok (bool_decide (is_Some (files w !! p)) ||
                bool_decide (is_Some (dirs w !! p))), w).

(** [os.makedirs(p, exist_ok=True)]: nothing to do when the directory is
    there; a regular file in the way raises. *)
Definition makedirs (p : string) : IO unit :=
  fun w =>
    match files w !! p, dirs w !! p with
    | Some _, _ => (Raise OSError, w)
    | None, Some _ => (Ok tt, w)
    | None, None => (Ok tt, set_dirs (<[p := ∅]> (dirs w)) w)
    end.

(** [shutil.rmtree(p, ignore_errors=True)]. *)
Definition rmtree (p : string) : IO unit :=
  fun w => (Ok tt, set_dirs (delete p (dirs w)) w).

(** [os.remove(p)]. *)
Definition remove (p : string) : IO unit :=
  fun w =>
    match files w !! p with
    | Some _ => (Ok tt, set_files (delete p (files w)) w)
    | None =>
        (Raise (match dirs w !! p with
                | Some _ => IsADirectoryError
                | None => FileNotFoundError
                end), w)
    end.

(** [os.listdir(p)]: the entry names, in the order the map yields them
    (Python promises no particular order). *)
Definition listdir (p : string) : IO (list string) :=
  fun w =>
    match dirs w !! p with
    | Some d => (Ok (map_to_list d).*1, w)
    | None => (Raise FileNotFoundError, w)
    end.

(** [glob.has_magic(s)]: whether [s] holds one of the pattern characters
    [*], [?] and [[]. *)
Definition has_magic (s : string) : bool :=
  existsb (fun c => mem_char c ["*"; "?"; "["]%char) (chars s).

(** The entry names that [glob.glob(p + "/" + pattern)] filters, for a
    folder [p] whose path holds no pattern character (one that does is
    matched as a pattern itself): those of the directory [p], none at
    all when [p] is not a directory. *)
Definition glob_dir (p : string) : IO (list string) :=
  fun w =>
    (Ok match dirs w !! p with
        | Some d => (map_to_list d).*1
        | None => []
        end, w).

(** The entries of the directory [p] that [os.stat] and [open] see when
    handed [os.path.join(p, name)]. *)
Definition entries_of (p : string) : IO (gmap string (list byte)) :=
  fun w => (Ok (default ∅ (dirs w !! p)), w).

(** [os.stat(os.path.join(dir, name)).st_size] and
    [open(os.path.join(dir, name), "rb").read()], on the entries [d] of
    [dir]. *)
Definition stat_size (d : gmap string (list byte)) (name : string) : result Z :=
  match d !! name with
  | Some content => Ok (Z.of_nat (List.length content))
  | None => Raise FileNotFoundError
  end.
Definition read_bytes (d : gmap string (list byte)) (name : string)
  : result (list byte) :=
  match d !! name with
  | Some content => Ok content
  | None => Raise FileNotFoundError
  end.

(** [os.rename(join(dir, old), join(dir, new))]: replaces an existing
    [new]. *)
Definition rename (dir old new : string) : IO unit :=
  fun w =>
    match dirs w !! dir with
    | Some d =>
        match d !! old with
        | Some content =>
            (Ok tt, set_dirs (<[dir := <[new := content]> (delete old d)]> (dirs w)) w)
        | None => (Raise FileNotFoundError, w)
        end
    | None => (Raise FileNotFoundError, w)
    end.

(** [f.write(bs)] on the file being written.  The file object is
    buffered: once the volume has no room for all of [bs], the bytes that
    still fit reach the file and the block is left by [OSError] (raised
    by the write that flushes, or when the file is closed). *)
Definition f_write (free : Z) (bs : list byte) : Wr unit :=
  fun buf =>
    if Z.of_nat (List.length buf + List.length bs) <=? free
    then (Ok tt, (buf ++ bs)%list)
    else (Raise OSError,
          (buf ++ take (Z.to_nat free - List.length buf) bs)%list).

(** [os.path.dirname(p)] on a POSIX host: what is in front of the last
    slash, without its trailing slashes unless it has nothing else. *)
Fixpoint from_slash (l : list ascii) : list ascii :=
  match l with
  | [] => []
  | c :: r => if Ascii.eqb c "/" then l else from_slash r
  end.
Definition dirname (p : string) : string :=
  let head := from_slash (rev (chars p)) in
  match lstrip_l ["/"%char] head with
  | [] => str (rev head)
  | stripped => str (rev stripped)
  end.

(** What [open(p, "wb")] finds where the file is to be created: the
    current directory and the root are there; otherwise the directory
    of [p] has to be one. *)
Definition parent_error (p : string) (w : World) : option exn :=
  let d := dirname p in
  if String.eqb d "" || String.eqb (strip d "/") "" then None
  else
    match dirs w !! d, files w !! d with
    | Some _, _ => None
    | None, Some _ => Some NotADirectoryError
    | None, None => Some FileNotFoundError
    end.

(** [with open(p, "wb") as f: body]: the file is created empty (or
    truncated) in its directory, [body] writes to it, and the file holds
    what was written when the block is left, by an exception too. *)
Definition with_open_wb {A} (p : string) (body : Z -> Wr A) : IO A :=
  fun w =>
    match dirs w !! p with
    | Some _ => (Raise IsADirectoryError, w)
    | None =>
        match parent_error p w with
        | Some e => (Raise e, w)
        | None =>
            let '(r, buf) := body (disk_free w) [] in
            (r, set_files (<[p := buf]> (files w)) w)
        end
    end.

End OS.

(* ===================================================================== *)
(** ** Configuration and external collaborators *)
(* ===================================================================== *)

(** The options of [src/config/settings.py] that the generator reads; each
    is an [int(os.getenv(...))]. *)
Record Settings : Type := mkSettings {
  PLEX_BIF_FRAME_INTERVAL : Z;
  THUMBNAIL_QUALITY : Z;
  GPU_THREADS : Z;
  CPU_THREADS : Z }.

(** What one run of the external transcoder does: its exit status, the
    frame files it leaves in the output folder, the matches of the
    [speed=..x] pattern in its diagnostics, and the wall-clock time of the
    run rounded to one decimal. *)
Record FfmpegRun : Type := mkRun {
  returncode : Z;
  frames : gmap string (list byte);
  speed_matches : list string;
  wall_seconds : pyfloat }.

(** Everything the generator asks of its surroundings. *)
Record Env : Type := mkEnv {
  FFMPEG_PATH : string;
  (* media_info.video_tracks is non-empty and its first track is HDR *)
  is_hdr : string -> bool;
  (* the text of round(1 / interval, 6) *)
  fps_repr : Z -> string;
  (* gpustat.new_query() at this moment: for each NVIDIA device its process
     list, which is None where the driver does not tell and otherwise
     holds plain dicts with the keys username, command, pid, ...; or the
     exception that the query raises *)
  gpustat_query : result (list (option (list (gmap string string))));
  (* the number of transcoder processes that get_amd_ffmpeg_processes
     returns, or the exception that amdsmi raises *)
  amd_ffmpeg_processes : result nat;
  ffmpeg : list string -> FfmpegRun }.

(** The paths derived for one media part at lines 232-250 of
    [process_item]. *)
Record PreviewJob : Type := mkJob {
  media_file : string;
  indexes_path : string;
  index_bif : string;
  tmp_path : string }.

(** The exit taken by the job for one media part: the target was there
    (line 252 false), [continue] at line 263, [continue] at line 271, or
    the end of the loop body. *)
Inductive Outcome : Type :=
  | Skipped
  | FailedExtraction (e : exn)
  | FailedEncoding (e : exn)
  | Done.

(* ===================================================================== *)
(** ** [PlexPreviewGenerator] *)
(* ===================================================================== *)

Section Generator.

Variable settings : Settings.
Variable env : Env.

(** *** [generate_bif] *)

Definition magic : list byte := [x89; x42; x49; x46; x0d; x0a; x1a; x0a].
Definition version : Z := 0.

(** [sorted([img for img in os.listdir(images_path) if img.endswith('.jpg')])] *)
Definition jpg_images (entries : list string) : list string :=
  merge_sort String.le (filter (fun img => endswith img ".jpg" = true) entries).

Definition write_packed (free : Z) (v : Z) : Wr unit :=
  b ← wr_lift (struct_pack_I v); OS.f_write free b.

(** Lines 200-206: one index entry per image. *)
Fixpoint write_index (free : Z) (d : gmap string (list byte))
    (images : list string) (timestamp image_index : Z) : Wr (Z * Z) :=
  match images with
  | [] => mret (timestamp, image_index)
  | image :: rest =>
      st_size ← wr_lift (OS.stat_size d image);
      write_packed free timestamp;;
      write_packed free image_index;;
      write_index free d rest (timestamp + 1) (image_index + st_size)
  end.

(** Lines 211-214: the frame files, one after the other. *)
Fixpoint write_payload (free : Z) (d : gmap string (list byte))
    (images : list string) : Wr unit :=
  match images with
  | [] => mret tt
  | image :: rest =>
      content ← wr_lift (OS.read_bytes d image);
      OS.f_write free content;;
      write_payload free d rest
  end.

(** Lines 190-194: magic, version, frame count, interval, padding. *)
Definition write_header (free : Z) (count : Z) : Wr unit :=
  OS.f_write free magic;;
  write_packed free version;;
  write_packed free count;;
  write_packed free (1000 * PLEX_BIF_FRAME_INTERVAL settings);;
  OS.f_write free (repeat x00 56).

(** Lines 190-214: the body of the [with] block. *)
Definition bif_body (d : gmap string (list byte)) (images : list string)
    (free : Z) : Wr unit :=
  write_header free (Z.of_nat (List.length images));;
  let bif_table_size := 8 + 8 * Z.of_nat (List.length images) in
  let image_index := 64 + bif_table_size in
  let timestamp := 0 in
  '(_, image_index) ← write_index free d images timestamp image_index;
  write_packed free 4294967295;;
  write_packed free image_index;;
  write_payload free d images.

Definition generate_bif (bif_filename images_path : string) : IO unit :=
  entries ← OS.listdir images_path;
  let images := jpg_images entries in
  d ← OS.entries_of images_path;
  OS.with_open_wb bif_filename (bif_body d images).

(** *** [generate_images] *)

Definition sw_scale : string :=
  "scale=w=320:h=240:force_original_aspect_ratio=decrease".
Definition vaapi_scale : string :=
  "format=nv12|vaapi,hwupload,scale_vaapi=w=320:h=240:force_original_aspect_ratio=decrease".

(** Lines 108-119. *)
Definition vf_parameters_for (hdr : bool) (fps : string) : string :=
  if hdr then
    "fps=fps=" ++ fps ++ "," ++
    "zscale=t=linear:npl=100,format=gbrpf32le," ++
    "zscale=p=bt709,tonemap=tonemap=hable:desat=0," ++
    "zscale=t=bt709:m=bt709:r=tv,format=yuv420p," ++
    sw_scale
  else "fps=fps=" ++ fps ++ "," ++ sw_scale.

(** Lines 121-127. *)
Definition base_args (video_file output_folder vf_parameters : string)
  : list string :=
  [ FFMPEG_PATH env; "-loglevel"; "info"; "-skip_frame:v"; "nokey";
    "-threads:0"; "1"; "-i"; video_file; "-an"; "-sn"; "-dn";
    "-q:v"; py_str (THUMBNAIL_QUALITY settings);
    "-vf"; vf_parameters;
    output_folder ++ "/img-%06d.jpg" ].

(** [args.insert(i, x)] and [args.index(x)]. *)
Definition list_insert_at (i : nat) (x : string) (l : list string) : list string :=
  (take i l ++ x :: drop i l)%list.
Fixpoint list_index (x : string) (l : list string) : nat :=
  match l with
  | [] => O
  | y :: r => if String.eqb x y then O else S (list_index x r)
  end.

(** [process.command] at line 134: the entries of [gpu_stat.processes]
    are dicts, which have their values under keys and no attribute
    [command]. *)
Definition entry_command (process : gmap string string) : result string :=
  Raise AttributeError.

(** Line 134: [sum(1 for gpu_stat in gpu_stats for process in
    gpu_stat.processes if 'ffmpeg' in process.command.lower())]: the
    inner loop over the processes of one device, and the outer loop over
    the devices, where a process list that is [None] cannot be iterated. *)
Fixpoint ffmpeg_count_in (processes : list (gmap string string)) : result Z :=
  match processes with
  | [] => Ok 0
  | process :: rest =>
      match entry_command process with
      | Ok command =>
          match ffmpeg_count_in rest with
          | Ok n =>
              Ok ((if Path.contains (Path.lower command) "ffmpeg" then 1 else 0) + n)
          | Raise e => Raise e
          end
      | Raise e => Raise e
      end
  end.
Fixpoint ffmpeg_count_of (gpu_stats : list (option (list (gmap string string))))
  : result Z :=
  match gpu_stats with
  | [] => Ok 0
  | None :: _ => Raise TypeError
  | Some processes :: rest =>
      match ffmpeg_count_in processes with
      | Ok n =>
          match ffmpeg_count_of rest with
          | Ok m => Ok (n + m)
          | Raise e => Raise e
          end
      | Raise e => Raise e
      end
  end.
Definition gpustat_ffmpeg_count : result Z :=
  match gpustat_query env with
  | Ok gpu_stats => ffmpeg_count_of gpu_stats
  | Raise e => Raise e
  end.

(** Whether [gpu] stands for an accelerator, and the count that is
    compared with the GPU budget: that of line 134 (NVIDIA) or the
    length of the list that [get_amd_ffmpeg_processes] returns (a render
    device). *)
Definition gpu_available (gpu : option string) : bool :=
  match gpu with
  | Some g => negb (String.eqb g "")
  | None => false
  end.
Definition contention (gpu : option string) : result Z :=
  match gpu with
  | Some g =>
      if String.eqb g "NVIDIA" then gpustat_ffmpeg_count
      else if negb (String.eqb g "") then
        match amd_ffmpeg_processes env with
        | Ok ffmpeg_processes => Ok (Z.of_nat ffmpeg_processes)
        | Raise e => Raise e
        end
      else Ok 0
  | None => Ok 0
  end.

(** Lines 130-151: whether hardware decoding is used, and the resulting
    argument vector. *)
Definition select_accel (gpu : option string) (vf_parameters : string)
    (args : list string) : result (bool * list string) :=
  match gpu with
  | Some g =>
      if String.eqb g "NVIDIA" then
        match gpustat_ffmpeg_count with
        | Ok ffmpeg_count =>
            if (ffmpeg_count <? GPU_THREADS settings) || (CPU_THREADS settings =? 0)
            then Ok (true, list_insert_at 6 "cuda" (list_insert_at 5 "-hwaccel" args))
            else Ok (false, args)
        | Raise e => Raise e
        end
      else if negb (String.eqb g "") then
        match amd_ffmpeg_processes env with
        | Ok ffmpeg_processes =>
            if (Z.of_nat ffmpeg_processes <? GPU_THREADS settings)
               || (CPU_THREADS settings =? 0)
            then
              let args := (args ++ ["-hwaccel"; "vaapi"; "-vaapi_device"; g])%list in
              let vf_parameters := replace vf_parameters sw_scale vaapi_scale in
              Ok (true, <[S (list_index "-vf" args) := vf_parameters]> args)
            else Ok (false, args)
        | Raise e => Raise e
        end
      else Ok (false, args)
  | None => Ok (false, args)
  end.

(** Lines 154-159: the process is spawned and waited for; the frames it
    wrote are in the output folder afterwards. *)
Definition run_ffmpeg (args : list string) (output_folder : string)
  : IO FfmpegRun :=
  fun w =>
    let proc := ffmpeg env args in
    let w := add_spawned args w in
    (Ok proc,
     match dirs w !! output_folder with
     | Some d => set_dirs (<[output_folder := frames proc ∪ d]> (dirs w)) w
     | None => w
     end).

(** [glob.glob(f'{output_folder}/img*.jpg')], as entry names. *)
Definition glob_img (entries : list string) : list string :=
  filter (fun n => startswith n "img" && endswith n ".jpg" = true) entries.

(** Line 175-176. *)
Definition frame_second_of (image : string) : result Z :=
  match py_int (strip (strip image "img-") ".jpg") with
  | Ok n =>
      let frame_no := n - 1 in
      Ok (frame_no * PLEX_BIF_FRAME_INTERVAL settings)
  | Raise e => Raise e
  end.

(** Line 177: the name the frame is renamed to. *)
Definition renamed (frame_second : Z) : string :=
  format_0wd 10 frame_second ++ ".jpg".

(** Lines 174-177. *)
Fixpoint rename_images (output_folder : string) (images : list string)
  : IO unit :=
  match images with
  | [] => mret tt
  | image :: rest =>
      frame_second ← io_lift (frame_second_of image);
      OS.rename output_folder image (renamed frame_second);;
      rename_images output_folder rest
  end.

(** [insert_metric] of [src/metrics/db.py]: one more row. *)
Definition insert_metric (video_file : string) (hw_accel : bool)
    (time_seconds speed : pyfloat) : IO unit :=
  fun w => (Ok tt, add_metric (mkMetric video_file hw_accel time_seconds speed) w).

Definition generate_images (video_file output_folder : string)
    (gpu : option string) : IO unit :=
  fps ← (if PLEX_BIF_FRAME_INTERVAL settings =? 0
         then io_raise ZeroDivisionError
         else mret (fps_repr env (PLEX_BIF_FRAME_INTERVAL settings)));
  let vf_parameters := vf_parameters_for (is_hdr env video_file) fps in
  let args := base_args video_file output_folder vf_parameters in
  '(hw_accel_used, args) ← io_lift (select_accel gpu vf_parameters args);
  proc ← run_ffmpeg args output_folder;
  if negb (returncode proc =? 0) then
    mret tt
  else
    let duration := wall_seconds proc in
    let speed := default "1.0" (last (speed_matches proc)) in
    entries ← OS.glob_dir output_folder;
    rename_images output_folder (glob_img entries);;
    insert_metric video_file hw_accel_used duration speed.

(** *** [process_item] *)

(** Lines 252-273, for one media part whose paths have been derived. *)
Definition process_part (job : PreviewJob) (gpu : option string) : IO Outcome :=
  target_exists ← OS.isfile (index_bif job);
  if (target_exists : bool) then (mret Skipped : IO Outcome)
  else
    OS.makedirs (indexes_path job);;
    OS.makedirs (tmp_path job);;
    failed ← try_except
      (generate_images (media_file job) (tmp_path job) gpu;;
       (mret None : IO (option Outcome)))
      (fun e => OS.rmtree (tmp_path job);; mret (Some (FailedExtraction e)));
    match (failed : option Outcome) return IO Outcome with
    | Some outcome => mret outcome
    | None =>
        try_finally
          (try_except
             (generate_bif (index_bif job) (tmp_path job);;
              (mret Done : IO Outcome))
             (fun e =>
                present ← OS.path_exists (index_bif job);
                (if (present : bool) then OS.remove (index_bif job)
                 else (mret tt : IO unit));;
                mret (FailedEncoding e)))
          (OS.rmtree (tmp_path job))
    end.


End Generator.

(* ===================================================================== *)
(** ** Vocabulary for stating what an artifact contains *)
(* ===================================================================== *)

Module Layout.

(** The bytes and the size of the frame file [name] of a directory. *)
Definition frame_bytes (d : gmap string (list byte)) (name : string) : list byte :=
  default [] (d !! name).
Definition frame_size (d : gmap string (list byte)) (name : string) : Z :=
  Z.of_nat (List.length (frame_bytes d name)).

(** The (timestamp, offset) pairs that lines 200-206 produce for frame
    files of the given sizes. *)
Fixpoint index_table (sizes : list Z) (timestamp image_index : Z) : list (Z * Z) :=
  match sizes with
  | [] => []
  | sz :: rest =>
      (timestamp, image_index) :: index_table rest (timestamp + 1) (image_index + sz)
  end.

Definition encode_entry (e : Z * Z) : list byte := (le32 (fst e) ++ le32 (snd e))%list.

(** Reading a run of 8-byte index entries back. *)
Fixpoint index_entries_of (bs : list byte) : list (Z * Z) :=
  match bs with
  | t0 :: t1 :: t2 :: t3 :: o0 :: o1 :: o2 :: o3 :: rest =>
      (u32_of_bytes [t0; t1; t2; t3], u32_of_bytes [o0; o1; o2; o3])
      :: index_entries_of rest
  | _ => []
  end.

Definition fits_u32 (e : Z * Z) : Prop :=
  0 <= fst e < 4294967296 /\ 0 <= snd e < 4294967296.

Definition total (l : list Z) : Z := fold_right Z.add 0 l.

(** The bytes in front of the index table, as lines 190-194 write them. *)
Definition header_bytes (count interval_ms : Z) : list byte :=
  (magic ++ le32 version ++ le32 count ++ le32 interval_ms ++ repeat x00 56)%list.

(** The index table of lines 196-209: one entry per image, then the
    closing entry. *)
Definition first_offset (images : list string) : Z :=
  64 + (8 + 8 * Z.of_nat (List.length images)).
Definition table_entries (d : gmap string (list byte)) (images : list string)
  : list (Z * Z) :=
  let sizes := map (frame_size d) images in
  (index_table sizes 0 (first_offset images)
   ++ [(4294967295, first_offset images + total sizes)])%list.

Definition payload_bytes (d : gmap string (list byte)) (images : list string)
  : list byte :=
  flat_map (frame_bytes d) images.

(** The images the encoder works on in a directory with entries [d]
    (line 187), and the artifact as lines 190-214 lay it out. *)
Definition images_of (d : gmap string (list byte)) : list string :=
  jpg_images (map_to_list d).*1.
Definition bif_of (interval : Z) (d : gmap string (list byte)) : list byte :=
  (header_bytes (Z.of_nat (List.length (images_of d))) (1000 * interval)
   ++ flat_map encode_entry (table_entries d (images_of d))
   ++ payload_bytes d (images_of d))%list.

(** Offsets as running sums of the frame sizes, the end position last. *)
Fixpoint running (sizes : list Z) (i : Z) : list Z :=
  match sizes with
  | [] => [i]
  | s :: rest => i :: running rest (i + s)
  end.

(** Runs of decimal digits: what they are and what they are worth, read
    from the least or from the most significant end. *)
Definition all_digits (l : list ascii) : Prop := Forall (fun c => is_digit c = true) l.
Definition val_rev (l : list ascii) : Z :=
  fold_right (fun c acc => 10 * acc + digit_val c) 0 l.
Fixpoint val_msb (l : list ascii) : Z :=
  match l with
  | [] => 0
  | c :: r => digit_val c * 10 ^ Z.of_nat (List.length r) + val_msb r
  end.

(** The digits that [format(n, "0<w>d")] produces for [n >= 0]. *)
Definition padded (w : nat) (n : Z) : list ascii :=
  (repeat "0"%char (w - List.length (dec_digits n)) ++ dec_digits n)%list.

(** The name the transcoder gives to its [k]-th frame under the output
    pattern [img-%06d.jpg] of line 126. *)
Definition ffmpeg_name (k : Z) : string := "img-" ++ format_0wd 6 k ++ ".jpg".

End Layout.
Import Layout.

(* ===================================================================== *)
(** ** Concrete scenarios *)
(* ===================================================================== *)

Module Scenario.

Definition settings5 : Settings :=
  {| PLEX_BIF_FRAME_INTERVAL := 5; THUMBNAIL_QUALITY := 4;
     GPU_THREADS := 4; CPU_THREADS := 4 |}.

Definition tmp : string := "/dev/shm/plex_generate_previews/abcdef".
Definition indexes : string := "/media/localhost/a/bcdef.bundle/Contents/Indexes".
Definition bif : string :=
  "/media/localhost/a/bcdef.bundle/Contents/Indexes/index-sd.bif".
Definition job : PreviewJob :=
  {| media_file := "/videos/film.mkv"; indexes_path := indexes;
     index_bif := bif; tmp_path := tmp |}.

(** A frame directory in which the frame of second 5 is missing and a
    stray text file is present. *)
Definition frames_dir : gmap string (list byte) :=
  <["0000000000.jpg" := [xff; xd8; xd9]]>
    (<["0000000010.jpg" := [xff; xd9]]>
       (<["notes.txt" := [x68; x69]]> ∅)).

Definition world_frames : World :=
  {| files := ∅; dirs := <[indexes := ∅]> (<[tmp := frames_dir]> ∅);
     disk_free := 1000000; spawned := []; metrics := [] |}.

Definition world_encoded : World :=
  snd (generate_bif settings5 bif tmp world_frames).

(** A clean start: nothing on disk, plenty of room. *)
Definition world0 : World :=
  {| files := ∅; dirs := ∅; disk_free := 1000000; spawned := []; metrics := [] |}.

(** The same with room for 100 bytes only. *)
Definition world_full : World :=
  {| files := ∅; dirs := ∅; disk_free := 100; spawned := []; metrics := [] |}.

(** The artifact of the job is already there. *)
Definition world_with_artifact : World :=
  {| files := <[bif := [x89; x42; x49; x46]]> ∅; dirs := ∅;
     disk_free := 1000000; spawned := []; metrics := [] |}.

(** A transcoder run that exits with status 0 and leaves three frames. *)
Definition run_ok : FfmpegRun :=
  {| returncode := 0;
     frames := <["img-000001.jpg" := [xff; xd8; xd9]]>
                 (<["img-000002.jpg" := [xff; xd9]]>
                    (<["img-000003.jpg" := [xd9]]> ∅));
     speed_matches := ["1.5"; "2.5"];
     wall_seconds := "3.2" |}.

(** A transcoder run that exits with status 1 and leaves nothing. *)
Definition run_exit1 : FfmpegRun :=
  {| returncode := 1; frames := ∅; speed_matches := []; wall_seconds := "0.1" |}.

Definition env_with (run : FfmpegRun) : Env :=
  {| FFMPEG_PATH := "/usr/bin/ffmpeg";
     is_hdr := fun _ => false;
     fps_repr := fun _ => "0.2";
     gpustat_query := Ok [Some []];
     amd_ffmpeg_processes := Ok 0%nat;
     ffmpeg := fun _ => run |}.

Definition env_ok : Env := env_with run_ok.
Definition env_exit1 : Env := env_with run_exit1.

(** The same surroundings with one process on the NVIDIA device, as
    gpustat lists it. *)
Definition desktop_process : gmap string string :=
  <["username" := "root"]> (<["command" := "Xorg"]> (<["pid" := "1412"]> ∅)).
Definition env_busy : Env :=
  {| FFMPEG_PATH := "/usr/bin/ffmpeg";
     is_hdr := fun _ => false;
     fps_repr := fun _ => "0.2";
     gpustat_query := Ok [Some [desktop_process]];
     amd_ffmpeg_processes := Ok 0%nat;
     ffmpeg := fun _ => run_ok |}.

(** The job on a clean start with a working transcoder; with a disk that
    fills up during encoding; with a transcoder that exits with 1. *)
Definition job_done : result Outcome * World :=
  process_part settings5 env_ok job (Some "NVIDIA") world0.
Definition job_disk_full : result Outcome * World :=
  process_part settings5 env_ok job (Some "NVIDIA") world_full.
Definition job_exit1 : result Outcome * World :=
  process_part settings5 env_exit1 job None world0.

(** The job with the NVIDIA device in use by another process. *)
Definition job_busy : result Outcome * World :=
  process_part settings5 env_busy job (Some "NVIDIA") world0.

(** The artifact of the job is there, and so is a temporary directory
    that an interrupted run has left. *)
Definition world_stale : World :=
  {| files := <[bif := [x89; x42; x49; x46]]> ∅;
     dirs := <[tmp := frames_dir]> ∅;
     disk_free := 1000000; spawned := []; metrics := [] |}.

End Scenario.

(* ===================================================================== *)
(** ** The frames of a transcoder run *)
(* ===================================================================== *)

Module Frames.

(** The entries that a transcoder run leaves in its output folder when it
    produces the frames [cs], in this order, under the output pattern
    [img-%06d.jpg] of line 126, numbering from [k]. *)
Fixpoint ffmpeg_frames_from (k : Z) (cs : list (list byte))
  : gmap string (list byte) :=
  match cs with
  | [] => ∅
  | c :: rest => <[ffmpeg_name k := c]> (ffmpeg_frames_from (k + 1) rest)
  end.
Definition ffmpeg_frames (cs : list (list byte)) : gmap string (list byte) :=
  ffmpeg_frames_from 1 cs.

(** The name that lines 175-177 give to the entry [a] of the output
    folder, where its number parses. *)
Definition new_name (settings : Settings) (a : string) : string :=
  match frame_second_of settings a with
  | Ok s => renamed s
  | Raise _ => a
  end.

(** The names that lines 174-177 give to [n] frames, in the order of the
    frames. *)
Definition second_names (interval : Z) (n : nat) : list string :=
  map (fun k => renamed (Z.of_nat k * interval)) (seq 0 n).

Definition sizes_of (cs : list (list byte)) : list Z :=
  map (fun c => Z.of_nat (List.length c)) cs.

(** The artifact for the frames [cs]: header, one index entry per frame
    and the closing entry, then the frames. *)
Definition bif_of_frames (interval : Z) (cs : list (list byte)) : list byte :=
  let n := Z.of_nat (List.length cs) in
  (header_bytes n (1000 * interval)
   ++ flat_map encode_entry
        (index_table (sizes_of cs) 0 (64 + (8 + 8 * n))
         ++ [(4294967295, 64 + (8 + 8 * n) + total (sizes_of cs))])
   ++ List.concat cs)%list.

End Frames.


(* ===================================================================== *)
(** ** Accelerator detection *)
(* ===================================================================== *)

Module Detect.

(** How the probe of a vendor library ends: its import fails, one of its
    calls raises, or all calls return. *)
Inductive Probe (A : Type) : Type :=
  | NotInstalled
  | ProbeError
  | Probed (a : A).
Arguments NotInstalled {A}.
Arguments ProbeError {A}.
Arguments Probed {A} a.

(** What amdsmi answers at lines 63-70: for each processor handle
    whether its type is GPU (or the exception of the query), and how
    [amdsmi_shut_down] ends. *)
Record AmdRun : Type := mkAmdRun {
  processor_is_gpu : list (result bool);
  shut_down : result unit }.

(** Lines 64-69: the loop over the handles stops at the first GPU. *)
Fixpoint any_gpu (devices : list (result bool)) : result bool :=
  match devices with
  | [] => Ok false
  | Ok true :: _ => Ok true
  | Ok false :: rest => any_gpu rest
  | Raise e :: _ => Raise e
  end.

Definition vaapi_device_dir : string := "/dev/dri".

(** Lines 74-77: the first entry that starts with [renderD]. *)
Definition first_render_device (entries : list string) : option string :=
  match List.find (fun entry => startswith entry "renderD") entries with
  | Some entry => Some (Path.join vaapi_device_dir [entry])
  | None => None
  end.

(** Lines 47-58; [nvml] is the device count when init, count and
    shutdown all return. *)
Definition detect_nvidia (nvml : Probe Z) : option string :=
  match nvml with
  | Probed num_nvidia_gpus => if 0 <? num_nvidia_gpus then Some "NVIDIA" else None
  | _ => None
  end.

(** Lines 60-82. *)
Definition detect_amd (amd : Probe AmdRun) : IO (option string) :=
  match amd with
  | Probed run =>
      try_except
        (found ← io_lift (any_gpu (processor_is_gpu run));
         io_lift (shut_down run);;
         if (found : bool) then
           present ← OS.path_exists vaapi_device_dir;
           if (present : bool) then
             entries ← OS.listdir vaapi_device_dir;
             (mret (first_render_device entries) : IO (option string))
           else (mret None : IO (option string))
         else (mret None : IO (option string)))
        (fun _ => mret None)
  | _ => mret None
  end.

(** [detect_gpu]: ['NVIDIA'], the path of a render device, or [None]. *)
Definition detect_gpu (nvml : Probe Z) (amd : Probe AmdRun) : IO (option string) :=
  match detect_nvidia nvml with
  | Some gpu => mret (Some gpu)
  | None => detect_amd amd
  end.

End Detect.

(* ===================================================================== *)
(** ** [process_item]: from a media part to its job *)
(* ===================================================================== *)

Module Item.

(** The path options of [src/config/settings.py]. *)
Record PathSettings : Type := mkPathSettings {
  PLEX_LOCAL_MEDIA_PATH : string;
  TMP_FOLDER : string;
  PLEX_LOCAL_VIDEOS_PATH_MAPPING : string;
  PLEX_VIDEOS_PATH_MAPPING : string }.

Definition backslash : string := String (ascii_of_N 92) EmptyString.

(** [sanitize_path], for the value [os_name] of [os.name]. *)
Definition sanitize_path (os_name : string) (path : string) : string :=
  if String.eqb os_name "nt" then replace path backslash "/" else path.

(** The job derivation below is that of a POSIX host: [os.path.join] is
    [posixpath.join]. *)
Definition os_name : string := "posix".

(** Line 240: [bundle_hash[0]] raises [IndexError] on the empty hash,
    which line 241 catches. *)
Definition bundle_file_of (bundle_hash : string) : option string :=
  match bundle_hash with
  | EmptyString => None
  | String c rest => Some (String c EmptyString ++ "/" ++ rest ++ ".bundle")
  end.

(** Lines 245-248. *)
Definition job_paths (ps : PathSettings) (media_file bundle_hash bundle_file : string)
  : PreviewJob :=
  let bundle_path :=
    sanitize_path os_name
      (Path.join (PLEX_LOCAL_MEDIA_PATH ps) ["localhost"; bundle_file]) in
  let indexes_path :=
    sanitize_path os_name (Path.join bundle_path ["Contents"; "Indexes"]) in
  let index_bif :=
    sanitize_path os_name (Path.join indexes_path ["index-sd.bif"]) in
  let tmp_path :=
    sanitize_path os_name (Path.join (TMP_FOLDER ps) [bundle_hash]) in
  mkJob media_file indexes_path index_bif tmp_path.

(** How one pass of the loop body ends before line 252: by one of the
    [continue] statements, by the [KeyError] of [attrib['file']], which
    nothing catches, or with the paths of the job. *)
Inductive Plan : Type :=
  | NoHash
  | Filtered
  | MediaNotFound (media_file : string)
  | BadHash
  | KeyErrorFile
  | Planned (job : PreviewJob).

(** Lines 225-250 for a media part with attributes [attrib], the command
    line [argv] and the regular files [fs]. *)
Definition plan_part (ps : PathSettings) (argv : list string)
    (attrib : gmap string string) (fs : gmap string (list byte)) : Plan :=
  match attrib !! "hash" with
  | None => NoHash
  | Some bundle_hash =>
      match attrib !! "file" with
      | None => KeyErrorFile
      | Some file =>
          if match argv !! 1%nat with
             | Some filter => negb (Path.contains file filter)
             | None => false
             end
          then Filtered
          else
            let media_file :=
              sanitize_path os_name
                (Path.py_replace file (PLEX_VIDEOS_PATH_MAPPING ps)
                   (PLEX_LOCAL_VIDEOS_PATH_MAPPING ps)) in
            match fs !! media_file with
            | None => MediaNotFound media_file
            | Some _ =>
                match bundle_file_of bundle_hash with
                | None => BadHash
                | Some bundle_file =>
                    Planned (job_paths ps media_file bundle_hash bundle_file)
                end
            end
      end
  end.

(** What escapes one pass of the loop body. *)
Inductive item_exn : Type :=
  | KeyError
  | Escaped (e : exn).

(** One pass of the loop body, lines 225-273: [None] for a pass ended by
    a [continue] before line 252. *)
Definition process_media_part (settings : Settings) (env : Env)
    (ps : PathSettings) (argv : list string) (gpu : option string)
    (attrib : gmap string string) (w : World)
  : (option Outcome + item_exn) * World :=
  match plan_part ps argv attrib (files w) with
  | Planned job =>
      match process_part settings env job gpu w with
      | (Ok o, w') => (inl (Some o), w')
      | (Raise e, w') => (inr (Escaped e), w')
      end
  | KeyErrorFile => (inr KeyError, w)
  | _ => (inl None, w)
  end.

(** [process_item] over the media parts of the item's tree: the first
    exception that escapes a pass ends the loop. *)
Fixpoint process_item_tree (settings : Settings) (env : Env)
    (ps : PathSettings) (argv : list string) (gpu : option string)
    (parts : list (gmap string string)) (w : World)
  : (list (option Outcome) + item_exn) * World :=
  match parts with
  | [] => (inl [], w)
  | attrib :: rest =>
      match process_media_part settings env ps argv gpu attrib w with
      | (inl o, w1) =>
          match process_item_tree settings env ps argv gpu rest w1 with
          | (inl os, w2) => (inl (o :: os), w2)
          | (inr e, w2) => (inr e, w2)
          end
      | (inr e, w1) => (inr e, w1)
      end
  end.

End Item.

(* ===================================================================== *)
(** ** [src/config/settings.py] *)
(* ===================================================================== *)

Module Config.

(** [int(os.getenv(name, default))] with an integer default. *)
Definition getenv_int (environ : gmap string string) (name : string)
    (default : Z) : result Z :=
  match environ !! name with
  | Some value => py_int value
  | None => Ok default
  end.

Definition result_bind {A B} (r : result A) (f : A -> result B) : result B :=
  match r with
  | Ok a => f a
  | Raise e => Raise e
  end.

(** The integer options, evaluated in the order of the class body; the
    first one that does not parse raises.  [PLEX_TIMEOUT] is parsed too,
    although the generator model does not read it. *)
Definition load_settings (environ : gmap string string) : result Settings :=
  result_bind (getenv_int environ "PLEX_BIF_FRAME_INTERVAL" 5) (fun interval =>
  result_bind (getenv_int environ "THUMBNAIL_QUALITY" 4) (fun quality =>
  result_bind (getenv_int environ "PLEX_TIMEOUT" 60) (fun _ =>
  result_bind (getenv_int environ "GPU_THREADS" 4) (fun gpu_threads =>
  result_bind (getenv_int environ "CPU_THREADS" 4) (fun cpu_threads =>
  Ok (mkSettings interval quality gpu_threads cpu_threads)))))).

End Config.

(* ===================================================================== *)
(** ** More concrete scenarios *)
(* ===================================================================== *)

Module Cases.

(** An interval of zero seconds, and one that exceeds 32 bits once in
    milliseconds. *)
Definition settings0 : Settings :=
  {| PLEX_BIF_FRAME_INTERVAL := 0; THUMBNAIL_QUALITY := 4;
     GPU_THREADS := 4; CPU_THREADS := 4 |}.
Definition settings_wide : Settings :=
  {| PLEX_BIF_FRAME_INTERVAL := 4294968; THUMBNAIL_QUALITY := 4;
     GPU_THREADS := 4; CPU_THREADS := 4 |}.

(** The three frames of [Scenario.run_ok], in order. *)
Definition three_frames : list (list byte) :=
  [[xff; xd8; xd9]; [xff; xd9]; [xd9]].

(** The temporary directory is there and empty. *)
Definition world_tmp : World :=
  {| files := ∅; dirs := <[Scenario.tmp := ∅]> ∅; disk_free := 1000000;
     spawned := []; metrics := [] |}.

(** The frames of [Scenario.world_frames] on a volume with room for 90
    bytes. *)
Definition world_frames_full : World :=
  {| files := ∅;
     dirs := <[Scenario.indexes := ∅]> (<[Scenario.tmp := Scenario.frames_dir]> ∅);
     disk_free := 90; spawned := []; metrics := [] |}.

(** A render node under [/dev/dri], and an amdsmi run that reports a
    CPU and a GPU. *)
Definition world_dri : World :=
  {| files := ∅;
     dirs := <["/dev/dri" := <["card0" := []]> (<["renderD128" := []]> ∅)]> ∅;
     disk_free := 1000000; spawned := []; metrics := [] |}.
Definition amd_run : Detect.AmdRun :=
  {| Detect.processor_is_gpu := [Ok false; Ok true];
     Detect.shut_down := Ok tt |}.

(** The world after the extraction step on [world_tmp]. *)
Definition world_extracted : World :=
  snd (generate_images Scenario.settings5 Scenario.env_ok "/videos/film.mkv"
         Scenario.tmp (Some "NVIDIA") world_tmp).

(** The filter and the argument vector of [Scenario.job] on an NVIDIA
    accelerator with hardware decoding admitted. *)
Definition job_vf : string := vf_parameters_for false "0.2".
Definition job_args_cuda : list string :=
  list_insert_at 6 "cuda"
    (list_insert_at 5 "-hwaccel"
       (base_args Scenario.settings5 Scenario.env_ok "/videos/film.mkv"
          Scenario.tmp job_vf)).

(** The path options, a media part of the item tree and a world that
    holds its media file. *)
Definition paths : Item.PathSettings :=
  {| Item.PLEX_LOCAL_MEDIA_PATH := "/media";
     Item.TMP_FOLDER := "/dev/shm/plex_generate_previews";
     Item.PLEX_LOCAL_VIDEOS_PATH_MAPPING := "";
     Item.PLEX_VIDEOS_PATH_MAPPING := "" |}.
Definition part : gmap string string :=
  <["hash" := "abcdef"]> (<["file" := "/videos/film.mkv"]> ∅).
Definition part_without_hash : gmap string string :=
  <["file" := "/videos/film.mkv"]> ∅.
Definition part_elsewhere : gmap string string :=
  <["hash" := "abcdef"]> (<["file" := "/videos/gone.mkv"]> ∅).
Definition world_media : World :=
  {| files := <["/videos/film.mkv" := [x1a; x45; xdf; xa3]]> ∅; dirs := ∅;
     disk_free := 1000000; spawned := []; metrics := [] |}.

(** An environment that sets two of the integer options. *)
Definition environ : gmap string string :=
  <["PLEX_BIF_FRAME_INTERVAL" := "10"]> (<["CPU_THREADS" := "0"]> ∅).

End Cases.

(* ===================================================================== *)
(** ** The string and byte operations on sample values *)
(* ===================================================================== *)

Example strip_img_name : strip (strip "img-000012.jpg" "img-") ".jpg" = "000012".
Proof. reflexivity. Qed.
Example py_int_padded : py_int "000012" = Ok 12.
Proof. reflexivity. Qed.
Example py_int_empty : py_int "" = Raise ValueError.
Proof. reflexivity. Qed.
Example format_010d_5 : format_0wd 10 5 = "0000000005".
Proof. reflexivity. Qed.
Example format_010d_wide : format_0wd 10 10000000000 = "10000000000".
Proof. reflexivity. Qed.
Example format_010d_neg : format_0wd 10 (-5) = "-000000005".
Proof. reflexivity. Qed.
Example endswith_jpg_yes : endswith "0000000005.jpg" ".jpg" = true.
Proof. reflexivity. Qed.
Example endswith_jpg_no : endswith "notes.jpg.txt" ".jpg" = false.
Proof. reflexivity. Qed.
Example pack_one : struct_pack_I 258 = Ok [x02; x01; x00; x00].
Proof. reflexivity. Qed.
Example pack_neg : struct_pack_I (-1) = Raise StructError.
Proof. reflexivity. Qed.
Example unpack_one : u32_of_bytes [x02; x01; x00; x00] = 258.
Proof. reflexivity. Qed.

(* ===================================================================== *)
(** ** Facts about bytes and packing *)
(* ===================================================================== *)

Section BytesFacts.

Lemma land_255_range z : 0 <= Z.land z 255 <= 255.
Proof.
  change 255 with (Z.ones 8) at 1 2. rewrite Z.land_ones by lia.
  pose proof (Z.mod_pos_bound z (2 ^ 8)). lia.
Qed.

Lemma Z_of_byte_of_Z z : Z_of_byte (byte_of_Z z) = Z.land z 255.
Proof.
  unfold Z_of_byte, byte_of_Z.
  pose proof (land_255_range z) as Hr.
  destruct (Byte.of_N (Z.to_N (Z.land z 255))) as [b|] eqn:E.
  - apply Byte.to_of_N in E. rewrite E. lia.
  - apply Byte.of_N_None_iff in E. lia.
Qed.

Lemma testbit_land_255 x i :
  0 <= i -> Z.testbit (Z.land x 255) i = Z.testbit x i && (i <? 8).
Proof.
  intros Hi. change 255 with (Z.ones 8).
  rewrite Z.land_spec, Z.testbit_ones_nonneg by lia. reflexivity.
Qed.

Lemma u32_of_le32 v : 0 <= v < 4294967296 -> u32_of_bytes (le32 v) = v.
Proof.
  intros Hv. unfold le32, u32_of_bytes. rewrite !Z_of_byte_of_Z.
  apply Z.bits_inj'. intros n Hn.
  rewrite !Z.lor_spec, !Z.shiftl_spec, !testbit_land_255 by lia.
  destruct (Z.ltb_spec n 8);
    [ | destruct (Z.ltb_spec n 16);
        [ | destruct (Z.ltb_spec n 24); [ | destruct (Z.ltb_spec n 32)]]].
  - rewrite (Z.testbit_neg_r _ (n - 8)), (Z.testbit_neg_r _ (n - 16)),
      (Z.testbit_neg_r _ (n - 24)) by lia.
    rewrite !orb_false_r, andb_true_r. reflexivity.
  - rewrite (Z.testbit_neg_r _ (n - 16)), (Z.testbit_neg_r _ (n - 24)) by lia.
    rewrite testbit_land_255, Z.shiftr_spec by lia.
    replace (n - 8 + 8) with n by lia.
    assert ((n - 8 <? 8) = true) as -> by lia.
    rewrite !orb_false_r, andb_true_r, andb_false_r. reflexivity.
  - rewrite (Z.testbit_neg_r _ (n - 24)) by lia.
    rewrite !testbit_land_255, !Z.shiftr_spec by lia.
    replace (n - 16 + 16) with n by lia.
    assert ((n - 8 <? 8) = false) as -> by lia.
    assert ((n - 16 <? 8) = true) as -> by lia.
    rewrite !orb_false_r, andb_true_r, !andb_false_r. reflexivity.
  - rewrite !testbit_land_255, !Z.shiftr_spec by lia.
    replace (n - 24 + 24) with n by lia.
    assert ((n - 8 <? 8) = false) as -> by lia.
    assert ((n - 16 <? 8) = false) as -> by lia.
    assert ((n - 24 <? 8) = true) as -> by lia.
    rewrite andb_true_r, !andb_false_r. reflexivity.
  - rewrite !testbit_land_255, !Z.shiftr_spec by lia.
    assert ((n - 8 <? 8) = false) as -> by lia.
    assert ((n - 16 <? 8) = false) as -> by lia.
    assert ((n - 24 <? 8) = false) as -> by lia.
    rewrite !andb_false_r. simpl.
    rewrite <- (Z.mod_small v (2 ^ 32)) by lia.
    rewrite Z.mod_pow2_bits_high by lia. reflexivity.
Qed.

Lemma length_le32 v : List.length (le32 v) = 4%nat.
Proof. reflexivity. Qed.

Lemma struct_pack_I_Ok v b :
  struct_pack_I v = Ok b -> 0 <= v < 4294967296 /\ b = le32 v.
Proof.
  unfold struct_pack_I.
  destruct (Z.leb_spec 0 v), (Z.leb_spec v 4294967295); simpl; intros Hpack;
    inversion Hpack; subst; split; [lia | reflexivity].
Qed.

Lemma struct_pack_I_in_range v :
  0 <= v < 4294967296 -> struct_pack_I v = Ok (le32 v).
Proof.
  intros Hv. unfold struct_pack_I.
  destruct (Z.leb_spec 0 v), (Z.leb_spec v 4294967295); simpl; try lia; reflexivity.
Qed.

(** Entries whose fields fit 32 bits are read back as they were
    written. *)
Lemma index_entries_of_cons t o (rest : list byte) :
  index_entries_of (encode_entry (t, o) ++ rest)
  = (u32_of_bytes (le32 t), u32_of_bytes (le32 o)) :: index_entries_of rest.
Proof. reflexivity. Qed.

Lemma index_entries_of_encode (es : list (Z * Z)) :
  Forall fits_u32 es ->
  index_entries_of (flat_map encode_entry es) = es.
Proof.
  induction 1 as [| [t o] es [Ht Ho] _ IH]; [reflexivity |].
  simpl in Ht, Ho. cbn [flat_map].
  rewrite index_entries_of_cons, IH, !u32_of_le32 by assumption.
  reflexivity.
Qed.

Lemma length_encode_entries (es : list (Z * Z)) :
  List.length (flat_map encode_entry es) = (8 * List.length es)%nat.
Proof. induction es as [| e es IH]; simpl; [reflexivity | lia]. Qed.

End BytesFacts.

(* ===================================================================== *)
(** ** The writer monad and the encoder loops *)
(* ===================================================================== *)

Section WriterFacts.

Variable settings : Settings.

Lemma wr_bind_Ok {A B} (m : Wr A) (f : A -> Wr B) buf b buf' :
  (m ≫= f) buf = (Ok b, buf') ->
  exists a buf1, m buf = (Ok a, buf1) /\ f a buf1 = (Ok b, buf').
Proof.
  unfold mbind, Wr_bind. destruct (m buf) as [[a | e] buf1]; intros H.
  - exists a, buf1. split; [reflexivity | exact H].
  - discriminate H.
Qed.

Lemma wr_bind_run {A B} (m : Wr A) (f : A -> Wr B) buf a buf1 :
  m buf = (Ok a, buf1) -> (m ≫= f) buf = f a buf1.
Proof. unfold mbind, Wr_bind. intros ->. reflexivity. Qed.

Lemma f_write_Ok free bs buf u buf' :
  OS.f_write free bs buf = (Ok u, buf') ->
  buf' = (buf ++ bs)%list /\ Z.of_nat (List.length buf') <= free.
Proof.
  unfold OS.f_write.
  destruct (Z.leb_spec (Z.of_nat (List.length buf + List.length bs)) free);
    intros Hw; inversion Hw; subst.
  rewrite length_app. split; [reflexivity | lia].
Qed.

Lemma f_write_run free bs buf :
  Z.of_nat (List.length (buf ++ bs)) <= free ->
  OS.f_write free bs buf = (Ok tt, (buf ++ bs)%list).
Proof.
  unfold OS.f_write. rewrite length_app.
  destruct (Z.leb_spec (Z.of_nat (List.length buf + List.length bs)) free);
    [reflexivity | lia].
Qed.

Lemma write_packed_Ok free v buf u buf' :
  write_packed free v buf = (Ok u, buf') ->
  buf' = (buf ++ le32 v)%list /\ 0 <= v < 4294967296 /\
  Z.of_nat (List.length buf') <= free.
Proof.
  unfold write_packed. intros H.
  apply wr_bind_Ok in H as (b & buf1 & Hp & Hw).
  unfold wr_lift in Hp. inversion Hp; subst.
  match goal with Hs : struct_pack_I _ = _ |- _ =>
    apply struct_pack_I_Ok in Hs as [Hv ->] end.
  apply f_write_Ok in Hw as [-> Hlen]. auto.
Qed.

Lemma write_packed_run free v buf :
  0 <= v < 4294967296 ->
  Z.of_nat (List.length buf) + 4 <= free ->
  write_packed free v buf = (Ok tt, (buf ++ le32 v)%list).
Proof.
  intros Hv Hfree. unfold write_packed.
  rewrite (wr_bind_run _ _ buf (le32 v) buf).
  - apply f_write_run. rewrite length_app. simpl. lia.
  - unfold wr_lift. rewrite struct_pack_I_in_range by assumption. reflexivity.
Qed.

Lemma frame_bytes_lookup (d : gmap string (list byte)) n c :
  d !! n = Some c -> frame_bytes d n = c.
Proof. unfold frame_bytes. intros ->. reflexivity. Qed.

(** The loop of lines 200-206. *)
Lemma write_index_Ok free d images : forall timestamp image_index buf t' i' buf',
  write_index free d images timestamp image_index buf = (Ok (t', i'), buf') ->
  Forall (fun n => is_Some (d !! n)) images /\
  t' = timestamp + Z.of_nat (List.length images) /\
  i' = image_index + total (map (frame_size d) images) /\
  Forall fits_u32 (index_table (map (frame_size d) images) timestamp image_index) /\
  buf' = (buf ++ flat_map encode_entry
                   (index_table (map (frame_size d) images) timestamp image_index))%list.
Proof.
  induction images as [| image rest IH]; intros timestamp image_index buf t' i' buf' H.
  - inversion H; subst. cbn. rewrite app_nil_r.
    repeat split; try constructor; lia.
  - cbn [write_index] in H.
    apply wr_bind_Ok in H as (sz & b1 & Hsz & H).
    apply wr_bind_Ok in H as (u1 & b2 & Ht & H).
    apply wr_bind_Ok in H as (u2 & b3 & Hi & H).
    unfold wr_lift, OS.stat_size in Hsz.
    destruct (d !! image) as [content |] eqn:Hd; inversion Hsz; subst; clear Hsz.
    apply write_packed_Ok in Ht as (-> & Hrt & _).
    apply write_packed_Ok in Hi as (-> & Hri & _).
    apply IH in H as (Hall & -> & -> & Hfit & ->).
    assert (Hfs : frame_size d image = Z.of_nat (List.length content)).
    { unfold frame_size. rewrite (frame_bytes_lookup _ _ _ Hd). reflexivity. }
    cbn [map index_table flat_map List.length total fold_right].
    rewrite Hfs. fold (total (map (frame_size d) rest)).
    split; [constructor; [rewrite Hd; eauto | exact Hall] |].
    split; [lia |]. split; [lia |].
    split; [constructor; [split; assumption | exact Hfit] |].
    unfold encode_entry at 2. cbn [fst snd]. rewrite <- !app_assoc. reflexivity.
Qed.

(** The loop of lines 211-214. *)
Lemma write_payload_Ok free d images : forall buf u buf',
  write_payload free d images buf = (Ok u, buf') ->
  buf' = (buf ++ payload_bytes d images)%list /\
  (images <> [] -> Z.of_nat (List.length buf') <= free).
Proof.
  induction images as [| image rest IH]; intros buf u buf' H.
  - inversion H; subst. cbn. rewrite app_nil_r. split; [reflexivity | congruence].
  - cbn [write_payload] in H.
    apply wr_bind_Ok in H as (content & b1 & Hc & H).
    apply wr_bind_Ok in H as (u1 & b2 & Hw & H).
    unfold wr_lift, OS.read_bytes in Hc.
    destruct (d !! image) as [c |] eqn:Hd; inversion Hc; subst; clear Hc.
    apply f_write_Ok in Hw as [-> Hlen].
    apply IH in H as [-> Hfree].
    unfold payload_bytes. cbn [flat_map].
    rewrite (frame_bytes_lookup _ _ _ Hd), <- app_assoc.
    split; [reflexivity |].
    intros _. destruct rest as [| r rest'].
    + cbn [flat_map]. rewrite app_nil_r. exact Hlen.
    + rewrite app_assoc. apply Hfree. congruence.
Qed.

Lemma write_header_Ok free count buf u buf' :
  write_header settings free count buf = (Ok u, buf') ->
  buf' = (buf ++ header_bytes count (1000 * PLEX_BIF_FRAME_INTERVAL settings))%list /\
  0 <= count < 4294967296 /\
  0 <= 1000 * PLEX_BIF_FRAME_INTERVAL settings < 4294967296.
Proof.
  unfold write_header. intros H.
  apply wr_bind_Ok in H as (u1 & b1 & H1 & H).
  apply wr_bind_Ok in H as (u2 & b2 & H2 & H).
  apply wr_bind_Ok in H as (u3 & b3 & H3 & H).
  apply wr_bind_Ok in H as (u4 & b4 & H4 & H).
  apply f_write_Ok in H1 as [-> _].
  apply write_packed_Ok in H2 as (-> & _ & _).
  apply write_packed_Ok in H3 as (-> & Hc & _).
  apply write_packed_Ok in H4 as (-> & Hi & _).
  apply f_write_Ok in H as [-> _].
  unfold header_bytes. rewrite <- !app_assoc. auto.
Qed.

(** What a completed [with] block has written. *)
Lemma bif_body_Ok d images free u out :
  bif_body settings d images free [] = (Ok u, out) ->
  Forall (fun n => is_Some (d !! n)) images /\
  0 <= 1000 * PLEX_BIF_FRAME_INTERVAL settings < 4294967296 /\
  Forall fits_u32 (table_entries d images) /\
  Z.of_nat (List.length out) <= free /\
  out = (header_bytes (Z.of_nat (List.length images))
           (1000 * PLEX_BIF_FRAME_INTERVAL settings)
         ++ flat_map encode_entry (table_entries d images)
         ++ payload_bytes d images)%list.
Proof.
  unfold bif_body. intros H.
  apply wr_bind_Ok in H as (u1 & b1 & Hh & H).
  apply wr_bind_Ok in H as ([t' i'] & b2 & Hx & H).
  apply wr_bind_Ok in H as (u2 & b3 & Hs1 & H).
  apply wr_bind_Ok in H as (u3 & b4 & Hs2 & H).
  apply write_header_Ok in Hh as (-> & Hc & Hi). cbn [app] in Hx.
  apply write_index_Ok in Hx as (Hall & -> & -> & Hfit & ->).
  apply write_packed_Ok in Hs1 as (-> & Hr1 & _).
  apply write_packed_Ok in Hs2 as (-> & Hr2 & Hlen).
  apply write_payload_Ok in H as [-> Hfree].
  split; [exact Hall |]. split; [exact Hi |].
  assert (Hent : Forall fits_u32 (table_entries d images)).
  { unfold table_entries. apply Forall_app. split; [exact Hfit |].
    constructor; [split; cbn [fst snd]; [lia | exact Hr2] | constructor]. }
  split; [exact Hent |]. split.
  - destruct images as [| i0 rest].
    + cbn [payload_bytes flat_map]. rewrite app_nil_r. exact Hlen.
    + apply Hfree. congruence.
  - unfold table_entries. rewrite flat_map_app. cbn [flat_map].
    rewrite app_nil_r. unfold encode_entry at 2. cbn [fst snd].
    unfold first_offset. rewrite <- !app_assoc. reflexivity.
Qed.

End WriterFacts.

(* ===================================================================== *)
(** ** [generate_bif] *)
(* ===================================================================== *)

Section EncoderFacts.

Variable settings : Settings.

Lemma io_bind_Ok {A B} (m : IO A) (f : A -> IO B) w b w' :
  (m ≫= f) w = (Ok b, w') ->
  exists a w1, m w = (Ok a, w1) /\ f a w1 = (Ok b, w').
Proof.
  unfold mbind, IO_bind. destruct (m w) as [[a | e] w1]; intros H.
  - exists a, w1. split; [reflexivity | exact H].
  - discriminate H.
Qed.


Lemma io_bind_raise {A B} (m : IO A) (f : A -> IO B) w e w1 :
  m w = (Raise e, w1) -> (m ≫= f) w = (Raise e, w1).
Proof. unfold mbind, IO_bind. intros ->. reflexivity. Qed.

(** The images the encoder works on. *)
Lemma elem_of_keys (d : gmap string (list byte)) n :
  n ∈ (map_to_list d).*1 <-> is_Some (d !! n).
Proof.
  rewrite list_elem_of_fmap. split.
  - intros [[k v] [-> Hin]]. apply elem_of_map_to_list in Hin. eauto.
  - intros [v Hv]. exists (n, v). split; [reflexivity |].
    apply elem_of_map_to_list. exact Hv.
Qed.

Lemma elem_of_jpg_images entries n :
  n ∈ jpg_images entries <-> n ∈ entries /\ endswith n ".jpg" = true.
Proof.
  unfold jpg_images. rewrite merge_sort_Permutation, list_elem_of_filter. tauto.
Qed.

Lemma jpg_images_sorted entries : Sorted String.le (jpg_images entries).
Proof. apply Sorted_merge_sort. apply _. Qed.

Lemma jpg_images_NoDup entries : NoDup entries -> NoDup (jpg_images entries).
Proof.
  intros Hnd. unfold jpg_images. rewrite merge_sort_Permutation.
  apply NoDup_filter. exact Hnd.
Qed.

Lemma jpg_images_lookup (d : gmap string (list byte)) :
  Forall (fun n => is_Some (d !! n)) (images_of d).
Proof.
  apply Forall_forall. intros n Hn.
  apply elem_of_jpg_images in Hn as [Hn _]. apply elem_of_keys. exact Hn.
Qed.

(** A completed [generate_bif]: the world differs by the artifact only. *)
Lemma generate_bif_Ok bif_filename images_path w u w' :
  generate_bif settings bif_filename images_path w = (Ok u, w') ->
  exists d,
    dirs w !! images_path = Some d /\
    w' = set_files (<[bif_filename := bif_of (PLEX_BIF_FRAME_INTERVAL settings) d]> (files w)) w /\
    0 <= 1000 * PLEX_BIF_FRAME_INTERVAL settings < 4294967296 /\
    Forall fits_u32 (table_entries d (images_of d)) /\
    Z.of_nat (List.length (bif_of (PLEX_BIF_FRAME_INTERVAL settings) d)) <= disk_free w.
Proof.
  unfold generate_bif, mbind, IO_bind, OS.listdir, OS.entries_of, OS.with_open_wb.
  destruct (dirs w !! images_path) as [d |] eqn:Hd; [| discriminate].
  cbn beta iota. rewrite Hd. cbn [default from_option id].
  destruct (dirs w !! bif_filename); [discriminate |].
  destruct (OS.parent_error bif_filename w); [discriminate |].
  fold (images_of d).
  destruct (bif_body settings d (images_of d) (disk_free w) []) as [r out] eqn:Hb.
  cbn beta iota zeta. intros H. injection H as Hr Hw. rewrite Hr in Hb.
  apply bif_body_Ok in Hb as (_ & Hi & Hfit & Hlen & Hout).
  rewrite Hout in Hw. rewrite Hout in Hlen.
  exists d. unfold bif_of. auto.
Qed.

(** A completed [generate_bif] has found the place of its file: no
    directory of that name, and the directory it goes to. *)
Lemma generate_bif_Ok_place bif_filename images_path w u w' :
  generate_bif settings bif_filename images_path w = (Ok u, w') ->
  dirs w !! bif_filename = None /\ OS.parent_error bif_filename w = None.
Proof.
  unfold generate_bif, mbind, IO_bind, OS.listdir, OS.entries_of, OS.with_open_wb.
  destruct (dirs w !! images_path) as [d |] eqn:Hd; [| discriminate].
  cbn beta iota. rewrite Hd. cbn [default from_option id].
  destruct (dirs w !! bif_filename); [discriminate |].
  destruct (OS.parent_error bif_filename w); [discriminate |].
  auto.
Qed.

(** Whatever its result, [generate_bif] touches nothing but the file it
    writes. *)
Lemma generate_bif_frame bif_filename images_path w r w' :
  generate_bif settings bif_filename images_path w = (r, w') ->
  dirs w' = dirs w /\ metrics w' = metrics w /\ spawned w' = spawned w /\
  disk_free w' = disk_free w /\
  (w' = w \/ exists out, files w' = <[bif_filename := out]> (files w)).
Proof.
  unfold generate_bif, mbind, IO_bind, OS.listdir, OS.entries_of, OS.with_open_wb.
  destruct (dirs w !! images_path) as [d |].
  - destruct (dirs w !! bif_filename).
    + intros H; inversion H; subst. auto 10.
    + destruct (OS.parent_error bif_filename w).
      * intros H; inversion H; subst. auto 10.
      * cbn beta iota.
        match goal with |- context [bif_body ?s ?dd ?im ?fr ?b] =>
          destruct (bif_body s dd im fr b) as [r0 out] end.
        intros H; inversion H; subst. cbn. eauto 10.
  - intros H; inversion H; subst. auto 10.
Qed.

End EncoderFacts.

(* ===================================================================== *)
(** ** Shape of the index table *)
(* ===================================================================== *)

Section TableFacts.

Lemma offsets_running sizes : forall t i x,
  map snd (index_table sizes t i ++ [(x, i + total sizes)]) = running sizes i.
Proof.
  induction sizes as [| s rest IH]; intros t i x; cbn.
  - rewrite Z.add_0_r. reflexivity.
  - f_equal. rewrite <- (IH (t + 1) (i + s) x). rewrite Z.add_assoc. reflexivity.
Qed.

Lemma timestamps_index_table sizes : forall t i,
  map fst (index_table sizes t i)
  = map (fun k => t + Z.of_nat k) (seq 0 (List.length sizes)).
Proof.
  induction sizes as [| s rest IH]; intros t i; cbn; [reflexivity |].
  f_equal; [lia |]. rewrite IH, <- seq_shift, List.map_map.
  apply List.map_ext. intros k. lia.
Qed.

Lemma running_head sizes i : running sizes i !! 0%nat = Some i.
Proof. destruct sizes; reflexivity. Qed.

Lemma running_step sizes : forall i k s o,
  sizes !! k = Some s ->
  running sizes i !! k = Some o ->
  running sizes i !! S k = Some (o + s).
Proof.
  induction sizes as [| s0 rest IH]; intros i k s o Hs Ho; [discriminate Hs |].
  destruct k as [| k].
  - cbn in Hs, Ho. inversion Hs; inversion Ho; subst. cbn. apply running_head.
  - cbn in Hs, Ho |- *. eapply IH; eassumption.
Qed.

Lemma running_last sizes : forall i, last (running sizes i) = Some (i + total sizes).
Proof.
  induction sizes as [| s rest IH]; intros i.
  - cbn. rewrite Z.add_0_r. reflexivity.
  - cbn [running total fold_right]. rewrite last_cons, IH. f_equal.
    fold (total rest). lia.
Qed.

Lemma length_index_table sizes : forall t i,
  List.length (index_table sizes t i) = List.length sizes.
Proof. induction sizes as [| s r IH]; intros t i; cbn; [| rewrite IH]; reflexivity. Qed.

Lemma length_table_entries d images :
  List.length (table_entries d images) = S (List.length images).
Proof.
  unfold table_entries. cbn zeta.
  rewrite length_app, length_index_table, length_map.
  cbn [List.length]. lia.
Qed.

Lemma total_nonneg sizes : Forall (fun s => 0 <= s) sizes -> 0 <= total sizes.
Proof. unfold total. induction 1; cbn [fold_right]; lia. Qed.

Lemma length_payload_bytes d images :
  Z.of_nat (List.length (payload_bytes d images)) = total (map (frame_size d) images).
Proof.
  unfold payload_bytes. induction images as [| n r IH]; cbn; [reflexivity |].
  rewrite length_app, Nat2Z.inj_add, IH. reflexivity.
Qed.

Lemma length_header_bytes c i : List.length (header_bytes c i) = 76%nat.
Proof. reflexivity. Qed.

Lemma header_fields c i (rest : list byte) :
  0 <= c < 4294967296 -> 0 <= i < 4294967296 ->
  let out := (header_bytes c i ++ rest)%list in
  take 8 out = magic /\ u32_at 8 out = 0 /\ u32_at 12 out = c /\
  u32_at 16 out = i /\ take 56 (drop 20 out) = repeat x00 56.
Proof.
  intros Hc Hi out.
  assert (H8 : u32_at 8 out = u32_of_bytes (le32 version)) by reflexivity.
  assert (H12 : u32_at 12 out = u32_of_bytes (le32 c)) by reflexivity.
  assert (H16 : u32_at 16 out = u32_of_bytes (le32 i)) by reflexivity.
  rewrite H8, H12, H16, !u32_of_le32 by (unfold version; lia).
  repeat split; reflexivity.
Qed.

(** Cutting a written artifact into header, table and payload. *)
Lemma split_artifact (hdr table payload : list byte) n m :
  List.length hdr = n -> List.length table = m ->
  take m (drop n (hdr ++ table ++ payload)) = table.
Proof.
  intros <- <-. rewrite drop_app_length, take_app_length. reflexivity.
Qed.

End TableFacts.

(* ===================================================================== *)
(** ** Positions in a sorted list of names *)
(* ===================================================================== *)

Section SortedPositions.

Lemma le_ne_ltb a b : String.le a b -> a <> b -> String.ltb a b = true.
Proof.
  unfold String.le, String.leb, String.ltb. intros Hle Hne.
  destruct (String.compare a b) eqn:Hc; [| reflexivity | destruct Hle].
  apply String.compare_eq_iff in Hc. contradiction.
Qed.

Lemma le_not_ltb a b : String.le a b -> String.ltb b a = false.
Proof.
  unfold String.le, String.leb, String.ltb. intros Hle.
  rewrite String.compare_antisym.
  destruct (String.compare a b); [reflexivity | reflexivity | destruct Hle].
Qed.

Lemma filter_all {A} (P : A -> Prop) `{forall x, Decision (P x)} (l : list A) :
  Forall P l -> filter P l = l.
Proof.
  induction 1 as [| x l Hx _ IH]; [reflexivity |].
  rewrite filter_cons_True by exact Hx. rewrite IH. reflexivity.
Qed.

Lemma filter_none {A} (P : A -> Prop) `{forall x, Decision (P x)} (l : list A) :
  Forall (fun x => ~ P x) l -> filter P l = [].
Proof.
  induction 1 as [| x l Hx _ IH]; [reflexivity |].
  rewrite filter_cons_False by exact Hx. exact IH.
Qed.

Lemma StronglySorted_filter {A} (R : relation A) (P : A -> Prop)
    `{forall x, Decision (P x)} (l : list A) :
  StronglySorted R l -> StronglySorted R (filter P l).
Proof.
  induction 1 as [| x l _ IH Hx]; [constructor |].
  rewrite filter_cons. destruct (decide (P x)); [| exact IH].
  constructor; [exact IH |].
  apply Forall_forall. intros y Hy. apply list_elem_of_filter in Hy as [_ Hy].
  rewrite Forall_forall in Hx. auto.
Qed.

(** In a sorted list without repetitions, the names in front of a name
    are those that sort strictly before it. *)
Lemma sorted_split (l : list string) k x :
  Sorted String.le l -> NoDup l -> l !! k = Some x ->
  Forall (fun n => String.ltb n x = true) (take k l) /\
  Forall (fun n => String.ltb n x = false) (drop (S k) l).
Proof.
  intros Hs Hnd Hk.
  apply Sorted_StronglySorted in Hs; [| apply _].
  rewrite <- (take_drop_middle l k x Hk) in Hs, Hnd.
  apply NoDup_app in Hnd as (_ & Hdisj & Hnd2).
  apply NoDup_cons in Hnd2 as [Hx2 _].
  split; apply Forall_forall; intros n Hn.
  - apply le_ne_ltb.
    + apply (StronglySorted_app_1_elem_of _ _ _ n x Hs Hn). left.
    + intros ->. apply (Hdisj x Hn). left.
  - apply le_not_ltb.
    apply StronglySorted_app_1_r in Hs.
    apply StronglySorted_cons in Hs as [Hall _].
    rewrite Forall_forall in Hall. auto.
Qed.

Lemma ltb_irrefl x : String.ltb x x = false.
Proof.
  unfold String.ltb. pose proof (String.compare_antisym x x) as Hc.
  destruct (String.compare x x); [reflexivity | discriminate Hc | reflexivity].
Qed.

(** The position of a name is the number of names that sort strictly
    before it. *)
Lemma sorted_rank (l : list string) k x :
  Sorted String.le l -> NoDup l -> l !! k = Some x ->
  List.length (filter (fun n => String.ltb n x = true) l) = k.
Proof.
  intros Hs Hnd Hk.
  destruct (sorted_split l k x Hs Hnd Hk) as [Hbefore Hafter].
  rewrite <- (take_drop_middle l k x Hk) at 1.
  rewrite filter_app, filter_cons_False
    by (rewrite ltb_irrefl; discriminate).
  rewrite (filter_all _ _ Hbefore), filter_none, app_nil_r.
  - rewrite length_take. apply lookup_lt_Some in Hk. lia.
  - eapply Forall_impl; [exact Hafter |]. cbn. intros n ->. discriminate.
Qed.

Lemma length_filter_ne (l : list string) m :
  NoDup l ->
  List.length (filter (fun n => n <> m) l)
  = if decide (m ∈ l) then (List.length l - 1)%nat else List.length l.
Proof.
  induction 1 as [| y l Hy Hnd IH]; [reflexivity |].
  rewrite filter_cons. destruct (decide (y <> m)) as [Hne | Heq].
  - cbn [List.length]. rewrite IH.
    destruct (decide (m ∈ l)) as [Hin | Hnin].
    + rewrite decide_True by (right; exact Hin).
      destruct l; [inversion Hin | cbn; lia].
    + rewrite decide_False; [reflexivity |].
      intros Hin. apply elem_of_cons in Hin as [-> | Hin]; [| contradiction].
      apply Hne. reflexivity.
  - assert (y = m) as -> by (destruct (decide (y = m)); [assumption | contradiction]).
    rewrite decide_True by left.
    rewrite filter_all.
    + cbn. lia.
    + apply Forall_forall. intros n Hn ->. contradiction.
Qed.

(** Without the name [m], a name that sorts after [m] is found one
    position earlier and a name that sorts before [m] where it was. *)
Lemma sorted_without (l : list string) m k x :
  Sorted String.le l -> NoDup l -> m ∈ l -> l !! k = Some x -> x <> m ->
  filter (fun n => n <> m) l !! (if String.ltb m x then k - 1 else k)%nat = Some x.
Proof.
  intros Hs Hnd Hm Hk Hne.
  destruct (sorted_split l k x Hs Hnd Hk) as [Hbefore Hafter].
  assert (Hlen : List.length (take k l) = k).
  { rewrite length_take. apply lookup_lt_Some in Hk. lia. }
  assert (Hpos : List.length (filter (fun n => n <> m) (take k l))
                 = (if String.ltb m x then k - 1 else k)%nat).
  { rewrite length_filter_ne, Hlen.
    2:{ rewrite <- (take_drop k l) in Hnd. apply NoDup_app in Hnd as [? _].
        assumption. }
    destruct (decide (m ∈ take k l)) as [Hin | Hnin].
    - rewrite Forall_forall in Hbefore. rewrite (Hbefore m Hin). reflexivity.
    - destruct (String.ltb m x) eqn:Hlt; [| reflexivity].
      exfalso. rewrite <- (take_drop_middle l k x Hk) in Hm.
      apply elem_of_app in Hm as [Hm | Hm]; [contradiction |].
      apply elem_of_cons in Hm as [-> | Hm]; [contradiction |].
      rewrite Forall_forall in Hafter. rewrite (Hafter m Hm) in Hlt.
      discriminate. }
  rewrite <- (take_drop_middle l k x Hk) at 1.
  rewrite filter_app, filter_cons_True by exact Hne.
  rewrite <- Hpos. apply list_lookup_middle. reflexivity.
Qed.

End SortedPositions.

(* ===================================================================== *)
(** ** The artifact written by [generate_bif] *)
(* ===================================================================== *)

Section ArtifactTheorems.

Variable settings : Settings.

(** A completed call leaves [bif_of] of the directory at the target. *)
Lemma generate_bif_artifact bif_filename images_path w u w' :
  generate_bif settings bif_filename images_path w = (Ok u, w') ->
  exists d,
    dirs w !! images_path = Some d /\
    files w' !! bif_filename = Some (bif_of (PLEX_BIF_FRAME_INTERVAL settings) d) /\
    0 <= 1000 * PLEX_BIF_FRAME_INTERVAL settings < 4294967296 /\
    0 <= Z.of_nat (List.length (images_of d)) < 4294967296 /\
    Forall fits_u32 (table_entries d (images_of d)).
Proof.
  intros H. apply generate_bif_Ok in H as (d & Hd & -> & Hi & Hfit & _).
  exists d. split; [exact Hd |]. split; [apply lookup_insert_eq |].
  split; [exact Hi |]. split; [| exact Hfit].
  assert (Hlast : fits_u32 (4294967295,
            first_offset (images_of d) + total (map (frame_size d) (images_of d)))).
  { unfold table_entries in Hfit. apply Forall_app in Hfit as [_ Hs].
    inversion Hs; assumption. }
  destruct Hlast as [_ Hoff]. cbn [snd] in Hoff. unfold first_offset in Hoff.
  assert (0 <= total (map (frame_size d) (images_of d))).
  { apply total_nonneg, Forall_forall. intros s Hs.
    apply list_elem_of_In, in_map_iff in Hs as (n & <- & _).
    unfold frame_size. lia. }
  lia.
Qed.

Lemma table_of_artifact d :
  Forall fits_u32 (table_entries d (images_of d)) ->
  index_entries_of
    (take (8 * S (List.length (images_of d)))
       (drop 76 (bif_of (PLEX_BIF_FRAME_INTERVAL settings) d)))
  = table_entries d (images_of d).
Proof.
  intros Hfit. unfold bif_of.
  rewrite (split_artifact _ _ _ 76 (8 * S (List.length (images_of d)))).
  - apply index_entries_of_encode, Hfit.
  - apply length_header_bytes.
  - rewrite length_encode_entries, length_table_entries. reflexivity.
Qed.

(** Claim C9: the encoder works on exactly the directory entries whose
    names end with [.jpg], in sorted order.  The frame count field
    is their number, the index table has one entry for each of them plus
    the closing entry, and the payload is the concatenation of their
    bytes in that order, so no other entry contributes to any of the
    three. *)
Theorem encoder_enumerates_sorted_jpg_entries bif_filename images_path w w' :
  generate_bif settings bif_filename images_path w = (Ok tt, w') ->
  exists d out table,
    dirs w !! images_path = Some d /\
    files w' !! bif_filename = Some out /\
    (forall n, n ∈ images_of d <-> is_Some (d !! n) /\ endswith n ".jpg" = true) /\
    Sorted String.le (images_of d) /\
    NoDup (images_of d) /\
    u32_at 12 out = Z.of_nat (List.length (images_of d)) /\
    out = (header_bytes (Z.of_nat (List.length (images_of d)))
             (1000 * PLEX_BIF_FRAME_INTERVAL settings)
           ++ table ++ flat_map (frame_bytes d) (images_of d))%list /\
    List.length table = (8 * S (List.length (images_of d)))%nat /\
    List.length (index_entries_of table) = S (List.length (images_of d)).
Proof.
  intros H. apply generate_bif_artifact in H as (d & Hd & Hout & Hi & Hn & Hfit).
  exists d, (bif_of (PLEX_BIF_FRAME_INTERVAL settings) d),
    (flat_map encode_entry (table_entries d (images_of d))).
  split; [exact Hd |]. split; [exact Hout |].
  split.
  { intros n. unfold images_of. rewrite elem_of_jpg_images, elem_of_keys. tauto. }
  split; [apply jpg_images_sorted |].
  split; [apply jpg_images_NoDup, NoDup_fst_map_to_list |].
  split.
  { unfold bif_of.
    apply (header_fields _ _ _ Hn Hi). }
  split; [reflexivity |].
  split.
  - rewrite length_encode_entries, length_table_entries. reflexivity.
  - rewrite index_entries_of_encode by exact Hfit. apply length_table_entries.
Qed.

(** Claim C10: the timestamp fields of the index table are the positions
    0, 1, ..., N-1 of the images, followed by the closing 0xFFFFFFFF.
    The images are the [.jpg] entries of the directory, each once, in
    sorted order, so the timestamp of an image is the number of [.jpg]
    entries whose names sort strictly before its name, whatever numbers
    the names carry.  In a directory that lacks the entry [m], every
    image that sorts after [m] is therefore found one position earlier
    (and gets a timestamp one less), and every image that sorts before
    [m] where it was: no gap is left. *)
Theorem index_timestamps_are_positions bif_filename images_path w w' :
  generate_bif settings bif_filename images_path w = (Ok tt, w') ->
  exists d images out table,
    dirs w !! images_path = Some d /\
    files w' !! bif_filename = Some out /\
    (forall n, n ∈ images <-> is_Some (d !! n) /\ endswith n ".jpg" = true) /\
    Sorted String.le images /\
    NoDup images /\
    out = (header_bytes (Z.of_nat (List.length images))
             (1000 * PLEX_BIF_FRAME_INTERVAL settings)
           ++ table ++ payload_bytes d images)%list /\
    List.length table = (8 * S (List.length images))%nat /\
    map fst (index_entries_of table)
    = (map Z.of_nat (seq 0 (List.length images)) ++ [4294967295])%list /\
    (forall k name,
        images !! k = Some name ->
        map fst (index_entries_of table) !! k = Some (Z.of_nat k) /\
        List.length (filter (fun n => String.ltb n name = true) images) = k) /\
    (forall m images',
        m ∈ images ->
        (forall n, n ∈ images' <->
                   is_Some (delete m d !! n) /\ endswith n ".jpg" = true) ->
        Sorted String.le images' -> NoDup images' ->
        forall k name,
          images !! k = Some name -> name <> m ->
          images' !! (if String.ltb m name then k - 1 else k)%nat = Some name).
Proof.
  intros H. apply generate_bif_artifact in H as (d & Hd & Hout & Hi & Hn & Hfit).
  assert (Hmem : forall n, n ∈ images_of d <->
                           is_Some (d !! n) /\ endswith n ".jpg" = true).
  { intros n. unfold images_of. rewrite elem_of_jpg_images, elem_of_keys. tauto. }
  assert (Hs : Sorted String.le (images_of d)) by apply jpg_images_sorted.
  assert (Hnd : NoDup (images_of d))
    by apply jpg_images_NoDup, NoDup_fst_map_to_list.
  assert (Hts : map fst (index_entries_of
                           (flat_map encode_entry (table_entries d (images_of d))))
                = (map Z.of_nat (seq 0 (List.length (images_of d)))
                   ++ [4294967295])%list).
  { rewrite index_entries_of_encode by exact Hfit.
    unfold table_entries. cbn zeta. rewrite List.map_app, timestamps_index_table.
    rewrite length_map. cbn [map fst]. f_equal. }
  exists d, (images_of d), (bif_of (PLEX_BIF_FRAME_INTERVAL settings) d),
    (flat_map encode_entry (table_entries d (images_of d))).
  split; [exact Hd |]. split; [exact Hout |]. split; [exact Hmem |].
  split; [exact Hs |]. split; [exact Hnd |]. split; [reflexivity |].
  split; [rewrite length_encode_entries, length_table_entries; reflexivity |].
  split; [exact Hts |].
  split.
  - intros k name Hk. split; [| exact (sorted_rank _ _ _ Hs Hnd Hk)].
    rewrite Hts. apply lookup_lt_Some in Hk as Hlt.
    rewrite lookup_app_l by (rewrite length_map, length_seq; exact Hlt).
    change (map Z.of_nat (seq 0 (List.length (images_of d))))
      with (Z.of_nat <$> seq 0 (List.length (images_of d))).
    rewrite list_lookup_fmap, lookup_seq_lt by exact Hlt. reflexivity.
  - intros m images' Hm Hmem' Hs' Hnd' k name Hk Hne.
    assert (Heq : images' = filter (fun n => n <> m) (images_of d)).
    { apply (Sorted_unique String.le); [exact Hs' | |].
      - apply StronglySorted_Sorted, StronglySorted_filter.
        apply Sorted_StronglySorted; [apply _ | exact Hs].
      - apply NoDup_Permutation; [exact Hnd' | apply NoDup_filter, Hnd |].
        intros n. rewrite Hmem', list_elem_of_filter, Hmem.
        destruct (decide (n = m)) as [-> | Hnm].
        + rewrite lookup_delete_eq. split; [intros [[? ?] _]; discriminate |].
          intros [Hc _]. destruct Hc. reflexivity.
        + rewrite lookup_delete_ne by congruence. tauto. }
    rewrite Heq. apply sorted_without; assumption.
Qed.


Lemma length_bif_of d :
  Z.of_nat (List.length (bif_of (PLEX_BIF_FRAME_INTERVAL settings) d))
  = 76 + (8 + 8 * Z.of_nat (List.length (images_of d)))
    + total (map (frame_size d) (images_of d)).
Proof.
  unfold bif_of.
  rewrite !length_app, length_header_bytes, length_encode_entries,
    length_table_entries, !Nat2Z.inj_add, length_payload_bytes.
  lia.
Qed.

Lemma payload_of_artifact d :
  drop (76 + 8 * S (List.length (images_of d)))
    (bif_of (PLEX_BIF_FRAME_INTERVAL settings) d)
  = payload_bytes d (images_of d).
Proof.
  unfold bif_of. rewrite <- drop_drop.
  match goal with |- context [(header_bytes ?c ?i ++ ?r)%list] =>
    rewrite (drop_app_length' (header_bytes c i) r 76 (length_header_bytes c i))
  end.
  apply drop_app_length'.
  rewrite length_encode_entries, length_table_entries. reflexivity.
Qed.

(** Claim C2 (not met by the code): what [generate_bif] puts in front of
    the index table is the magic, version 0, the frame count, the
    interval in milliseconds and 56 zero bytes, which makes 76 bytes and
    not 64: the index table, of 8 + 8N bytes, is found from byte 76 on
    and the payload after it. *)
Theorem header_occupies_76_bytes bif_filename images_path w w' :
  generate_bif settings bif_filename images_path w = (Ok tt, w') ->
  exists d out,
    dirs w !! images_path = Some d /\
    files w' !! bif_filename = Some out /\
    take 8 out = magic /\
    u32_at 8 out = 0 /\
    u32_at 12 out = Z.of_nat (List.length (images_of d)) /\
    u32_at 16 out = 1000 * PLEX_BIF_FRAME_INTERVAL settings /\
    take 56 (drop 20 out) = repeat x00 56 /\
    index_entries_of (take (8 * S (List.length (images_of d))) (drop 76 out))
    = table_entries d (images_of d) /\
    List.length (table_entries d (images_of d)) = S (List.length (images_of d)) /\
    drop (76 + 8 * S (List.length (images_of d))) out
    = payload_bytes d (images_of d).
Proof.
  intros H. apply generate_bif_artifact in H as (d & Hd & Hout & Hi & Hn & Hfit).
  exists d, (bif_of (PLEX_BIF_FRAME_INTERVAL settings) d).
  split; [exact Hd |]. split; [exact Hout |].
  pose proof (header_fields _ _
    (flat_map encode_entry (table_entries d (images_of d))
     ++ payload_bytes d (images_of d)) Hn Hi) as (Hm & Hv & Hc & Hint & Hpad).
  split; [exact Hm |]. split; [exact Hv |]. split; [exact Hc |].
  split; [exact Hint |]. split; [exact Hpad |].
  split; [apply table_of_artifact, Hfit |].
  split; [apply length_table_entries | apply payload_of_artifact].
Qed.

(** Claim C3 (not met by the code): in the index table the first offset
    is 64 plus the table size, every further offset adds the size of the
    previous frame file (so the offsets grow strictly when no frame file
    is empty), and the closing entry carries 0xFFFFFFFF; but its offset
    is 12 less than the length of the file, because 76 bytes and not 64
    precede the table. *)
Theorem closing_offset_is_12_short bif_filename images_path w w' :
  generate_bif settings bif_filename images_path w = (Ok tt, w') ->
  exists d out entries,
    dirs w !! images_path = Some d /\
    files w' !! bif_filename = Some out /\
    entries
    = index_entries_of (take (8 * S (List.length (images_of d))) (drop 76 out)) /\
    map snd entries !! 0%nat
    = Some (64 + (8 + 8 * Z.of_nat (List.length (images_of d)))) /\
    (forall k name o,
        images_of d !! k = Some name ->
        map snd entries !! k = Some o ->
        map snd entries !! S k = Some (o + frame_size d name)) /\
    (forall k o o',
        Forall (fun name => 0 < frame_size d name) (images_of d) ->
        map snd entries !! k = Some o ->
        map snd entries !! S k = Some o' ->
        o < o') /\
    last entries = Some (4294967295, Z.of_nat (List.length out) - 12).
Proof.
  intros H. apply generate_bif_artifact in H as (d & Hd & Hout & Hi & Hn & Hfit).
  exists d, (bif_of (PLEX_BIF_FRAME_INTERVAL settings) d),
    (table_entries d (images_of d)).
  split; [exact Hd |]. split; [exact Hout |].
  split; [symmetry; apply table_of_artifact, Hfit |].
  assert (Hoffs : map snd (table_entries d (images_of d))
                  = running (map (frame_size d) (images_of d))
                      (first_offset (images_of d))).
  { unfold table_entries. apply offsets_running. }
  assert (Hstep : forall k name o,
             images_of d !! k = Some name ->
             map snd (table_entries d (images_of d)) !! k = Some o ->
             map snd (table_entries d (images_of d)) !! S k
             = Some (o + frame_size d name)).
  { intros k name o Hk Ho. rewrite Hoffs in Ho |- *.
    eapply running_step; [| exact Ho].
    change (map (frame_size d) (images_of d)) with (frame_size d <$> images_of d).
    rewrite list_lookup_fmap, Hk. reflexivity. }
  split; [rewrite Hoffs; apply running_head |].
  split; [exact Hstep |].
  split.
  - intros k o o' Hpos Ho Ho'.
    destruct (images_of d !! k) as [name |] eqn:Hk.
    + rewrite (Hstep k name o Hk Ho) in Ho'. inversion Ho'; subst.
      rewrite Forall_forall in Hpos.
      specialize (Hpos name (list_elem_of_lookup_2 _ _ _ Hk)). lia.
    + apply lookup_ge_None in Hk.
      assert (Hnone : map snd (table_entries d (images_of d)) !! S k = None).
      { apply lookup_ge_None. rewrite length_map, length_table_entries. lia. }
      rewrite Hnone in Ho'. discriminate Ho'.
  - unfold table_entries. cbn zeta. rewrite last_snoc. do 2 f_equal.
    rewrite length_bif_of. unfold first_offset. lia.
Qed.

End ArtifactTheorems.

(* ===================================================================== *)
(** ** When the encoder completes *)
(* ===================================================================== *)

Section EncoderCompletes.

Variable settings : Settings.

Lemma index_table_fits sizes : forall t i,
  Forall (fun s => 0 <= s) sizes ->
  0 <= t -> t + Z.of_nat (List.length sizes) <= 4294967296 ->
  0 <= i -> i + total sizes < 4294967296 ->
  Forall fits_u32 (index_table sizes t i).
Proof.
  induction sizes as [| s rest IH]; intros t i Hs Ht Htn Hi Hin; [constructor |].
  inversion Hs as [| ? ? Hs0 Hrest]; subst.
  pose proof (total_nonneg rest Hrest) as Htot.
  cbn [index_table]. cbn [total fold_right] in Hin. fold (total rest) in Hin.
  cbn [List.length] in Htn.
  constructor.
  - split; cbn [fst snd]; lia.
  - apply IH; try assumption; lia.
Qed.

Lemma frame_sizes_nonneg d images :
  Forall (fun s => 0 <= s) (map (frame_size d) images).
Proof.
  apply Forall_forall. intros s Hs.
  apply list_elem_of_In, in_map_iff in Hs as (n & <- & _).
  unfold frame_size. lia.
Qed.

Lemma write_index_run free d images : forall timestamp image_index buf,
  Forall (fun n => is_Some (d !! n)) images ->
  Forall fits_u32 (index_table (map (frame_size d) images) timestamp image_index) ->
  Z.of_nat (List.length buf) + 8 * Z.of_nat (List.length images) <= free ->
  write_index free d images timestamp image_index buf
  = (Ok (timestamp + Z.of_nat (List.length images),
         image_index + total (map (frame_size d) images)),
     (buf ++ flat_map encode_entry
               (index_table (map (frame_size d) images) timestamp image_index))%list).
Proof.
  induction images as [| image rest IH]; intros timestamp image_index buf Hall Hfit Hfree.
  - cbn. rewrite app_nil_r, !Z.add_0_r. reflexivity.
  - inversion Hall as [| ? ? [content Hc] Hrest]; subst.
    cbn [map index_table] in Hfit.
    inversion Hfit as [| ? ? [Ht Hi] Hfit']; subst. cbn [fst snd] in Ht, Hi.
    cbn [List.length] in Hfree.
    cbn [write_index].
    rewrite (wr_bind_run _ _ buf (Z.of_nat (List.length content)) buf)
      by (unfold wr_lift, OS.stat_size; rewrite Hc; reflexivity).
    rewrite (wr_bind_run _ _ buf tt (buf ++ le32 timestamp)%list)
      by (apply write_packed_run; [exact Ht | lia]).
    rewrite (wr_bind_run _ _ _ tt ((buf ++ le32 timestamp) ++ le32 image_index)%list)
      by (apply write_packed_run; [exact Hi | rewrite length_app; cbn; lia]).
    assert (Hfs : frame_size d image = Z.of_nat (List.length content)).
    { unfold frame_size. rewrite (frame_bytes_lookup _ _ _ Hc). reflexivity. }
    rewrite <- Hfs, IH; [| exact Hrest | exact Hfit' | rewrite !length_app; cbn; lia].
    cbn [map index_table flat_map List.length total fold_right].
    fold (total (map (frame_size d) rest)).
    unfold encode_entry at 2. cbn [fst snd]. rewrite <- !app_assoc.
    rewrite Nat2Z.inj_succ, Z.add_assoc.
    replace (timestamp + Z.succ (Z.of_nat (List.length rest)))
      with (timestamp + 1 + Z.of_nat (List.length rest)) by lia.
    reflexivity.
Qed.

Lemma write_payload_run free d images : forall buf,
  Forall (fun n => is_Some (d !! n)) images ->
  Z.of_nat (List.length (buf ++ payload_bytes d images)) <= free ->
  write_payload free d images buf = (Ok tt, (buf ++ payload_bytes d images)%list).
Proof.
  induction images as [| image rest IH]; intros buf Hall Hfree.
  - cbn. rewrite app_nil_r. reflexivity.
  - inversion Hall as [| ? ? [content Hc] Hrest]; subst.
    unfold payload_bytes in Hfree |- *. cbn [flat_map] in Hfree |- *.
    rewrite (frame_bytes_lookup _ _ _ Hc) in Hfree |- *.
    rewrite app_assoc in Hfree |- *.
    cbn [write_payload].
    rewrite (wr_bind_run _ _ buf content buf)
      by (unfold wr_lift, OS.read_bytes; rewrite Hc; reflexivity).
    rewrite (wr_bind_run _ _ buf tt (buf ++ content)%list).
    + apply IH; assumption.
    + apply f_write_run. rewrite length_app in Hfree. lia.
Qed.

Lemma write_header_run free count :
  0 <= count < 4294967296 ->
  0 <= 1000 * PLEX_BIF_FRAME_INTERVAL settings < 4294967296 ->
  76 <= free ->
  write_header settings free count []
  = (Ok tt, header_bytes count (1000 * PLEX_BIF_FRAME_INTERVAL settings)).
Proof.
  intros Hc Hi Hfree. unfold write_header.
  rewrite (wr_bind_run _ _ [] tt magic) by (apply f_write_run; cbn; lia).
  rewrite (wr_bind_run _ _ magic tt (magic ++ le32 version)%list)
    by (apply write_packed_run; [unfold version; lia | cbn; lia]).
  rewrite (wr_bind_run _ _ _ tt ((magic ++ le32 version) ++ le32 count)%list)
    by (apply write_packed_run; [exact Hc | cbn; lia]).
  rewrite (wr_bind_run _ _ _ tt
             (((magic ++ le32 version) ++ le32 count)
              ++ le32 (1000 * PLEX_BIF_FRAME_INTERVAL settings))%list)
    by (apply write_packed_run; [exact Hi | cbn; lia]).
  rewrite f_write_run by (cbn; lia).
  unfold header_bytes. rewrite <- !app_assoc. reflexivity.
Qed.

(** The encoder completes, and leaves [bif_of] of the directory at the
    target, whenever the directory is there, the target is not a
    directory and has its own directory in place, the interval in
    milliseconds and the end offset fit 32 bits and the volume has room
    for the artifact. *)
Lemma generate_bif_run bif_filename images_path w d :
  dirs w !! images_path = Some d ->
  dirs w !! bif_filename = None ->
  OS.parent_error bif_filename w = None ->
  0 <= 1000 * PLEX_BIF_FRAME_INTERVAL settings < 4294967296 ->
  first_offset (images_of d) + total (map (frame_size d) (images_of d)) < 4294967296 ->
  Z.of_nat (List.length (bif_of (PLEX_BIF_FRAME_INTERVAL settings) d)) <= disk_free w ->
  generate_bif settings bif_filename images_path w
  = (Ok tt,
     set_files (<[bif_filename := bif_of (PLEX_BIF_FRAME_INTERVAL settings) d]> (files w)) w).
Proof.
  intros Hd Hb Hpar Hi Hend Hfree.
  pose proof (frame_sizes_nonneg d (images_of d)) as Hnn.
  pose proof (total_nonneg _ Hnn) as Htot.
  pose proof (jpg_images_lookup d) as Hall. fold (images_of d) in Hall.
  assert (Hlen : Z.of_nat (List.length (bif_of (PLEX_BIF_FRAME_INTERVAL settings) d))
                 = 76 + (8 + 8 * Z.of_nat (List.length (images_of d)))
                   + total (map (frame_size d) (images_of d))).
  { unfold bif_of.
    rewrite !length_app, length_header_bytes, length_encode_entries,
      length_table_entries, !Nat2Z.inj_add, length_payload_bytes. lia. }
  unfold first_offset in Hend.
  assert (Hfit : Forall fits_u32
                   (index_table (map (frame_size d) (images_of d)) 0
                      (first_offset (images_of d)))).
  { apply index_table_fits; try assumption; unfold first_offset;
      rewrite ?length_map; lia. }
  unfold generate_bif, mbind, IO_bind, OS.listdir, OS.entries_of, OS.with_open_wb.
  rewrite Hd. cbn beta iota. rewrite Hd, Hb, Hpar. cbn [default from_option id].
  fold (images_of d).
  assert (Hbody : bif_body settings d (images_of d) (disk_free w) []
                  = (Ok tt, bif_of (PLEX_BIF_FRAME_INTERVAL settings) d)).
  { unfold bif_body.
    rewrite (wr_bind_run _ _ [] tt
               (header_bytes (Z.of_nat (List.length (images_of d)))
                  (1000 * PLEX_BIF_FRAME_INTERVAL settings)))
      by (apply write_header_run; lia).
    cbn zeta.
    erewrite wr_bind_run;
      [| apply write_index_run;
         [exact Hall | exact Hfit | rewrite length_header_bytes; lia]].
    cbn beta iota.
    erewrite wr_bind_run;
      [| apply write_packed_run;
         [lia
         | rewrite length_app, length_header_bytes, length_encode_entries,
             length_index_table, length_map; lia]].
    erewrite wr_bind_run;
      [| apply write_packed_run;
         [unfold first_offset; lia
         | rewrite !length_app, length_header_bytes, length_encode_entries,
             length_index_table, length_map, length_le32; lia]].
    fold (first_offset (images_of d)).
    assert (Hshape :
      ((((header_bytes (Z.of_nat (List.length (images_of d)))
            (1000 * PLEX_BIF_FRAME_INTERVAL settings)
          ++ flat_map encode_entry
               (index_table (map (frame_size d) (images_of d)) 0
                  (first_offset (images_of d))))
         ++ le32 4294967295)
        ++ le32 (first_offset (images_of d)
                 + total (map (frame_size d) (images_of d))))
       ++ payload_bytes d (images_of d))%list
      = bif_of (PLEX_BIF_FRAME_INTERVAL settings) d).
    { unfold bif_of, table_entries. rewrite flat_map_app. cbn [flat_map].
      rewrite app_nil_r. unfold encode_entry at 2. cbn [fst snd].
      rewrite <- !app_assoc. reflexivity. }
    rewrite write_payload_run; [rewrite Hshape; reflexivity | exact Hall |].
    rewrite Hshape. exact Hfree. }
  rewrite Hbody. reflexivity.
Qed.

End EncoderCompletes.

(* ===================================================================== *)
(** ** [generate_images] *)
(* ===================================================================== *)

Section ExtractionFacts.

Variable settings : Settings.
Variable env : Env.

(** Renaming touches the directory tree only. *)
Lemma rename_images_frame output_folder images : forall w r w',
  rename_images settings output_folder images w = (r, w') ->
  files w' = files w /\ disk_free w' = disk_free w /\
  spawned w' = spawned w /\ metrics w' = metrics w.
Proof.
  induction images as [| image rest IH]; intros w r w' H.
  - inversion H; subst. auto.
  - cbn [rename_images] in H. unfold mbind, IO_bind, io_lift in H.
    destruct (frame_second_of settings image) as [fs | e].
    + unfold OS.rename in H at 1.
      destruct (dirs w !! output_folder) as [d |].
      * destruct (d !! image) as [content |].
        -- apply IH in H. cbn in H. exact H.
        -- inversion H; subst. auto.
      * inversion H; subst. auto.
    + inversion H; subst. auto.
Qed.

(** Over the devices, the count is obtained only when every device has
    an empty process list, and is 0 then. *)
Lemma ffmpeg_count_of_Ok gpu_stats : forall c,
  ffmpeg_count_of gpu_stats = Ok c ->
  c = 0 /\ Forall (fun processes => processes = Some []) gpu_stats.
Proof.
  induction gpu_stats as [| [[| process processes] |] rest IH]; intros c H.
  - inversion H; subst. auto.
  - cbn in H. destruct (ffmpeg_count_of rest) as [m | e]; [| discriminate].
    inversion H; subst. destruct (IH m eq_refl) as [-> Hall]. auto.
  - cbn in H. discriminate.
  - cbn in H. discriminate.
Qed.

Lemma ffmpeg_count_of_idle gpu_stats :
  Forall (fun processes => processes = Some []) gpu_stats ->
  ffmpeg_count_of gpu_stats = Ok 0.
Proof.
  induction 1 as [| processes rest -> _ IH]; [reflexivity |].
  cbn. rewrite IH. reflexivity.
Qed.

Lemma ffmpeg_count_of_busy gpu_stats :
  Forall (fun processes => is_Some processes) gpu_stats ->
  Exists (fun processes => processes <> Some []) gpu_stats ->
  ffmpeg_count_of gpu_stats = Raise AttributeError.
Proof.
  induction 1 as [| processes rest [ps ->] _ IH]; intros Hex.
  - inversion Hex.
  - destruct ps as [| process ps]; [| reflexivity].
    inversion Hex as [? ? Hne | ? ? Hrest]; subst; [contradiction |].
    cbn. rewrite (IH Hrest). reflexivity.
Qed.

Lemma gpustat_ffmpeg_count_Ok gpu_stats c :
  gpustat_query env = Ok gpu_stats ->
  gpustat_ffmpeg_count env = Ok c ->
  c = 0 /\ Forall (fun processes => processes = Some []) gpu_stats.
Proof.
  unfold gpustat_ffmpeg_count. intros ->. apply ffmpeg_count_of_Ok.
Qed.

Lemma gpustat_ffmpeg_count_idle gpu_stats :
  gpustat_query env = Ok gpu_stats ->
  Forall (fun processes => processes = Some []) gpu_stats ->
  gpustat_ffmpeg_count env = Ok 0.
Proof.
  unfold gpustat_ffmpeg_count. intros ->. apply ffmpeg_count_of_idle.
Qed.

Lemma gpustat_ffmpeg_count_busy gpu_stats :
  gpustat_query env = Ok gpu_stats ->
  Forall (fun processes => is_Some processes) gpu_stats ->
  Exists (fun processes => processes <> Some []) gpu_stats ->
  gpustat_ffmpeg_count env = Raise AttributeError.
Proof.
  unfold gpustat_ffmpeg_count. intros ->. apply ffmpeg_count_of_busy.
Qed.

(** The admission test raises exactly when the count of running
    transcoder processes cannot be obtained, with the exception of the
    count. *)
Lemma select_accel_Raise gpu vf_parameters args e :
  select_accel settings env gpu vf_parameters args = Raise e <->
  contention env gpu = Raise e.
Proof.
  unfold select_accel, contention. destruct gpu as [g |]; [| split; discriminate].
  destruct (String.eqb g "NVIDIA").
  - destruct (gpustat_ffmpeg_count env) as [c | e0].
    + destruct (_ || _); split; discriminate.
    + split; intros H; inversion H; reflexivity.
  - destruct (negb _); [| split; discriminate].
    destruct (amd_ffmpeg_processes env) as [n | e0].
    + destruct (_ || _); split; discriminate.
    + split; intros H; inversion H; reflexivity.
Qed.

(** With the count [c] obtained, the test admits hardware decoding
    exactly when [c] is below [GPU_THREADS] or [CPU_THREADS] is 0, for an
    accelerator; without one it never does. *)
Lemma admitted_iff c :
  (c <? GPU_THREADS settings) || (CPU_THREADS settings =? 0) = true <->
  c < GPU_THREADS settings \/ CPU_THREADS settings = 0.
Proof. rewrite orb_true_iff, Z.ltb_lt, Z.eqb_eq. reflexivity. Qed.

Lemma select_accel_Ok gpu vf_parameters args c :
  contention env gpu = Ok c ->
  exists hw_accel_used args',
    select_accel settings env gpu vf_parameters args = Ok (hw_accel_used, args') /\
    (hw_accel_used = true <->
     gpu_available gpu = true /\
     (c < GPU_THREADS settings \/ CPU_THREADS settings = 0)) /\
    (hw_accel_used = false -> args' = args).
Proof.
  assert (Hno : forall P : Prop, false = true <-> false = true /\ P)
    by (intros P; split; [discriminate | intros [? _]; discriminate]).
  unfold select_accel, contention, gpu_available.
  destruct gpu as [g |].
  2: { intros _. exists false, args. auto. }
  destruct (String.eqb_spec g "NVIDIA") as [-> | Hnv].
  - intros ->. cbn [String.eqb Ascii.eqb Bool.eqb negb].
    pose proof (admitted_iff c) as Hadm.
    destruct ((c <? GPU_THREADS settings) || (CPU_THREADS settings =? 0));
      eexists _, _; (split; [reflexivity |]); split.
    + rewrite <- Hadm. tauto.
    + discriminate.
    + rewrite <- Hadm. split; [discriminate | intros [_ Hf]; discriminate].
    + reflexivity.
  - destruct (negb (String.eqb g "")).
    + destruct (amd_ffmpeg_processes env) as [n | e0]; [| discriminate].
      intros Hc; inversion Hc; subst; clear Hc.
      pose proof (admitted_iff (Z.of_nat n)) as Hadm.
      destruct ((Z.of_nat n <? GPU_THREADS settings) || (CPU_THREADS settings =? 0));
        eexists _, _; (split; [reflexivity |]); split.
      * rewrite <- Hadm. tauto.
      * discriminate.
      * rewrite <- Hadm. split; [discriminate | intros [_ Hf]; discriminate].
      * reflexivity.
    + intros _. exists false, args. auto.
Qed.

(** What [generate_images] can have done when it is left: regular files
    are untouched; the metrics table is unchanged unless the call
    returned after a transcoder exit status 0, in which case exactly one
    row for the video was appended. *)
Lemma generate_images_frame video_file output_folder gpu w r w' :
  generate_images settings env video_file output_folder gpu w = (r, w') ->
  files w' = files w /\ disk_free w' = disk_free w /\
  match r with
  | Raise _ => metrics w' = metrics w
  | Ok _ =>
      (exists args, returncode (ffmpeg env args) <> 0 /\ metrics w' = metrics w) \/
      (exists args m, returncode (ffmpeg env args) = 0 /\
                      metrics w' = (metrics w ++ [m])%list /\
                      m_video_file m = video_file)
  end.
Proof.
  unfold generate_images, mbind, IO_bind.
  destruct (PLEX_BIF_FRAME_INTERVAL settings =? 0).
  { intros H; inversion H; subst. auto. }
  cbn [mret IO_ret]. unfold io_lift.
  destruct (select_accel settings env gpu _ _) as [[hw args] | e0].
  2: { intros H; inversion H; subst. auto. }
  unfold run_ffmpeg at 1. cbn beta iota zeta.
  set (w1 := match dirs (add_spawned args w) !! output_folder with
             | Some d => _ | None => _ end).
  assert (Hw1 : files w1 = files w /\ disk_free w1 = disk_free w /\
                metrics w1 = metrics w).
  { subst w1. destruct (dirs (add_spawned args w) !! output_folder); cbn; auto. }
  destruct Hw1 as (Hf1 & Hd1 & Hm1).
  destruct (returncode (ffmpeg env args) =? 0) eqn:Hrc; cbn [negb].
  - unfold OS.glob_dir at 1.
    destruct (rename_images settings output_folder _ w1) as [[u | e] w2] eqn:Hren;
      apply rename_images_frame in Hren as (Hf2 & Hd2 & _ & Hm2).
    + unfold insert_metric. intros H. inversion H; subst. cbn.
      split; [congruence |]. split; [congruence |].
      right. exists args. eexists. split; [lia |].
      split; [rewrite Hm2, Hm1; reflexivity | reflexivity].
    + intros H. inversion H; subst.
      split; [congruence |]. split; congruence.
  - intros H. inversion H; subst.
    split; [exact Hf1 |]. split; [exact Hd1 |].
    left. exists args. split; [lia | exact Hm1].
Qed.


(** The one process that [generate_images] spawns is started with the
    argument vector chosen by the admission test; where that test
    raises, the call is left at once and nothing is spawned. *)
Lemma generate_images_spawned video_file output_folder gpu w r w' :
  PLEX_BIF_FRAME_INTERVAL settings <> 0 ->
  generate_images settings env video_file output_folder gpu w = (r, w') ->
  let vf_parameters :=
    vf_parameters_for (is_hdr env video_file)
      (fps_repr env (PLEX_BIF_FRAME_INTERVAL settings)) in
  match select_accel settings env gpu vf_parameters
          (base_args settings env video_file output_folder vf_parameters) with
  | Ok (hw_accel_used, args) => spawned w' = (spawned w ++ [args])%list
  | Raise e => r = Raise e /\ w' = w
  end.
Proof.
  intros Hint. unfold generate_images, mbind, IO_bind.
  destruct (Z.eqb_spec (PLEX_BIF_FRAME_INTERVAL settings) 0) as [Hz | _];
    [contradiction |].
  cbn [mret IO_ret]. cbn zeta. unfold io_lift.
  destruct (select_accel settings env gpu _ _) as [[hw args] | e0].
  2: { intros H; inversion H; subst. auto. }
  unfold run_ffmpeg at 1. cbn beta iota zeta.
  set (w1 := match dirs (add_spawned args w) !! output_folder with
             | Some d => _ | None => _ end).
  assert (Hw1 : spawned w1 = (spawned w ++ [args])%list).
  { subst w1. destruct (dirs (add_spawned args w) !! output_folder); reflexivity. }
  destruct (returncode (ffmpeg env args) =? 0); cbn [negb snd].
  - unfold OS.glob_dir at 1.
    destruct (rename_images settings output_folder _ w1) as [[u | e] w2] eqn:Hren;
      apply rename_images_frame in Hren as (_ & _ & Hs2 & _).
    + unfold insert_metric. intros H. inversion H; subst. cbn. congruence.
    + intros H. inversion H; subst. congruence.
  - intros H. inversion H; subst. exact Hw1.
Qed.

(** A call that is left by an exception although the interval is not 0
    and every transcoder run would exit with a status other than 0 has
    been left where the processes on the accelerator are counted, before
    the transcoder was started. *)
Lemma generate_images_Raise_before_spawn video_file output_folder gpu w e w' :
  (forall args, returncode (ffmpeg env args) <> 0) ->
  PLEX_BIF_FRAME_INTERVAL settings <> 0 ->
  generate_images settings env video_file output_folder gpu w = (Raise e, w') ->
  contention env gpu = Raise e /\ w' = w.
Proof.
  intros Hrc Hint. unfold generate_images, mbind, IO_bind.
  destruct (Z.eqb_spec (PLEX_BIF_FRAME_INTERVAL settings) 0) as [Hz | _];
    [contradiction |].
  cbn [mret IO_ret]. cbn zeta. unfold io_lift.
  destruct (select_accel settings env gpu _ _) as [[hw args] | e0] eqn:Hsel.
  - unfold run_ffmpeg at 1. cbn beta iota zeta.
    destruct (Z.eqb_spec (returncode (ffmpeg env args)) 0) as [Hz | _];
      [destruct (Hrc args Hz) |].
    cbn [negb]. discriminate.
  - intros H; inversion H; subst.
    apply select_accel_Raise in Hsel. auto.
Qed.

End ExtractionFacts.

(* ===================================================================== *)
(** ** The per-item job *)
(* ===================================================================== *)

Section JobFacts.

Variable settings : Settings.
Variable env : Env.

Lemma makedirs_frame p w r w' :
  OS.makedirs p w = (r, w') ->
  files w' = files w /\ disk_free w' = disk_free w /\
  spawned w' = spawned w /\ metrics w' = metrics w /\
  match r with
  | Ok _ => files w !! p = None /\ is_Some (dirs w' !! p)
  | Raise _ => w' = w /\ is_Some (files w !! p)
  end.
Proof.
  unfold OS.makedirs.
  destruct (files w !! p) eqn:Hf; [| destruct (dirs w !! p) eqn:Hd];
    intros H; inversion H; subst; cbn; repeat split; eauto.
  rewrite lookup_insert_eq. eauto.
Qed.

(** The job for a media part, exit by exit. *)
Lemma process_part_eq job gpu w :
  process_part settings env job gpu w
  = match files w !! index_bif job with
    | Some _ => (Ok Skipped, w)
    | None =>
        match OS.makedirs (indexes_path job) w with
        | (Raise e, w1) => (Raise e, w1)
        | (Ok _, w1) =>
            match OS.makedirs (tmp_path job) w1 with
            | (Raise e, w2) => (Raise e, w2)
            | (Ok _, w2) =>
                match generate_images settings env (media_file job)
                        (tmp_path job) gpu w2 with
                | (Raise e, w3) =>
                    (Ok (FailedExtraction e),
                     set_dirs (delete (tmp_path job) (dirs w3)) w3)
                | (Ok _, w3) =>
                    match generate_bif settings (index_bif job) (tmp_path job) w3 with
                    | (Ok _, w4) =>
                        (Ok Done, set_dirs (delete (tmp_path job) (dirs w4)) w4)
                    | (Raise e, w4) =>
                        match files w4 !! index_bif job, dirs w4 !! index_bif job with
                        | Some _, _ =>
                            let w5 := set_files (delete (index_bif job) (files w4)) w4 in
                            (Ok (FailedEncoding e),
                             set_dirs (delete (tmp_path job) (dirs w5)) w5)
                        | None, Some _ =>
                            (Raise IsADirectoryError,
                             set_dirs (delete (tmp_path job) (dirs w4)) w4)
                        | None, None =>
                            (Ok (FailedEncoding e),
                             set_dirs (delete (tmp_path job) (dirs w4)) w4)
                        end
                    end
                end
            end
        end
    end.
Proof.
  unfold process_part, mbind, IO_bind, OS.isfile.
  destruct (files w !! index_bif job) as [c |] eqn:Hf.
  - rewrite bool_decide_eq_true_2 by eauto. reflexivity.
  - rewrite bool_decide_eq_false_2 by (intros [? ?]; discriminate).
    destruct (OS.makedirs (indexes_path job) w) as [[u1 | e1] w1]; [| reflexivity].
    destruct (OS.makedirs (tmp_path job) w1) as [[u2 | e2] w2]; [| reflexivity].
    unfold try_except at 1.
    destruct (generate_images settings env (media_file job) (tmp_path job) gpu w2)
      as [[u3 | e3] w3]; [| reflexivity].
    cbn [mret IO_ret]. unfold try_finally, try_except.
    destruct (generate_bif settings (index_bif job) (tmp_path job) w3)
      as [[u4 | e4] w4]; [reflexivity |].
    unfold OS.path_exists, OS.remove, OS.rmtree. cbn [mret IO_ret].
    destruct (files w4 !! index_bif job) as [c4 |] eqn:Hf4.
    + rewrite (bool_decide_eq_true_2 _ (ltac:(eauto) : is_Some (Some c4))).
      cbn. rewrite Hf4. reflexivity.
    + destruct (dirs w4 !! index_bif job) as [d4 |] eqn:Hd4.
      * rewrite (bool_decide_eq_false_2 (is_Some (@None (list byte))))
          by (intros [? ?]; discriminate).
        rewrite (bool_decide_eq_true_2 _
                   (ltac:(eauto) : is_Some (Some d4))).
        cbn. rewrite Hf4, Hd4. reflexivity.
      * rewrite !bool_decide_eq_false_2 by (intros [? ?]; discriminate).
        reflexivity.
Qed.


Lemma makedirs_Ok p w :
  files w !! p = None -> exists w1, OS.makedirs p w = (Ok tt, w1).
Proof.
  intros Hf. unfold OS.makedirs. rewrite Hf.
  destruct (dirs w !! p); eauto.
Qed.

Lemma process_part_skips job gpu w :
  is_Some (files w !! index_bif job) ->
  process_part settings env job gpu w = (Ok Skipped, w).
Proof. intros [c Hc]. rewrite process_part_eq, Hc. reflexivity. Qed.


(** Claim C6: when the target artifact is already there, the job is
    [Skipped] and the world is left exactly as it was (no process
    spawned, no directory or file created or changed, no metric), so a
    second run does the same nothing. *)
Theorem existing_target_is_skipped job gpu w :
  is_Some (files w !! index_bif job) ->
  process_part settings env job gpu w = (Ok Skipped, w) /\
  (forall r w1,
      process_part settings env job gpu w = (r, w1) ->
      process_part settings env job gpu w1 = (Ok Skipped, w1) /\
      spawned w1 = spawned w /\ files w1 = files w /\
      dirs w1 = dirs w /\ metrics w1 = metrics w).
Proof.
  intros Hc. pose proof (process_part_skips job gpu w Hc) as Hskip.
  split; [exact Hskip |].
  intros r w1 Hrun. rewrite Hskip in Hrun. inversion Hrun; subst.
  auto.
Qed.

(** A job that ended [Done] left its artifact, so the next run of the
    same job is skipped. *)
Lemma done_then_skipped job gpu w w1 :
  process_part settings env job gpu w = (Ok Done, w1) ->
  process_part settings env job gpu w1 = (Ok Skipped, w1).
Proof.
  rewrite process_part_eq.
  destruct (files w !! index_bif job); [discriminate |].
  destruct (OS.makedirs (indexes_path job) w) as [[u1 | e1] v1]; [| discriminate].
  destruct (OS.makedirs (tmp_path job) v1) as [[u2 | e2] v2]; [| discriminate].
  destruct (generate_images _ _ _ _ _ v2) as [[u3 | e3] v3]; [| discriminate].
  destruct (generate_bif _ _ _ v3) as [[u4 | e4] v4] eqn:Hbif.
  - intros H. inversion H; subst.
    apply generate_bif_Ok in Hbif as (d & _ & -> & _).
    apply process_part_skips. cbn. rewrite lookup_insert_eq. eauto.
  - destruct (files v4 !! index_bif job); [discriminate |].
    destruct (dirs v4 !! index_bif job); discriminate.
Qed.

(** Past the idempotency gate and the creation of its directories, every
    exit of the job removes the temporary directory. *)
Lemma tmp_removed_at_every_exit job gpu w r w' :
  process_part settings env job gpu w = (r, w') ->
  files w !! index_bif job = None ->
  files w !! indexes_path job = None ->
  files w !! tmp_path job = None ->
  dirs w' !! tmp_path job = None.
Proof.
  rewrite process_part_eq. intros H Hgate Hidx Htmp. rewrite Hgate in H.
  destruct (OS.makedirs (indexes_path job) w) as [[u1 | e1] v1] eqn:Hm1.
  2:{ apply makedirs_frame in Hm1 as (_ & _ & _ & _ & _ & [x Hx]). congruence. }
  apply makedirs_frame in Hm1 as (Hf1 & _).
  destruct (OS.makedirs (tmp_path job) v1) as [[u2 | e2] v2] eqn:Hm2.
  2:{ apply makedirs_frame in Hm2 as (_ & _ & _ & _ & _ & [x Hx]). congruence. }
  destruct (generate_images _ _ _ _ _ v2) as [[u3 | e3] v3].
  2:{ inversion H; subst. cbn. apply lookup_delete_eq. }
  destruct (generate_bif _ _ _ v3) as [[u4 | e4] v4].
  { inversion H; subst. cbn. apply lookup_delete_eq. }
  destruct (files v4 !! index_bif job);
    [| destruct (dirs v4 !! index_bif job)];
    inversion H; subst; cbn; apply lookup_delete_eq.
Qed.

(** A job that ends with an outcome other than [Skipped] has removed the
    temporary directory. *)
Lemma tmp_removed_unless_skipped job gpu w o w' :
  process_part settings env job gpu w = (Ok o, w') ->
  o <> Skipped ->
  dirs w' !! tmp_path job = None.
Proof.
  rewrite process_part_eq. intros H Hns.
  destruct (files w !! index_bif job).
  { inversion H; subst. contradiction. }
  destruct (OS.makedirs (indexes_path job) w) as [[u1 | e1] v1]; [| discriminate].
  destruct (OS.makedirs (tmp_path job) v1) as [[u2 | e2] v2]; [| discriminate].
  destruct (generate_images _ _ _ _ _ v2) as [[u3 | e3] v3].
  2:{ inversion H; subst. cbn. apply lookup_delete_eq. }
  destruct (generate_bif _ _ _ v3) as [[u4 | e4] v4].
  { inversion H; subst. cbn. apply lookup_delete_eq. }
  destruct (files v4 !! index_bif job);
    [| destruct (dirs v4 !! index_bif job)];
    inversion H; subst; cbn; apply lookup_delete_eq.
Qed.

(** A job that is left by an exception has either removed the temporary
    directory or left that path as it found it. *)
Lemma tmp_when_job_raises job gpu w e w' :
  process_part settings env job gpu w = (Raise e, w') ->
  dirs w' !! tmp_path job = None \/
  dirs w' !! tmp_path job = dirs w !! tmp_path job.
Proof.
  rewrite process_part_eq. intros H.
  destruct (files w !! index_bif job); [discriminate |].
  destruct (OS.makedirs (indexes_path job) w) as [[u1 | e1] v1] eqn:Hm1.
  2:{ apply makedirs_frame in Hm1 as (_ & _ & _ & _ & -> & _).
      inversion H; subst. auto. }
  destruct (OS.makedirs (tmp_path job) v1) as [[u2 | e2] v2] eqn:Hm2.
  2:{ apply makedirs_frame in Hm2 as (Hf2 & _ & _ & _ & -> & [c Hc]).
      inversion H; subst. right.
      unfold OS.makedirs in Hm1.
      destruct (files w !! indexes_path job) eqn:Hfi; [discriminate |].
      destruct (dirs w !! indexes_path job) eqn:Hdi;
        inversion Hm1; subst; [reflexivity |].
      cbn. apply lookup_insert_ne. cbn in Hc. congruence. }
  destruct (generate_images _ _ _ _ _ v2) as [[u3 | e3] v3]; [| discriminate].
  destruct (generate_bif _ _ _ v3) as [[u4 | e4] v4]; [discriminate |].
  destruct (files v4 !! index_bif job);
    [| destruct (dirs v4 !! index_bif job)];
    inversion H; subst; cbn; left; apply lookup_delete_eq.
Qed.

(** Claim C8, as the code has it: when encoding fails the target path
    holds no file afterwards and the temporary directory is gone.  The
    temporary directory is gone as well after every job that ends [Done]
    or in a failed extraction, but not on every exit: a skipped job
    leaves the world as it found it, a temporary directory of an
    earlier run included, and a job that an exception leaves has removed
    the directory or has not touched that path. *)
Theorem encode_failure_cleans_up job gpu w r w' :
  process_part settings env job gpu w = (r, w') ->
  (forall e, r = Ok (FailedEncoding e) ->
             files w' !! index_bif job = None /\ dirs w' !! tmp_path job = None) /\
  (forall o, r = Ok o -> o <> Skipped -> dirs w' !! tmp_path job = None) /\
  (r = Ok Skipped -> w' = w) /\
  (forall e, r = Raise e ->
             dirs w' !! tmp_path job = None \/
             dirs w' !! tmp_path job = dirs w !! tmp_path job).
Proof.
  intros H. split; [| split; [| split]].
  2:{ intros o -> Hns. exact (tmp_removed_unless_skipped job gpu w o w' H Hns). }
  3:{ intros e ->. exact (tmp_when_job_raises job gpu w e w' H). }
  - rewrite process_part_eq in H.
    intros e ->.
    destruct (files w !! index_bif job); [discriminate |].
    destruct (OS.makedirs (indexes_path job) w) as [[u1 | e1] v1]; [| discriminate].
    destruct (OS.makedirs (tmp_path job) v1) as [[u2 | e2] v2]; [| discriminate].
    destruct (generate_images _ _ _ _ _ v2) as [[u3 | e3] v3]; [| discriminate].
    destruct (generate_bif _ _ _ v3) as [[u4 | e4] v4]; [discriminate |].
    destruct (files v4 !! index_bif job) eqn:Hf4.
    + inversion H; subst. cbn. rewrite !lookup_delete_eq. auto.
    + destruct (dirs v4 !! index_bif job); [discriminate |].
      inversion H; subst. cbn. rewrite lookup_delete_eq. auto.
  - intros ->. rewrite process_part_eq in H.
    destruct (files w !! index_bif job); [inversion H; reflexivity |].
    destruct (OS.makedirs (indexes_path job) w) as [[u1 | e1] v1]; [| discriminate].
    destruct (OS.makedirs (tmp_path job) v1) as [[u2 | e2] v2]; [| discriminate].
    destruct (generate_images _ _ _ _ _ v2) as [[u3 | e3] v3]; [| discriminate].
    destruct (generate_bif _ _ _ v3) as [[u4 | e4] v4]; [discriminate |].
    destruct (files v4 !! index_bif job);
      [| destruct (dirs v4 !! index_bif job)]; discriminate.
Qed.

(** Claim C7, as the code has it: a job appends at most one row to the
    metrics table, and that row is for its video.  A skipped job and a
    job whose extraction step raises append none.  When the transcoder
    exits with status 0, the row is appended at the end of the extraction
    step, before encoding starts: the job has emitted exactly one row
    when it ends [Done], and also when encoding then fails. *)
Theorem metric_emitted_after_extraction job gpu w r w' :
  process_part settings env job gpu w = (r, w') ->
  (metrics w' = metrics w \/
   exists m, metrics w' = (metrics w ++ [m])%list /\ m_video_file m = media_file job) /\
  (r = Ok Skipped -> metrics w' = metrics w) /\
  (forall e, r = Ok (FailedExtraction e) -> metrics w' = metrics w) /\
  ((forall args, returncode (ffmpeg env args) = 0) ->
   r = Ok Done \/ (exists e, r = Ok (FailedEncoding e)) ->
   exists m, metrics w' = (metrics w ++ [m])%list /\ m_video_file m = media_file job).
Proof.
  rewrite process_part_eq. intros H.
  destruct (files w !! index_bif job).
  { inversion H; subst. split; [auto |]. split; [auto |]. split; [auto |].
    intros _ [Hd | [e He]]; discriminate. }
  destruct (OS.makedirs (indexes_path job) w) as [[u1 | e1] v1] eqn:Hm1.
  2:{ apply makedirs_frame in Hm1 as (_ & _ & _ & Hmet & _).
      inversion H; subst. split; [auto |]. split; [auto |]. split; [auto |].
      intros _ [Hd | [e He]]; discriminate. }
  apply makedirs_frame in Hm1 as (_ & _ & _ & Hmet1 & _).
  destruct (OS.makedirs (tmp_path job) v1) as [[u2 | e2] v2] eqn:Hm2.
  2:{ apply makedirs_frame in Hm2 as (_ & _ & _ & Hmet2 & _).
      inversion H; subst. rewrite Hmet2, Hmet1.
      split; [auto |]. split; [auto |]. split; [auto |].
      intros _ [Hd | [e He]]; discriminate. }
  apply makedirs_frame in Hm2 as (_ & _ & _ & Hmet2 & _).
  destruct (generate_images _ _ _ _ _ v2) as [[u3 | e3] v3] eqn:Hgi;
    apply generate_images_frame in Hgi as (_ & _ & Hmet3).
  2:{ inversion H; subst. cbn. rewrite Hmet3, Hmet2, Hmet1.
      split; [auto |]. split; [auto |]. split; [auto |].
      intros _ [Hd | [e He]]; discriminate. }
  assert (Hmet' : metrics w' = metrics v3).
  { destruct (generate_bif _ _ _ v3) as [[u4 | e4] v4] eqn:Hbif;
      apply generate_bif_frame in Hbif as (_ & Hmet4 & _).
    - inversion H; subst. exact Hmet4.
    - destruct (files v4 !! index_bif job);
        [| destruct (dirs v4 !! index_bif job)];
        inversion H; subst; exact Hmet4. }
  assert (Hne : r <> Ok Skipped /\ forall e, r <> Ok (FailedExtraction e)).
  { destruct (generate_bif _ _ _ v3) as [[u4 | e4] v4].
    - inversion H; subst. split; [| intros e]; discriminate.
    - destruct (files v4 !! index_bif job);
        [| destruct (dirs v4 !! index_bif job)];
        inversion H; subst; (split; [| intros e]; discriminate). }
  destruct Hne as [Hns Hnf].
  rewrite Hmet', <- Hmet1, <- Hmet2.
  split.
  { destruct Hmet3 as [(args & _ & Heq) | (args & m & _ & Heq & Hv)];
      [left | right]; eauto. }
  split; [intros Hr; contradiction |].
  split; [intros e Hr; destruct (Hnf e Hr) |].
  intros Hall _.
  destruct Hmet3 as [(args & Hrc & _) | (args & m & _ & Heq & Hv)]; [| eauto].
  destruct (Hrc (Hall args)).
Qed.


(** Claim C1 (not met by the code): when the transcoder exits with a
    non-zero status, the job does not end as a failed extraction.
    [generate_images] returns normally, the encoder runs on whatever the
    temporary directory holds, and a job that ends [Done] has left an
    artifact at the target.  This is so whenever the count of the
    processes on the accelerator is obtained: the transcoder is then
    started, once.  A job that does end as a failed extraction never
    started it: it was left where that count is taken, with the
    exception of the count.  Only the removal of the temporary directory
    and the absence of a metric are as the claim has them. *)
Theorem nonzero_exit_is_not_an_extraction_failure job gpu w r w' :
  (forall args, returncode (ffmpeg env args) <> 0) ->
  PLEX_BIF_FRAME_INTERVAL settings <> 0 ->
  files w !! index_bif job = None ->
  files w !! indexes_path job = None ->
  files w !! tmp_path job = None ->
  process_part settings env job gpu w = (r, w') ->
  (forall e, r = Ok (FailedExtraction e) ->
             contention env gpu = Raise e /\ spawned w' = spawned w) /\
  (forall c, contention env gpu = Ok c ->
             (forall e, r <> Ok (FailedExtraction e)) /\
             exists args, spawned w' = (spawned w ++ [args])%list) /\
  (r = Ok Done -> is_Some (files w' !! index_bif job)) /\
  dirs w' !! tmp_path job = None /\
  metrics w' = metrics w.
Proof.
  intros Hrc Hint Hgate Hidx Htmp Hrun.
  pose proof (tmp_removed_at_every_exit job gpu w r w' Hrun Hgate Hidx Htmp)
    as Hclean.
  rewrite process_part_eq, Hgate in Hrun.
  destruct (makedirs_Ok (indexes_path job) w Hidx) as [v1 Hm1].
  rewrite Hm1 in Hrun.
  apply makedirs_frame in Hm1 as (Hf1 & _ & Hs1 & Hmet1 & _).
  rewrite <- Hf1 in Htmp.
  destruct (makedirs_Ok (tmp_path job) v1 Htmp) as [v2 Hm2].
  rewrite Hm2 in Hrun.
  apply makedirs_frame in Hm2 as (_ & _ & Hs2 & Hmet2 & _).
  destruct (generate_images _ _ _ _ _ v2) as [[u3 | e3] v3] eqn:Hgi.
  2:{ pose proof (generate_images_frame _ _ _ _ _ _ _ _ Hgi) as (_ & _ & Hmet3).
      apply (generate_images_Raise_before_spawn settings env _ _ _ _ _ _ Hrc Hint)
        in Hgi as [Hc ->].
      inversion Hrun; subst. cbn.
      split; [intros e He; inversion He; subst; split; [exact Hc | congruence] |].
      split; [intros c Hc'; congruence |].
      split; [intros Hd; discriminate |].
      split; [exact Hclean |]. congruence. }
  pose proof (generate_images_spawned settings env _ _ _ _ _ _ Hint Hgi) as Hs3.
  cbn zeta in Hs3.
  apply generate_images_frame in Hgi as (_ & _ & Hmet3).
  assert (Hmet : metrics v3 = metrics w).
  { destruct Hmet3 as [(args & _ & Heq) | (args & m & Hz & _)]; [congruence |].
    destruct (Hrc args Hz). }
  assert (Hrest : (forall e, r <> Ok (FailedExtraction e)) /\
                  spawned w' = spawned v3 /\ metrics w' = metrics v3 /\
                  (r = Ok Done -> is_Some (files w' !! index_bif job))).
  { destruct (generate_bif _ _ _ v3) as [[u4 | e4] v4] eqn:Hbif.
    - inversion Hrun; subst.
      pose proof (generate_bif_frame _ _ _ _ _ _ Hbif) as (_ & Hmet4 & Hs4 & _).
      apply generate_bif_Ok in Hbif as (d & _ & Hw4 & _).
      split; [intros e; discriminate |]. split; [exact Hs4 |].
      split; [exact Hmet4 |].
      intros _. rewrite Hw4. cbn. rewrite lookup_insert_eq. eauto.
    - apply generate_bif_frame in Hbif as (_ & Hmet4 & Hs4 & _).
      destruct (files v4 !! index_bif job);
        [| destruct (dirs v4 !! index_bif job)];
        inversion Hrun; subst;
        (split; [intros e; discriminate |]);
        (split; [exact Hs4 |]); (split; [exact Hmet4 |]);
        intros Hd; discriminate. }
  destruct Hrest as (Hnf & Hsw & Hmw & Hdone).
  split; [intros e He; destruct (Hnf e He) |].
  split.
  { intros c Hc. split; [exact Hnf |].
    destruct (select_accel_Ok settings env gpu
                (vf_parameters_for (is_hdr env (media_file job))
                   (fps_repr env (PLEX_BIF_FRAME_INTERVAL settings)))
                (base_args settings env (media_file job) (tmp_path job)
                   (vf_parameters_for (is_hdr env (media_file job))
                      (fps_repr env (PLEX_BIF_FRAME_INTERVAL settings))))
                c Hc) as (hw & args & Hsel & _).
    rewrite Hsel in Hs3. exists args. rewrite Hsw, Hs3, Hs2, Hs1. reflexivity. }
  split; [exact Hdone |]. split; [exact Hclean |]. congruence.
Qed.

End JobFacts.

(* ===================================================================== *)
(** ** Decimal text: [str], [int], zero padding *)
(* ===================================================================== *)

Section DecimalFacts.

Lemma digit_char_spec d :
  0 <= d <= 9 -> is_digit (digit_char d) = true /\ digit_val (digit_char d) = d.
Proof.
  intros Hd.
  assert (Hcases : d = 0 \/ d = 1 \/ d = 2 \/ d = 3 \/ d = 4 \/ d = 5 \/ d = 6 \/
                   d = 7 \/ d = 8 \/ d = 9) by lia.
  repeat (destruct Hcases as [-> | Hcases]; [split; reflexivity |]).
  subst d. split; reflexivity.
Qed.

Lemma digit_val_range c : is_digit c = true -> 0 <= digit_val c <= 9.
Proof.
  unfold is_digit, digit_val. cbn zeta. intros H.
  apply andb_true_iff in H as [H1 H2].
  apply N.leb_le in H1, H2. lia.
Qed.

Lemma dec_digits_rev_spec fuel : forall n,
  0 <= n < 10 ^ Z.of_nat fuel ->
  all_digits (dec_digits_rev fuel n) /\ val_rev (dec_digits_rev fuel n) = n.
Proof.
  induction fuel as [| f IH]; intros n Hn.
  - cbn in Hn. assert (n = 0) as -> by lia. split; [constructor | reflexivity].
  - rewrite Nat2Z.inj_succ, Z.pow_succ_r in Hn by lia.
    cbn [dec_digits_rev].
    pose proof (Z.mod_pos_bound n 10 ltac:(lia)) as Hm.
    destruct (digit_char_spec (n mod 10) ltac:(lia)) as [Hd Hv].
    pose proof (Z.div_mod n 10 ltac:(lia)) as Hdm.
    destruct (Z.eqb_spec (n / 10) 0) as [Hz | Hz].
    + split; [constructor; [exact Hd | constructor] |].
      cbn. rewrite Hv. lia.
    + assert (Hq : 0 <= n / 10 < 10 ^ Z.of_nat f).
      { split; [apply Z.div_pos; lia |].
        apply Z.div_lt_upper_bound; lia. }
      destruct (IH (n / 10) Hq) as [Hall Hval].
      split; [constructor; assumption |].
      cbn [val_rev fold_right]. fold (val_rev (dec_digits_rev f (n / 10))).
      rewrite Hv, Hval. lia.
Qed.

Lemma dec_digits_rev_nonempty fuel n : dec_digits_rev (S fuel) n <> [].
Proof. cbn. discriminate. Qed.

Lemma dec_digits_rev_length fuel : forall n k,
  0 <= n < 10 ^ Z.of_nat (S k) ->
  (List.length (dec_digits_rev fuel n) <= S k)%nat.
Proof.
  induction fuel as [| f IH]; intros n k Hn; [cbn; lia |].
  cbn [dec_digits_rev List.length].
  destruct (Z.eqb_spec (n / 10) 0) as [Hz | Hz]; [cbn; lia |].
  destruct k as [| k].
  - exfalso. apply Hz. apply Z.div_small. cbn in Hn. lia.
  - apply le_n_S, IH.
    rewrite Nat2Z.inj_succ, Z.pow_succ_r in Hn by lia.
    split; [apply Z.div_pos; lia |].
    apply Z.div_lt_upper_bound; lia.
Qed.

Lemma enough_fuel n : 0 <= n -> n < 10 ^ Z.of_nat (S (Z.to_nat (Z.log2 n))).
Proof.
  intros Hn. rewrite Nat2Z.inj_succ, Z2Nat.id by apply Z.log2_nonneg.
  destruct (Z.eq_dec n 0) as [-> | Hnz]; [cbn; lia |].
  pose proof (Z.log2_spec n ltac:(lia)) as [_ Hlt].
  eapply Z.lt_le_trans; [exact Hlt |].
  apply Z.pow_le_mono_l. lia.
Qed.

Lemma digits_val_acc l : forall a,
  fold_left (fun acc c => 10 * acc + digit_val c) l a
  = a * 10 ^ Z.of_nat (List.length l) + val_msb l.
Proof.
  induction l as [| c r IH]; intros a; cbn [fold_left val_msb List.length].
  - cbn. lia.
  - rewrite IH, Nat2Z.inj_succ, Z.pow_succ_r by lia. lia.
Qed.

Lemma digits_val_msb l : digits_val l = val_msb l.
Proof. unfold digits_val. rewrite digits_val_acc. lia. Qed.

Lemma digits_val_rev l : digits_val (rev l) = val_rev l.
Proof.
  unfold digits_val, val_rev.
  rewrite <- (rev_involutive l) at 2. rewrite fold_left_rev_right. reflexivity.
Qed.

Lemma all_digits_rev l : all_digits l -> all_digits (rev l).
Proof.
  unfold all_digits. rewrite !Forall_forall. intros H c Hc.
  apply H. apply list_elem_of_In. apply list_elem_of_In, in_rev in Hc. exact Hc.
Qed.

(** [str(n)] for a non-negative [n]. *)
Lemma dec_digits_spec n :
  0 <= n ->
  all_digits (dec_digits n) /\ dec_digits n <> [] /\ digits_val (dec_digits n) = n.
Proof.
  intros Hn. unfold dec_digits.
  destruct (dec_digits_rev_spec _ n (conj Hn (enough_fuel n Hn))) as [Hall Hval].
  split; [apply all_digits_rev, Hall |]. split.
  - intros Hnil. apply (f_equal (@rev ascii)) in Hnil.
    rewrite rev_involutive in Hnil. revert Hnil. apply dec_digits_rev_nonempty.
  - rewrite digits_val_rev. exact Hval.
Qed.

Lemma dec_digits_length n k :
  0 <= n < 10 ^ Z.of_nat (S k) -> (List.length (dec_digits n) <= S k)%nat.
Proof.
  intros Hn. unfold dec_digits. rewrite length_rev.
  apply dec_digits_rev_length, Hn.
Qed.

Lemma val_msb_range l : all_digits l -> 0 <= val_msb l < 10 ^ Z.of_nat (List.length l).
Proof.
  induction 1 as [| c r Hc _ IH]; [cbn; lia |].
  cbn [val_msb List.length]. rewrite Nat2Z.inj_succ, Z.pow_succ_r by lia.
  pose proof (digit_val_range c Hc). nia.
Qed.

(** Zero padding keeps the value. *)
Lemma val_msb_zeros k l : val_msb (repeat "0"%char k ++ l) = val_msb l.
Proof.
  induction k as [| k IH]; [reflexivity |].
  cbn [repeat app val_msb]. rewrite IH. reflexivity.
Qed.

Lemma all_digits_zeros k l : all_digits l -> all_digits (repeat "0"%char k ++ l).
Proof.
  intros Hl. induction k as [| k IH]; [exact Hl |].
  cbn. constructor; [reflexivity | exact IH].
Qed.

Lemma format_0wd_nonneg w n : 0 <= n -> format_0wd w n = str (padded w n).
Proof.
  intros Hn. unfold format_0wd, padded.
  destruct (Z.ltb_spec n 0); [lia | reflexivity].
Qed.

Lemma padded_spec w n :
  0 <= n ->
  all_digits (padded w n) /\ padded w n <> [] /\ digits_val (padded w n) = n.
Proof.
  intros Hn. destruct (dec_digits_spec n Hn) as (Hall & Hne & Hval).
  unfold padded. split; [apply all_digits_zeros, Hall |]. split.
  - intros Hnil. apply app_eq_nil in Hnil as [_ Hnil]. contradiction.
  - rewrite digits_val_msb, val_msb_zeros, <- digits_val_msb. exact Hval.
Qed.

Lemma padded_length k n :
  0 <= n < 10 ^ Z.of_nat (S k) -> List.length (padded (S k) n) = S k.
Proof.
  intros Hn. unfold padded. rewrite length_app, repeat_length.
  pose proof (dec_digits_length n k Hn). lia.
Qed.

End DecimalFacts.

(* ===================================================================== *)
(** ** Frame names: stripping, parsing, ordering *)
(* ===================================================================== *)

Section ReindexFacts.

Variable settings : Settings.

Lemma append_cons c s t : String c s ++ t = String c (s ++ t).
Proof. reflexivity. Qed.

Lemma chars_app s1 s2 : chars (s1 ++ s2) = (chars s1 ++ chars s2)%list.
Proof.
  unfold chars. induction s1 as [| c s1 IH]; [reflexivity |].
  rewrite append_cons. cbn [list_ascii_of_string app]. rewrite IH. reflexivity.
Qed.

Lemma chars_str l : chars (str l) = l.
Proof. apply list_ascii_of_string_of_list_ascii. Qed.

Lemma str_app l1 l2 : str (l1 ++ l2) = str l1 ++ str l2.
Proof.
  unfold str. induction l1 as [| c l1 IH]; [reflexivity |].
  cbn [app string_of_list_ascii]. rewrite append_cons, IH. reflexivity.
Qed.


Lemma length_string_app s1 s2 :
  String.length (s1 ++ s2) = (String.length s1 + String.length s2)%nat.
Proof.
  induction s1 as [| c s1 IH]; [reflexivity |].
  rewrite append_cons. cbn [String.length]. rewrite IH. reflexivity.
Qed.

(** No decimal digit is among the characters that the source strips, nor
    a blank or a sign. *)
Lemma digit_is_kept c :
  is_digit c = true ->
  mem_char c (chars "img-") = false /\
  mem_char c (chars ".jpg") = false /\
  mem_char c whitespace = false /\
  Ascii.eqb c "-" = false /\ Ascii.eqb c "+" = false /\ Ascii.eqb c "_" = false.
Proof.
  destruct c as [[] [] [] [] [] [] [] []]; intros H;
    try discriminate H; repeat split; reflexivity.
Qed.

Lemma lstrip_l_prefix set pre rest :
  forallb (fun c => mem_char c set) pre = true ->
  lstrip_l set (pre ++ rest) = lstrip_l set rest.
Proof.
  induction pre as [| c pre IH]; [reflexivity |].
  cbn [forallb app lstrip_l]. intros H. apply andb_true_iff in H as [-> H].
  apply IH, H.
Qed.

Lemma lstrip_l_digits set ds rest :
  (forall c, is_digit c = true -> mem_char c set = false) ->
  all_digits ds -> ds <> [] ->
  lstrip_l set (ds ++ rest) = (ds ++ rest)%list.
Proof.
  intros Hset Hall Hne. destruct ds as [| c r]; [contradiction |].
  inversion Hall as [| ? ? Hc _]; subst.
  cbn [app lstrip_l]. rewrite (Hset c Hc). reflexivity.
Qed.

Lemma rev_nonempty {A} (l : list A) : l <> [] -> rev l <> [].
Proof.
  intros Hne Hnil. apply Hne. rewrite <- (rev_involutive l), Hnil. reflexivity.
Qed.

Lemma strip_l_digits set ds :
  (forall c, is_digit c = true -> mem_char c set = false) ->
  all_digits ds -> ds <> [] -> strip_l set ds = ds.
Proof.
  intros Hset Hall Hne. unfold strip_l.
  pose proof (all_digits_rev ds Hall) as Hrall.
  pose proof (rev_nonempty ds Hne) as Hrne.
  rewrite <- (app_nil_r ds) at 1. rewrite lstrip_l_digits by assumption.
  rewrite app_nil_r.
  rewrite <- (app_nil_r (rev ds)).
  rewrite lstrip_l_digits by assumption.
  rewrite app_nil_r. apply rev_involutive.
Qed.

(** Line 175: what is left of [img-<digits>.jpg] after the two [strip]
    calls is the digits. *)
Lemma strip_frame_name ds :
  all_digits ds -> ds <> [] ->
  strip (strip ("img-" ++ str ds ++ ".jpg") "img-") ".jpg" = str ds.
Proof.
  intros Hall Hne.
  assert (Hrev : all_digits (rev ds) /\ rev ds <> []).
  { split; [apply all_digits_rev, Hall | apply rev_nonempty, Hne]. }
  destruct Hrev as [Hrall Hrne].
  assert (Himg : forall c, is_digit c = true -> mem_char c (chars "img-") = false).
  { intros c Hc. apply (digit_is_kept c Hc). }
  assert (Hjpg : forall c, is_digit c = true -> mem_char c (chars ".jpg") = false).
  { intros c Hc. apply (digit_is_kept c Hc). }
  unfold strip. rewrite chars_str, !chars_app, chars_str.
  assert (H1 : strip_l (chars "img-") (chars "img-" ++ ds ++ chars ".jpg")
               = (ds ++ [".";"j";"p"]%char)%list).
  { unfold strip_l.
    rewrite lstrip_l_prefix by reflexivity.
    rewrite lstrip_l_digits by assumption.
    rewrite rev_app_distr.
    change (rev (chars ".jpg")) with (["g"]%char ++ ["p";"j";"."]%char)%list.
    rewrite <- app_assoc, lstrip_l_prefix by reflexivity.
    change (["p"; "j"; "."]%char ++ rev ds)%list
      with ("p"%char :: (["j"; "."]%char ++ rev ds)%list).
    cbn [lstrip_l]. change (mem_char "p" (chars "img-")) with false. cbn iota.
    cbn [rev app]. rewrite rev_involutive, <- !app_assoc. reflexivity. }
  rewrite H1.
  assert (H2 : strip_l (chars ".jpg") (ds ++ [".";"j";"p"]%char) = ds).
  { unfold strip_l.
    rewrite lstrip_l_digits by assumption.
    rewrite rev_app_distr.
    change (rev [".";"j";"p"]%char) with ["p";"j";"."]%char.
    rewrite lstrip_l_prefix by reflexivity.
    rewrite <- (app_nil_r (rev ds)), lstrip_l_digits by assumption.
    rewrite app_nil_r. apply rev_involutive. }
  rewrite H2. reflexivity.
Qed.

Lemma int_body_digits ds : all_digits ds -> int_body true ds = true.
Proof.
  induction 1 as [| c r Hc _ IH]; [reflexivity |].
  cbn [int_body]. rewrite Hc. exact IH.
Qed.

Lemma filter_digits ds :
  all_digits ds -> filter (fun c => is_digit c = true) ds = ds.
Proof.
  induction 1 as [| c r Hc _ IH]; [reflexivity |].
  rewrite filter_cons_True by exact Hc. rewrite IH. reflexivity.
Qed.

(** [int()] of a non-empty run of digits is its decimal value. *)
Lemma py_int_digits ds :
  all_digits ds -> ds <> [] -> py_int (str ds) = Ok (digits_val ds).
Proof.
  intros Hall Hne. unfold py_int. rewrite chars_str.
  rewrite strip_l_digits;
    [| intros c Hc; apply (digit_is_kept c Hc) | exact Hall | exact Hne].
  destruct ds as [| c r]; [contradiction |].
  inversion Hall as [| ? ? Hc Hr]; subst.
  assert (Hsign :
    match c :: r with
    | "-"%char :: r0 => (true, r0)
    | "+"%char :: r0 => (false, r0)
    | _ => (false, c :: r)
    end = (false, c :: r)).
  { clear - Hc. destruct c as [[] [] [] [] [] [] [] []];
      try discriminate Hc; reflexivity. }
  rewrite Hsign. cbn [int_body]. rewrite Hc, (int_body_digits r Hr).
  rewrite (filter_digits (c :: r) Hall). reflexivity.
Qed.

Lemma string_compare_refl s : String.compare s s = Eq.
Proof.
  induction s as [| c s IH]; [reflexivity |].
  cbn [String.compare]. unfold Ascii.compare. rewrite N.compare_refl. exact IH.
Qed.

(** Digit runs of equal length compare as their values do. *)
Lemma compare_digits l1 : forall l2 sfx,
  List.length l1 = List.length l2 -> all_digits l1 -> all_digits l2 ->
  String.compare (str l1 ++ sfx) (str l2 ++ sfx)
  = Z.compare (val_msb l1) (val_msb l2).
Proof.
  induction l1 as [| c1 r1 IH]; intros [| c2 r2] sfx Hlen H1 H2;
    try discriminate Hlen.
  - cbn. apply string_compare_refl.
  - injection Hlen as Hlen.
    inversion H1 as [| ? ? Hc1 Hr1]; inversion H2 as [| ? ? Hc2 Hr2]; subst.
    unfold str. cbn [string_of_list_ascii]. rewrite !append_cons.
    cbn [String.compare val_msb]. fold (str r1). fold (str r2).
    rewrite IH by assumption.
    pose proof (val_msb_range r1 Hr1) as Hv1.
    pose proof (val_msb_range r2 Hr2) as Hv2.
    pose proof (digit_val_range c1 Hc1) as Hd1.
    pose proof (digit_val_range c2 Hc2) as Hd2.
    rewrite <- Hlen in *.
    set (P := 10 ^ Z.of_nat (List.length r1)) in *.
    unfold Ascii.compare.
    destruct (N.compare_spec (N_of_ascii c1) (N_of_ascii c2)) as [He | Hl | Hg].
    + assert (digit_val c1 = digit_val c2) as -> by (unfold digit_val; lia).
      symmetry. apply Z.add_compare_mono_l.
    + symmetry. apply Z.compare_lt_iff.
      assert (digit_val c1 + 1 <= digit_val c2) by (unfold digit_val; lia). nia.
    + symmetry. apply Z.compare_gt_iff.
      assert (digit_val c2 + 1 <= digit_val c1) by (unfold digit_val; lia). nia.
Qed.

(** The frame with ordinal [k] gets the second [(k - 1) * interval]. *)
Lemma frame_second_of_ffmpeg_name k :
  0 <= k ->
  frame_second_of settings (ffmpeg_name k)
  = Ok ((k - 1) * PLEX_BIF_FRAME_INTERVAL settings).
Proof.
  intros Hk. unfold frame_second_of, ffmpeg_name.
  destruct (padded_spec 6 k Hk) as (Hall & Hne & Hval).
  rewrite format_0wd_nonneg, strip_frame_name, py_int_digits, Hval by assumption.
  reflexivity.
Qed.


Lemma renamed_order a b :
  0 <= a < 10000000000 -> 0 <= b < 10000000000 ->
  (str_lt (renamed a) (renamed b) <-> a < b).
Proof.
  intros Ha Hb. unfold str_lt, renamed.
  rewrite !format_0wd_nonneg by lia.
  destruct (padded_spec 10 a ltac:(lia)) as (Halla & _ & Hvala).
  destruct (padded_spec 10 b ltac:(lia)) as (Hallb & _ & Hvalb).
  rewrite compare_digits;
    [| rewrite !(padded_length 9) by (cbn; lia); reflexivity
     | assumption | assumption].
  rewrite <- !digits_val_msb, Hvala, Hvalb. apply Z.compare_lt_iff.
Qed.

End ReindexFacts.

(* ===================================================================== *)
(** ** Reindexing *)
(* ===================================================================== *)

Section ReindexTheorem.

Variable settings : Settings.


End ReindexTheorem.

(* ===================================================================== *)
(** ** The accelerator admission test *)
(* ===================================================================== *)

Section AdmissionFacts.

Variable settings : Settings.
Variable env : Env.

Lemma list_index_cons_ne x y r :
  y <> x -> list_index x (y :: r) = S (list_index x r).
Proof.
  intros Hne. cbn [list_index].
  destruct (String.eqb_spec x y) as [-> | _]; [contradiction | reflexivity].
Qed.

Lemma list_index_cons_eq x r : list_index x (x :: r) = O.
Proof. cbn [list_index]. rewrite String.eqb_refl. reflexivity. Qed.

(** [args.index(x)] is the first position of [x]. *)
Lemma list_index_le x l : forall i,
  l !! i = Some x -> (list_index x l <= i)%nat.
Proof.
  induction l as [| y r IH]; intros i Hi; [discriminate |].
  cbn [list_index]. destruct (String.eqb_spec x y) as [-> | Hne]; [lia |].
  destruct i as [| i]; [cbn in Hi; congruence |].
  cbn in Hi. specialize (IH i Hi). lia.
Qed.

Lemma length_base_args video_file output_folder vf_parameters :
  List.length (base_args settings env video_file output_folder vf_parameters)
  = 17%nat.
Proof. reflexivity. Qed.

(** The argument vector of the render-device path: the four options
    follow the plain vector, whose length is kept. *)
Lemma vaapi_args_shape video_file output_folder vf_parameters g v :
  let base := base_args settings env video_file output_folder vf_parameters in
  let args := (base ++ ["-hwaccel"; "vaapi"; "-vaapi_device"; g])%list in
  List.length (<[S (list_index "-vf" args) := v]> args)
  = (List.length base + 4)%nat /\
  drop (List.length base) (<[S (list_index "-vf" args) := v]> args)
  = ["-hwaccel"; "vaapi"; "-vaapi_device"; g].
Proof.
  intros base args.
  assert (Hidx : (list_index "-vf" args <= 14)%nat).
  { apply list_index_le. reflexivity. }
  split.
  - rewrite length_insert. subst args. rewrite length_app. reflexivity.
  - rewrite drop_insert_lt by (subst base; rewrite length_base_args; lia).
    subst args. rewrite drop_app_length. reflexivity.
Qed.

Lemma py_str_not_vf n : py_str n <> "-vf".
Proof.
  unfold py_str. destruct (n <? 0) eqn:Hn.
  - apply Z.ltb_lt in Hn.
    destruct (dec_digits_spec (- n) ltac:(lia)) as (Hall & Hne & _).
    destruct (dec_digits (- n)) as [| c r]; [contradiction |].
    inversion Hall as [| ? ? Hc _]; subst.
    cbn [str string_of_list_ascii]. intros Heq. inversion Heq; subst.
    discriminate.
  - apply Z.ltb_ge in Hn.
    destruct (dec_digits_spec n Hn) as (Hall & Hne & _).
    destruct (dec_digits n) as [| c r]; [contradiction |].
    inversion Hall as [| ? ? Hc _]; subst.
    cbn [str string_of_list_ascii]. intros Heq. inversion Heq; subst.
    discriminate.
Qed.

(** The argument vector of the render-device path when neither the
    transcoder path nor the video is the text [-vf]: the plain vector
    with the VAAPI filter after [-vf], and the four options. *)
Lemma vaapi_args video_file output_folder vf_parameters g :
  FFMPEG_PATH env <> "-vf" -> video_file <> "-vf" ->
  let base := base_args settings env video_file output_folder vf_parameters in
  let args := (base ++ ["-hwaccel"; "vaapi"; "-vaapi_device"; g])%list in
  <[S (list_index "-vf" args) := replace vf_parameters sw_scale vaapi_scale]> args
  = (base_args settings env video_file output_folder
       (replace vf_parameters sw_scale vaapi_scale)
     ++ ["-hwaccel"; "vaapi"; "-vaapi_device"; g])%list.
Proof.
  intros Hff Hvid base args. subst args base. unfold base_args. cbn [app].
  assert (Hpy : py_str (THUMBNAIL_QUALITY settings) <> "-vf")
    by apply py_str_not_vf.
  rewrite !list_index_cons_ne by (congruence || discriminate).
  rewrite list_index_cons_eq. reflexivity.
Qed.

(** Claim C4 (not met by the code for NVIDIA).  Whenever the count [c]
    of running transcoder processes is obtained, hardware decoding is
    chosen exactly when [c] is below [GPU_THREADS] or [CPU_THREADS] is
    zero: [-hwaccel cuda] is then inserted at positions 5 and 6 (NVIDIA)
    or [-hwaccel vaapi -vaapi_device <device>] is appended and the
    filter after [-vf] replaced by its VAAPI variant (a render device);
    with [c] at or over [GPU_THREADS] and [CPU_THREADS] positive the
    argument vector stays the plain one.  Where the count raises, the
    test raises the same exception and neither path is taken.  For
    NVIDIA the count of a completed gpustat query is obtained only when
    every device has an empty process list, and is 0 then; as soon as a
    device lists a process, line 134 raises [AttributeError], so that
    the rule is only ever applied to the count 0 there. *)
Theorem accelerator_admission gpu video_file output_folder vf_parameters :
  gpu_available gpu = true ->
  let base := base_args settings env video_file output_folder vf_parameters in
  (forall c,
      contention env gpu = Ok c ->
      exists hw_accel_used args,
        select_accel settings env gpu vf_parameters base = Ok (hw_accel_used, args) /\
        (hw_accel_used = true <->
         c < GPU_THREADS settings \/ CPU_THREADS settings = 0) /\
        (GPU_THREADS settings <= c -> 0 < CPU_THREADS settings ->
         hw_accel_used = false) /\
        (hw_accel_used = false -> args = base) /\
        (hw_accel_used = true -> gpu = Some "NVIDIA" ->
         args = (take 5 base ++ ["-hwaccel"; "cuda"] ++ drop 5 base)%list) /\
        (hw_accel_used = true -> forall g, gpu = Some g -> g <> "NVIDIA" ->
         List.length args = (List.length base + 4)%nat /\
         drop (List.length base) args = ["-hwaccel"; "vaapi"; "-vaapi_device"; g] /\
         (FFMPEG_PATH env <> "-vf" -> video_file <> "-vf" ->
          args = (base_args settings env video_file output_folder
                    (replace vf_parameters sw_scale vaapi_scale)
                  ++ ["-hwaccel"; "vaapi"; "-vaapi_device"; g])%list))) /\
  (forall e,
      contention env gpu = Raise e ->
      select_accel settings env gpu vf_parameters base = Raise e) /\
  (gpu = Some "NVIDIA" ->
   forall gpu_stats,
     gpustat_query env = Ok gpu_stats ->
     (forall c, contention env gpu = Ok c ->
                c = 0 /\ Forall (fun processes => processes = Some []) gpu_stats) /\
     (Forall (fun processes => processes = Some []) gpu_stats ->
      contention env gpu = Ok 0) /\
     (Forall (fun processes => is_Some processes) gpu_stats ->
      Exists (fun processes => processes <> Some []) gpu_stats ->
      contention env gpu = Raise AttributeError)).
Proof.
  intros Havail base. split; [| split].
  - intros c Hc.
    destruct (select_accel_Ok settings env gpu vf_parameters base c Hc)
      as (hw & args & Hsel & Hiff & Hsw).
    exists hw, args. split; [exact Hsel |].
    assert (Hiff' : hw = true <->
                    c < GPU_THREADS settings \/ CPU_THREADS settings = 0)
      by (rewrite Hiff; tauto).
    split; [exact Hiff' |].
    split.
    { intros Hge Hcpu. destruct hw; [| reflexivity].
      destruct (proj1 Hiff' eq_refl); lia. }
    split; [exact Hsw |].
    split.
    + intros -> ->. unfold select_accel in Hsel.
      cbn [String.eqb Ascii.eqb Bool.eqb] in Hsel.
      destruct (gpustat_ffmpeg_count env) as [c0 | e0]; [| discriminate].
      destruct (_ || _); inversion Hsel; subst. reflexivity.
    + intros -> g -> Hnv. unfold select_accel in Hsel.
      destruct (String.eqb_spec g "NVIDIA") as [| _]; [contradiction |].
      unfold gpu_available in Havail. rewrite Havail in Hsel.
      destruct (amd_ffmpeg_processes env) as [n | e0]; [| discriminate].
      destruct (_ || _); inversion Hsel; subst.
      destruct (vaapi_args_shape video_file output_folder vf_parameters g
                  (replace vf_parameters sw_scale vaapi_scale)) as [Hlen Hdrop].
      split; [exact Hlen |]. split; [exact Hdrop |].
      intros Hff Hvid. apply vaapi_args; assumption.
  - intros e He. apply select_accel_Raise. exact He.
  - intros -> gpu_stats Hq. unfold contention.
    cbn [String.eqb Ascii.eqb Bool.eqb].
    split; [| split].
    + intros c Hc. exact (gpustat_ffmpeg_count_Ok env gpu_stats c Hq Hc).
    + exact (gpustat_ffmpeg_count_idle env gpu_stats Hq).
    + exact (gpustat_ffmpeg_count_busy env gpu_stats Hq).
Qed.

End AdmissionFacts.

(* ===================================================================== *)
(** ** The theorems at concrete inputs *)
(* ===================================================================== *)

Section Instances.

Import Scenario.

Ltac split_conj := repeat match goal with |- _ /\ _ => split end.

(** The encoder on a directory with two frames and a stray text file. *)
Lemma encoder_enumerates_sorted_jpg_entries_witness :
  generate_bif settings5 bif tmp world_frames = (Ok tt, world_encoded) /\
  exists d out table,
    dirs world_frames !! tmp = Some d /\
    files world_encoded !! bif = Some out /\
    (forall n, n ∈ images_of d <-> is_Some (d !! n) /\ endswith n ".jpg" = true) /\
    Sorted String.le (images_of d) /\
    NoDup (images_of d) /\
    u32_at 12 out = Z.of_nat (List.length (images_of d)) /\
    out = (header_bytes (Z.of_nat (List.length (images_of d)))
             (1000 * PLEX_BIF_FRAME_INTERVAL settings5)
           ++ table ++ flat_map (frame_bytes d) (images_of d))%list /\
    List.length table = (8 * S (List.length (images_of d)))%nat /\
    List.length (index_entries_of table) = S (List.length (images_of d)).
Proof.
  assert (H : generate_bif settings5 bif tmp world_frames = (Ok tt, world_encoded))
    by (vm_compute; reflexivity).
  split; [exact H |].
  exact (encoder_enumerates_sorted_jpg_entries settings5 bif tmp
           world_frames world_encoded H).
Defined.

(** The frame of second 10 gets timestamp 1 although second 5 is
    missing. *)
Lemma index_timestamps_are_positions_witness :
  generate_bif settings5 bif tmp world_frames = (Ok tt, world_encoded) /\
  exists d images out table,
    dirs world_frames !! tmp = Some d /\
    files world_encoded !! bif = Some out /\
    (forall n, n ∈ images <-> is_Some (d !! n) /\ endswith n ".jpg" = true) /\
    Sorted String.le images /\
    NoDup images /\
    out = (header_bytes (Z.of_nat (List.length images))
             (1000 * PLEX_BIF_FRAME_INTERVAL settings5)
           ++ table ++ payload_bytes d images)%list /\
    List.length table = (8 * S (List.length images))%nat /\
    map fst (index_entries_of table)
    = (map Z.of_nat (seq 0 (List.length images)) ++ [4294967295])%list /\
    (forall k name,
        images !! k = Some name ->
        map fst (index_entries_of table) !! k = Some (Z.of_nat k) /\
        List.length (filter (fun n => String.ltb n name = true) images) = k) /\
    (forall m images',
        m ∈ images ->
        (forall n, n ∈ images' <->
                   is_Some (delete m d !! n) /\ endswith n ".jpg" = true) ->
        Sorted String.le images' -> NoDup images' ->
        forall k name,
          images !! k = Some name -> name <> m ->
          images' !! (if String.ltb m name then k - 1 else k)%nat = Some name).
Proof.
  assert (H : generate_bif settings5 bif tmp world_frames = (Ok tt, world_encoded))
    by (vm_compute; reflexivity).
  split; [exact H |].
  exact (index_timestamps_are_positions settings5 bif tmp
           world_frames world_encoded H).
Defined.

Example missing_frame_shifts_timestamps :
  images_of frames_dir = ["0000000000.jpg"; "0000000010.jpg"] /\
  option_map (fun out => index_entries_of (take 24 (drop 76 out)))
    (files world_encoded !! bif)
  = Some [(0, 88); (1, 91); (4294967295, 93)].
Proof. split_conj; vm_compute; reflexivity. Qed.

Lemma header_occupies_76_bytes_witness :
  generate_bif settings5 bif tmp world_frames = (Ok tt, world_encoded) /\
  exists d out,
    dirs world_frames !! tmp = Some d /\
    files world_encoded !! bif = Some out /\
    take 8 out = magic /\
    u32_at 8 out = 0 /\
    u32_at 12 out = Z.of_nat (List.length (images_of d)) /\
    u32_at 16 out = 1000 * PLEX_BIF_FRAME_INTERVAL settings5 /\
    take 56 (drop 20 out) = repeat x00 56 /\
    index_entries_of (take (8 * S (List.length (images_of d))) (drop 76 out))
    = table_entries d (images_of d) /\
    List.length (table_entries d (images_of d)) = S (List.length (images_of d)) /\
    drop (76 + 8 * S (List.length (images_of d))) out
    = payload_bytes d (images_of d).
Proof.
  assert (H : generate_bif settings5 bif tmp world_frames = (Ok tt, world_encoded))
    by (vm_compute; reflexivity).
  split; [exact H |].
  exact (header_occupies_76_bytes settings5 bif tmp world_frames world_encoded H).
Defined.

(** On the empty directory the artifact is 84 bytes long: 76 in front of
    the closing entry, which therefore sits at bytes 76-83 and not at
    64-71. *)
Example empty_directory_artifact :
  let w := {| files := ∅; dirs := <[indexes := ∅]> (<[tmp := ∅]> ∅);
              disk_free := 1000000; spawned := []; metrics := [] |} in
  option_map (fun out => (List.length out, u32_at 64 out, u32_at 76 out, u32_at 80 out))
    (files (snd (generate_bif settings5 bif tmp w)) !! bif)
  = Some (84%nat, 0, 4294967295, 72).
Proof. vm_compute. reflexivity. Qed.

Lemma closing_offset_is_12_short_witness :
  generate_bif settings5 bif tmp world_frames = (Ok tt, world_encoded) /\
  exists d out entries,
    dirs world_frames !! tmp = Some d /\
    files world_encoded !! bif = Some out /\
    entries
    = index_entries_of (take (8 * S (List.length (images_of d))) (drop 76 out)) /\
    map snd entries !! 0%nat
    = Some (64 + (8 + 8 * Z.of_nat (List.length (images_of d)))) /\
    (forall k name o,
        images_of d !! k = Some name ->
        map snd entries !! k = Some o ->
        map snd entries !! S k = Some (o + frame_size d name)) /\
    (forall k o o',
        Forall (fun name => 0 < frame_size d name) (images_of d) ->
        map snd entries !! k = Some o ->
        map snd entries !! S k = Some o' ->
        o < o') /\
    last entries = Some (4294967295, Z.of_nat (List.length out) - 12).
Proof.
  assert (H : generate_bif settings5 bif tmp world_frames = (Ok tt, world_encoded))
    by (vm_compute; reflexivity).
  split; [exact H |].
  exact (closing_offset_is_12_short settings5 bif tmp world_frames world_encoded H).
Defined.

(** Two frames of 3 and 2 bytes: the file is 105 bytes long, the closing
    entry says 93. *)
Example closing_offset_of_two_frames :
  option_map (fun out => (List.length out, last (index_entries_of (take 24 (drop 76 out)))))
    (files world_encoded !! bif)
  = Some (105%nat, Some (4294967295, 93)).
Proof. vm_compute. reflexivity. Qed.

(** NVIDIA accelerator with a desktop process on the device. *)
Lemma accelerator_admission_witness :
  gpu_available (Some "NVIDIA") = true /\
  let base := base_args settings5 env_busy "/videos/film.mkv" tmp "fps=fps=0.2" in
  (forall c,
      contention env_busy (Some "NVIDIA") = Ok c ->
      exists hw_accel_used args,
        select_accel settings5 env_busy (Some "NVIDIA") "fps=fps=0.2" base
        = Ok (hw_accel_used, args) /\
        (hw_accel_used = true <->
         c < GPU_THREADS settings5 \/ CPU_THREADS settings5 = 0) /\
        (GPU_THREADS settings5 <= c -> 0 < CPU_THREADS settings5 ->
         hw_accel_used = false) /\
        (hw_accel_used = false -> args = base) /\
        (hw_accel_used = true -> Some "NVIDIA" = Some "NVIDIA" ->
         args = (take 5 base ++ ["-hwaccel"; "cuda"] ++ drop 5 base)%list) /\
        (hw_accel_used = true -> forall g, Some "NVIDIA" = Some g -> g <> "NVIDIA" ->
         List.length args = (List.length base + 4)%nat /\
         drop (List.length base) args = ["-hwaccel"; "vaapi"; "-vaapi_device"; g] /\
         (FFMPEG_PATH env_busy <> "-vf" -> "/videos/film.mkv" <> "-vf" ->
          args = (base_args settings5 env_busy "/videos/film.mkv" tmp
                    (replace "fps=fps=0.2" sw_scale vaapi_scale)
                  ++ ["-hwaccel"; "vaapi"; "-vaapi_device"; g])%list))) /\
  (forall e,
      contention env_busy (Some "NVIDIA") = Raise e ->
      select_accel settings5 env_busy (Some "NVIDIA") "fps=fps=0.2" base = Raise e) /\
  (Some "NVIDIA" = Some "NVIDIA" ->
   forall gpu_stats,
     gpustat_query env_busy = Ok gpu_stats ->
     (forall c, contention env_busy (Some "NVIDIA") = Ok c ->
                c = 0 /\ Forall (fun processes => processes = Some []) gpu_stats) /\
     (Forall (fun processes => processes = Some []) gpu_stats ->
      contention env_busy (Some "NVIDIA") = Ok 0) /\
     (Forall (fun processes => is_Some processes) gpu_stats ->
      Exists (fun processes => processes <> Some []) gpu_stats ->
      contention env_busy (Some "NVIDIA") = Raise AttributeError)).
Proof.
  split; [reflexivity |].
  exact (accelerator_admission settings5 env_busy (Some "NVIDIA")
           "/videos/film.mkv" tmp "fps=fps=0.2" eq_refl).
Defined.

(** With a process on the NVIDIA device the test raises and the job ends
    as a failed extraction before the transcoder is started; the
    directories that the job created stay, the temporary one is
    removed. *)
Example busy_gpu_fails_the_job :
  select_accel settings5 env_busy (Some "NVIDIA") "fps=fps=0.2"
    (base_args settings5 env_busy "/videos/film.mkv" tmp "fps=fps=0.2")
  = Raise AttributeError /\
  fst job_busy = Ok (FailedExtraction AttributeError) /\
  spawned (snd job_busy) = [] /\
  files (snd job_busy) = ∅ /\
  dirs (snd job_busy) !! tmp = None.
Proof. split_conj; vm_compute; reflexivity. Qed.

(** A device whose process list the driver does not tell, after an idle
    one: the list cannot be iterated. *)
Example process_list_not_told :
  contention
    {| FFMPEG_PATH := "/usr/bin/ffmpeg"; is_hdr := fun _ => false;
       fps_repr := fun _ => "0.2"; gpustat_query := Ok [Some []; None];
       amd_ffmpeg_processes := Ok 0%nat; ffmpeg := fun _ => run_ok |}
    (Some "NVIDIA")
  = Raise TypeError.
Proof. reflexivity. Qed.

(** The rule on an idle NVIDIA device (count 0) and on a render device
    with two transcoder processes. *)
Example admission_truth_table :
  let st gp cp := {| PLEX_BIF_FRAME_INTERVAL := 5; THUMBNAIL_QUALITY := 4;
                     GPU_THREADS := gp; CPU_THREADS := cp |} in
  let env2 := {| FFMPEG_PATH := "/usr/bin/ffmpeg"; is_hdr := fun _ => false;
                 fps_repr := fun _ => "0.2"; gpustat_query := Ok [Some []];
                 amd_ffmpeg_processes := Ok 2%nat; ffmpeg := fun _ => run_ok |} in
  let dev := "/dev/dri/renderD128" in
  select_accel (st 4 4) env_ok (Some "NVIDIA") "" ["a"; "-vf"; ""]
  = Ok (true, ["a"; "-vf"; ""; "-hwaccel"; "cuda"]) /\
  select_accel (st 0 4) env_ok (Some "NVIDIA") "" ["a"; "-vf"; ""]
  = Ok (false, ["a"; "-vf"; ""]) /\
  select_accel (st 0 0) env_ok (Some "NVIDIA") "" ["a"; "-vf"; ""]
  = Ok (true, ["a"; "-vf"; ""; "-hwaccel"; "cuda"]) /\
  select_accel (st 4 4) env2 (Some dev) "" ["a"; "-vf"; ""]
  = Ok (true, ["a"; "-vf"; ""; "-hwaccel"; "vaapi"; "-vaapi_device"; dev]) /\
  select_accel (st 2 4) env2 (Some dev) "" ["a"; "-vf"; ""]
  = Ok (false, ["a"; "-vf"; ""]) /\
  select_accel (st 2 0) env2 (Some dev) "" ["a"; "-vf"; ""]
  = Ok (true, ["a"; "-vf"; ""; "-hwaccel"; "vaapi"; "-vaapi_device"; dev]) /\
  select_accel (st 4 4) env_ok None "" ["a"; "-vf"; ""]
  = Ok (false, ["a"; "-vf"; ""]).
Proof. intros st env2 dev. split_conj; vm_compute; reflexivity. Qed.


Example frame_names_at_interval_5 :
  ffmpeg_name 2 = "img-000002.jpg" /\
  frame_second_of settings5 "img-000002.jpg" = Ok 5 /\
  renamed 5 = "0000000005.jpg" /\ renamed 10 = "0000000010.jpg" /\
  String.compare (renamed 5) (renamed 10) = Lt.
Proof. split_conj; vm_compute; reflexivity. Qed.


(** A second run against the artifact of the first. *)
Lemma existing_target_is_skipped_witness :
  is_Some (files world_with_artifact !! index_bif job) /\
  process_part settings5 env_ok job (Some "NVIDIA") world_with_artifact
  = (Ok Skipped, world_with_artifact) /\
  (forall r w1,
      process_part settings5 env_ok job (Some "NVIDIA") world_with_artifact = (r, w1) ->
      process_part settings5 env_ok job (Some "NVIDIA") w1 = (Ok Skipped, w1) /\
      spawned w1 = spawned world_with_artifact /\
      files w1 = files world_with_artifact /\
      dirs w1 = dirs world_with_artifact /\
      metrics w1 = metrics world_with_artifact).
Proof.
  assert (H : is_Some (files world_with_artifact !! index_bif job)).
  { exists [x89; x42; x49; x46]. vm_compute. reflexivity. }
  split; [exact H |].
  exact (existing_target_is_skipped settings5 env_ok job (Some "NVIDIA")
           world_with_artifact H).
Defined.

Example second_run_is_skipped :
  fst job_done = Ok Done /\
  process_part settings5 env_ok job (Some "NVIDIA") (snd job_done)
  = (Ok Skipped, snd job_done).
Proof. split_conj; vm_compute; reflexivity. Qed.

(** The disk fills up while the index table is written. *)
Lemma encode_failure_cleans_up_witness :
  process_part settings5 env_ok job (Some "NVIDIA") world_full
  = (Ok (FailedEncoding OSError), snd job_disk_full) /\
  (forall e, Ok (FailedEncoding OSError) = Ok (FailedEncoding e) ->
             files (snd job_disk_full) !! index_bif job = None /\
             dirs (snd job_disk_full) !! tmp_path job = None) /\
  (forall o, Ok (FailedEncoding OSError) = Ok o -> o <> Skipped ->
             dirs (snd job_disk_full) !! tmp_path job = None) /\
  (Ok (FailedEncoding OSError) = Ok Skipped -> snd job_disk_full = world_full) /\
  (forall e, Ok (FailedEncoding OSError) = Raise e ->
             dirs (snd job_disk_full) !! tmp_path job = None \/
             dirs (snd job_disk_full) !! tmp_path job
             = dirs world_full !! tmp_path job).
Proof.
  assert (H : process_part settings5 env_ok job (Some "NVIDIA") world_full
              = (Ok (FailedEncoding OSError), snd job_disk_full))
    by (vm_compute; reflexivity).
  split; [exact H |].
  exact (encode_failure_cleans_up settings5 env_ok job (Some "NVIDIA")
           world_full _ _ H).
Defined.

(** Claim C8 fails as worded: the exit of a skipped job does not remove
    the temporary directory.  With the artifact in place and a temporary
    directory that an interrupted run has left, the job is skipped and
    the directory stays, with its frames. *)
Lemma skipped_job_keeps_stale_tmp :
  process_part settings5 env_ok job None world_stale = (Ok Skipped, world_stale) /\
  dirs world_stale !! tmp_path job = Some frames_dir /\
  ~ (forall gpu w r w',
        process_part settings5 env_ok job gpu w = (r, w') ->
        dirs w' !! tmp_path job = None).
Proof.
  assert (H : process_part settings5 env_ok job None world_stale
              = (Ok Skipped, world_stale)) by (vm_compute; reflexivity).
  assert (Hd : dirs world_stale !! tmp_path job = Some frames_dir)
    by (vm_compute; reflexivity).
  split; [exact H |]. split; [exact Hd |].
  intros Hall. specialize (Hall None world_stale _ _ H).
  rewrite Hd in Hall. discriminate.
Qed.

(** A complete run: one row, for the video of the job. *)
Lemma metric_emitted_after_extraction_witness :
  process_part settings5 env_ok job (Some "NVIDIA") world0
  = (Ok Done, snd job_done) /\
  (forall args, returncode (ffmpeg env_ok args) = 0) /\
  exists m, metrics (snd job_done) = (metrics world0 ++ [m])%list /\
            m_video_file m = media_file job.
Proof.
  assert (H : process_part settings5 env_ok job (Some "NVIDIA") world0
              = (Ok Done, snd job_done))
    by (vm_compute; reflexivity).
  assert (Hrc : forall args, returncode (ffmpeg env_ok args) = 0)
    by (intros args; reflexivity).
  split; [exact H |]. split; [exact Hrc |].
  exact (proj2 (proj2 (proj2
           (metric_emitted_after_extraction settings5 env_ok job (Some "NVIDIA")
              world0 _ _ H))) Hrc (or_introl eq_refl)).
Defined.

(** Claim C7 fails as worded: with the disk filling up during encoding the
    job ends as a failed encoding, no artifact is left, and the metrics
    table has its row all the same. *)
Lemma metric_emitted_although_encoding_failed :
  fst job_disk_full = Ok (FailedEncoding OSError) /\
  files (snd job_disk_full) !! bif = None /\
  metrics world_full = [] /\
  metrics (snd job_disk_full)
  = [ {| m_video_file := "/videos/film.mkv"; m_hw_accel := true;
         m_time_seconds := "3.2"; m_speed := "2.5" |} ].
Proof. split_conj; vm_compute; reflexivity. Qed.

(** The transcoder exits with status 1 and leaves nothing. *)
Lemma nonzero_exit_is_not_an_extraction_failure_witness :
  ((forall args, returncode (ffmpeg env_exit1 args) <> 0) /\
   PLEX_BIF_FRAME_INTERVAL settings5 <> 0 /\
   files world0 !! index_bif job = None /\
   files world0 !! indexes_path job = None /\
   files world0 !! tmp_path job = None /\
   process_part settings5 env_exit1 job None world0 = (Ok Done, snd job_exit1)) /\
  (forall e, Ok Done = Ok (FailedExtraction e) ->
             contention env_exit1 None = Raise e /\
             spawned (snd job_exit1) = spawned world0) /\
  (forall c, contention env_exit1 None = Ok c ->
             (forall e, Ok Done <> Ok (FailedExtraction e)) /\
             exists args, spawned (snd job_exit1) = (spawned world0 ++ [args])%list) /\
  (Ok Done = Ok Done -> is_Some (files (snd job_exit1) !! index_bif job)) /\
  dirs (snd job_exit1) !! tmp_path job = None /\
  metrics (snd job_exit1) = metrics world0.
Proof.
  assert (Hrc : forall args, returncode (ffmpeg env_exit1 args) <> 0)
    by (intros args; discriminate).
  assert (Hint : PLEX_BIF_FRAME_INTERVAL settings5 <> 0) by discriminate.
  assert (Hgate : files world0 !! index_bif job = None) by apply lookup_empty.
  assert (Hidx : files world0 !! indexes_path job = None) by apply lookup_empty.
  assert (Htmp : files world0 !! tmp_path job = None) by apply lookup_empty.
  assert (H : process_part settings5 env_exit1 job None world0
              = (Ok Done, snd job_exit1))
    by (vm_compute; reflexivity).
  split; [auto 10 |].
  exact (nonzero_exit_is_not_an_extraction_failure settings5 env_exit1 job None
           world0 (Ok Done) (snd job_exit1) Hrc Hint Hgate Hidx Htmp H).
Defined.

(** After the exit with status 1 the target holds an artifact of zero
    frames (84 bytes), which the next run takes as already generated. *)
Example exit1_leaves_empty_artifact :
  fst job_exit1 = Ok Done /\
  option_map (fun out => (List.length out, u32_at 12 out))
    (files (snd job_exit1) !! bif) = Some (84%nat, 0) /\
  process_part settings5 env_exit1 job None (snd job_exit1)
  = (Ok Skipped, snd job_exit1).
Proof. split_conj; vm_compute; reflexivity. Qed.

End Instances.

Import Frames Path Detect Item Config.

(* ===================================================================== *)
(** ** More on [generate_bif]: completion, failure, reading frames back *)
(* ===================================================================== *)

Section EncoderMore.

Variable settings : Settings.

Lemma table_end_fits d images :
  Forall fits_u32 (table_entries d images) ->
  first_offset images + total (map (frame_size d) images) < 4294967296.
Proof.
  unfold table_entries. intros Hfit. apply Forall_app in Hfit as [_ Hs].
  inversion Hs as [| ? ? [_ Hoff] _]; subst. cbn [snd] in Hoff. lia.
Qed.

(** Property X1.
    [generate_bif] completes only if the frame directory is there, the
    target is not a directory and has the directory it goes to in place,
    the interval in milliseconds and the end offset fit 32 bits, and the
    volume has room for the artifact; the world then differs by the
    artifact only. *)
Theorem generate_bif_completes_only_if bif_filename images_path w w' :
  generate_bif settings bif_filename images_path w = (Ok tt, w') ->
  exists d,
    dirs w !! images_path = Some d /\
    dirs w !! bif_filename = None /\
    OS.parent_error bif_filename w = None /\
    0 <= 1000 * PLEX_BIF_FRAME_INTERVAL settings < 4294967296 /\
    first_offset (images_of d) + total (map (frame_size d) (images_of d))
    < 4294967296 /\
    Z.of_nat (List.length (bif_of (PLEX_BIF_FRAME_INTERVAL settings) d))
    <= disk_free w /\
    w' = set_files
           (<[bif_filename := bif_of (PLEX_BIF_FRAME_INTERVAL settings) d]> (files w)) w.
Proof.
  intros H. pose proof (generate_bif_Ok_place _ _ _ _ _ _ H) as [Ht Hp].
  apply generate_bif_Ok in H as (d & Hd & Hw & Hi & Hfit & Hlen).
  exists d. repeat (split; [assumption || (apply table_end_fits, Hfit) |]).
  exact Hw.
Qed.

(** Writing regular files does not take away the directory that a
    target goes to. *)
Lemma parent_error_set_files p f w :
  OS.parent_error p w = None -> OS.parent_error p (set_files f w) = None.
Proof.
  unfold OS.parent_error. destruct (_ || _); [reflexivity |].
  cbn [dirs set_files].
  destruct (dirs w !! OS.dirname p); [reflexivity |].
  destruct (files w !! OS.dirname p); discriminate.
Qed.

(** Property X2.
    Running the encoder again over the same frames rewrites the same
    artifact. *)
Theorem generate_bif_again bif_filename images_path w w' :
  generate_bif settings bif_filename images_path w = (Ok tt, w') ->
  generate_bif settings bif_filename images_path w' = (Ok tt, w').
Proof.
  intros H. pose proof (generate_bif_Ok_place _ _ _ _ _ _ H) as [Ht Hp].
  apply generate_bif_Ok in H as (d & Hd & -> & Hi & Hfit & Hlen).
  rewrite (generate_bif_run settings bif_filename images_path _ d);
    try assumption;
    [| apply parent_error_set_files, Hp | apply table_end_fits, Hfit].
  unfold set_files. cbn. rewrite insert_insert_eq. reflexivity.
Qed.


Lemma total_app l1 l2 : total (l1 ++ l2) = total l1 + total l2.
Proof. unfold total. induction l1 as [| x l1 IH]; cbn [app fold_right]; lia. Qed.

Lemma running_lookup sizes : forall i k,
  (k <= List.length sizes)%nat ->
  running sizes i !! k = Some (i + total (take k sizes)).
Proof.
  induction sizes as [| s rest IH]; intros i k Hk.
  - cbn in Hk. assert (k = 0%nat) as -> by lia. cbn. f_equal. lia.
  - destruct k as [| k].
    + cbn. f_equal. lia.
    + cbn [running take]. cbn [lookup list_lookup].
      change (running rest (i + s) !! k = Some (i + total (s :: take k rest))).
      rewrite IH by (cbn in Hk; lia).
      f_equal. cbn [total fold_right]. fold (total (take k rest)). lia.
Qed.

Lemma payload_from d images k name :
  images !! k = Some name ->
  drop (Z.to_nat (total (map (frame_size d) (take k images))))
    (payload_bytes d images)
  = (frame_bytes d name ++ payload_bytes d (drop (S k) images))%list.
Proof.
  revert k. induction images as [| n rest IH]; intros k Hk; [discriminate Hk |].
  destruct k as [| k].
  - cbn in Hk. inversion Hk; subst. reflexivity.
  - cbn [take map total fold_right]. fold (total (map (frame_size d) (take k rest))).
    unfold payload_bytes. cbn [flat_map drop].
    pose proof (total_nonneg (map (frame_size d) (take k rest))
                  (frame_sizes_nonneg d (take k rest))) as Hnn.
    unfold frame_size at 1. rewrite Z2Nat.inj_add by lia.
    rewrite Nat2Z.id, <- drop_drop, drop_app_length.
    apply (IH k Hk).
Qed.

(** Property X3.
    Every frame can be read back from the artifact: its bytes start 12
    bytes after the offset that its index entry gives (the header takes 76
    bytes where the offsets assume 64) and run for the size of the frame
    file. *)
Theorem frames_read_back bif_filename images_path w w' :
  generate_bif settings bif_filename images_path w = (Ok tt, w') ->
  exists d out,
    dirs w !! images_path = Some d /\
    files w' !! bif_filename = Some out /\
    forall k name o,
      images_of d !! k = Some name ->
      map snd (index_entries_of
                 (take (8 * S (List.length (images_of d))) (drop 76 out))) !! k
      = Some o ->
      take (List.length (frame_bytes d name)) (drop (Z.to_nat o + 12) out)
      = frame_bytes d name.
Proof.
  intros H.
  apply generate_bif_artifact in H as (d & Hd & Hout & Hi & Hn & Hfit).
  exists d, (bif_of (PLEX_BIF_FRAME_INTERVAL settings) d).
  split; [exact Hd |]. split; [exact Hout |].
  intros k name o Hk Ho.
  rewrite table_of_artifact in Ho by exact Hfit.
  unfold table_entries in Ho. rewrite offsets_running in Ho.
  pose proof (lookup_lt_Some _ _ _ Hk) as Hlt.
  rewrite running_lookup in Ho by (rewrite length_map; lia).
  inversion Ho; subst o; clear Ho.
  change (take k (map (frame_size d) (images_of d)))
    with (take k (frame_size d <$> images_of d)).
  rewrite <- fmap_take.
  change (frame_size d <$> take k (images_of d))
    with (map (frame_size d) (take k (images_of d))).
  pose proof (total_nonneg _ (frame_sizes_nonneg d (take k (images_of d)))) as Hnn.
  set (T := total (map (frame_size d) (take k (images_of d)))) in *.
  assert (Hpos : (Z.to_nat (first_offset (images_of d) + T) + 12
                  = 76 + (8 * S (List.length (images_of d)) + Z.to_nat T))%nat).
  { unfold first_offset. lia. }
  rewrite Hpos. unfold bif_of.
  rewrite <- drop_drop.
  match goal with |- context [(header_bytes ?c ?i ++ ?r)%list] =>
    rewrite (drop_app_length' (header_bytes c i) r 76 (length_header_bytes c i))
  end.
  rewrite <- drop_drop.
  rewrite drop_app_length'
    by (rewrite length_encode_entries, length_table_entries; reflexivity).
  subst T. rewrite (payload_from d (images_of d) k name Hk).
  apply take_app_length.
Qed.


(** Whatever a write does, it appends its bytes, or as many of them as
    the volume takes. *)
Lemma f_write_any free bs buf r buf' :
  OS.f_write free bs buf = (r, buf') ->
  (r = Ok tt /\ buf' = (buf ++ bs)%list) \/
  (r = Raise OSError /\ exists pre, buf' = (buf ++ pre)%list /\ pre `prefix_of` bs).
Proof.
  unfold OS.f_write.
  destruct (Z.of_nat (List.length buf + List.length bs) <=? free);
    intros H; inversion H; subst; [auto |].
  right. split; [reflexivity |]. eexists. split; [reflexivity |].
  apply prefix_take.
Qed.

Lemma write_packed_any free v buf r buf' :
  write_packed free v buf = (r, buf') ->
  (r = Ok tt /\ buf' = (buf ++ le32 v)%list) \/
  (exists e pre, r = Raise e /\ buf' = (buf ++ pre)%list /\ pre `prefix_of` le32 v).
Proof.
  unfold write_packed, mbind, Wr_bind, wr_lift, struct_pack_I.
  destruct ((0 <=? v) && (v <=? 4294967295)).
  - intros H. apply f_write_any in H as [[-> ->] | [-> (pre & -> & Hp)]]; eauto 10.
  - intros H. inversion H; subst. right. exists StructError, [].
    rewrite app_nil_r. split; [reflexivity |]. split; [reflexivity |].
    apply prefix_nil.
Qed.

Ltac prefix_tac Hp :=
  cbn [app]; rewrite <- ?app_assoc;
  repeat apply prefix_app;
  first [ exact Hp | apply prefix_app_r; exact Hp | apply prefix_nil | reflexivity ].

Lemma write_index_any free d images : forall timestamp image_index buf r buf',
  write_index free d images timestamp image_index buf = (r, buf') ->
  exists pre,
    buf' = (buf ++ pre)%list /\
    pre `prefix_of`
      flat_map encode_entry
        (index_table (map (frame_size d) images) timestamp image_index).
Proof.
  induction images as [| image rest IH]; intros timestamp image_index buf r buf' H.
  - inversion H; subst. exists []. rewrite app_nil_r. split; [reflexivity |].
    apply prefix_nil.
  - cbn [write_index] in H. unfold mbind, Wr_bind in H.
    unfold wr_lift, OS.stat_size in H.
    destruct (d !! image) as [content |] eqn:Hd.
    2:{ inversion H; subst. exists []. rewrite app_nil_r.
        split; [reflexivity | apply prefix_nil]. }
    assert (Hfs : frame_size d image = Z.of_nat (List.length content)).
    { unfold frame_size. rewrite (frame_bytes_lookup _ _ _ Hd). reflexivity. }
    cbn [map index_table flat_map]. rewrite Hfs.
    unfold encode_entry at 1. cbn [fst snd].
    destruct (write_packed free timestamp buf) as [r1 b1] eqn:H1.
    apply write_packed_any in H1 as [[-> ->] | (e & p1 & -> & -> & Hp)].
    2:{ inversion H; subst. exists p1. split; [reflexivity |].
        rewrite <- app_assoc. apply prefix_app_r, Hp. }
    destruct (write_packed free image_index (buf ++ le32 timestamp)%list) as [r2 b2] eqn:H2.
    apply write_packed_any in H2 as [[-> ->] | (e & p2 & -> & -> & Hp)].
    2:{ inversion H; subst. exists (le32 timestamp ++ p2)%list.
        split; [rewrite app_assoc; reflexivity |].
        rewrite <- app_assoc. apply prefix_app, prefix_app_r, Hp. }
    apply IH in H as (pre & -> & Hpre).
    exists ((le32 timestamp ++ le32 image_index) ++ pre)%list.
    split; [rewrite !app_assoc; reflexivity |].
    apply prefix_app, Hpre.
Qed.

Lemma write_payload_any free d images : forall buf r buf',
  write_payload free d images buf = (r, buf') ->
  exists pre, buf' = (buf ++ pre)%list /\ pre `prefix_of` payload_bytes d images.
Proof.
  induction images as [| image rest IH]; intros buf r buf' H.
  - inversion H; subst. exists []. rewrite app_nil_r. split; [reflexivity |].
    apply prefix_nil.
  - cbn [write_payload] in H. unfold mbind, Wr_bind in H.
    unfold wr_lift, OS.read_bytes in H.
    destruct (d !! image) as [content |] eqn:Hd.
    2:{ inversion H; subst. exists []. rewrite app_nil_r.
        split; [reflexivity | apply prefix_nil]. }
    unfold payload_bytes. cbn [flat_map]. rewrite (frame_bytes_lookup _ _ _ Hd).
    destruct (OS.f_write free content buf) as [r1 b1] eqn:H1.
    apply f_write_any in H1 as [[-> ->] | [-> (p1 & -> & Hp)]].
    2:{ inversion H; subst. exists p1. split; [reflexivity |].
        apply prefix_app_r, Hp. }
    apply IH in H as (pre & -> & Hpre).
    exists (content ++ pre)%list. split; [rewrite app_assoc; reflexivity |].
    apply prefix_app, Hpre.
Qed.

Lemma write_header_any free count r out :
  write_header settings free count [] = (r, out) ->
  out `prefix_of` header_bytes count (1000 * PLEX_BIF_FRAME_INTERVAL settings).
Proof.
  unfold write_header, mbind, Wr_bind, header_bytes.
  destruct (OS.f_write free magic []) as [r1 b1] eqn:H1.
  apply f_write_any in H1 as [[-> ->] | [-> (p & -> & Hp)]];
    [| intros H; apply (f_equal snd) in H; cbn [snd] in H; rewrite <- H;
       prefix_tac Hp].
  cbn [app].
  destruct (write_packed free version magic) as [r2 b2] eqn:H2.
  apply write_packed_any in H2 as [[-> ->] | (e & p & -> & -> & Hp)];
    [| intros H; apply (f_equal snd) in H; cbn [snd] in H; rewrite <- H;
       prefix_tac Hp].
  destruct (write_packed free count (magic ++ le32 version)%list) as [r3 b3] eqn:H3.
  apply write_packed_any in H3 as [[-> ->] | (e & p & -> & -> & Hp)];
    [| intros H; apply (f_equal snd) in H; cbn [snd] in H; rewrite <- H;
       prefix_tac Hp].
  destruct (write_packed free (1000 * PLEX_BIF_FRAME_INTERVAL settings)
              ((magic ++ le32 version) ++ le32 count)%list) as [r4 b4] eqn:H4.
  apply write_packed_any in H4 as [[-> ->] | (e & p & -> & -> & Hp)];
    [| intros H; apply (f_equal snd) in H; cbn [snd] in H; rewrite <- H;
       prefix_tac Hp].
  intros H. apply f_write_any in H as [[-> ->] | [-> (p & -> & Hp)]].
  - rewrite <- !app_assoc. reflexivity.
  - prefix_tac Hp.
Qed.

Lemma bif_body_any d images free r out :
  bif_body settings d images free [] = (r, out) ->
  out `prefix_of`
    (header_bytes (Z.of_nat (List.length images))
       (1000 * PLEX_BIF_FRAME_INTERVAL settings)
     ++ flat_map encode_entry (table_entries d images)
     ++ payload_bytes d images)%list.
Proof.
  unfold bif_body. unfold mbind at 1. unfold Wr_bind at 1.
  destruct (write_header settings free (Z.of_nat (List.length images)) [])
    as [[u0 | e0] b0] eqn:Hh.
  2:{ intros H. inversion H; subst. apply write_header_any in Hh.
      apply prefix_app_r, Hh. }
  apply write_header_Ok in Hh as (-> & _ & _). cbn [app]. cbn zeta.
  fold (first_offset images).
  unfold mbind at 1. unfold Wr_bind at 1.
  unfold table_entries. rewrite flat_map_app. cbn [flat_map].
  rewrite app_nil_r. unfold encode_entry at 2. cbn [fst snd].
  destruct (write_index free d images 0 (first_offset images) _)
    as [[[t' i'] | e1] b1] eqn:Hx.
  2:{ intros H. inversion H; subst.
      apply write_index_any in Hx as (pre & -> & Hpre).
      apply prefix_app. rewrite <- app_assoc. apply prefix_app_r, Hpre. }
  apply write_index_Ok in Hx as (_ & -> & -> & _ & ->).
  unfold mbind at 1. unfold Wr_bind at 1.
  match goal with |- context [write_packed free 4294967295 ?b] =>
    destruct (write_packed free 4294967295 b) as [r2 b2] eqn:H2 end.
  apply write_packed_any in H2 as [[-> ->] | (e & p & -> & -> & Hp)].
  2:{ intros H. apply (f_equal snd) in H. cbn [snd] in H. rewrite <- H.
      prefix_tac Hp. }
  unfold mbind at 1. unfold Wr_bind at 1.
  match goal with |- context [write_packed free ?v ?b] =>
    destruct (write_packed free v b) as [r3 b3] eqn:H3 end.
  apply write_packed_any in H3 as [[-> ->] | (e & p & -> & -> & Hp)].
  2:{ intros H. apply (f_equal snd) in H. cbn [snd] in H. rewrite <- H.
      prefix_tac Hp. }
  intros H. apply write_payload_any in H as (pre & -> & Hpre).
  rewrite <- !app_assoc. do 4 apply prefix_app. exact Hpre.
Qed.

(** Property X4.
    Whatever its result, [generate_bif] leaves the world as it was or
    with, at the target, some initial part of the artifact of the frame
    directory: complete when it returns, cut short where the failing
    write stopped when it raises.  Nothing else is touched. *)
Theorem generate_bif_writes_a_prefix bif_filename images_path w r w' :
  generate_bif settings bif_filename images_path w = (r, w') ->
  w' = w \/
  exists d out,
    dirs w !! images_path = Some d /\
    w' = set_files (<[bif_filename := out]> (files w)) w /\
    out `prefix_of` bif_of (PLEX_BIF_FRAME_INTERVAL settings) d /\
    (r = Ok tt -> out = bif_of (PLEX_BIF_FRAME_INTERVAL settings) d).
Proof.
  unfold generate_bif, mbind, IO_bind, OS.listdir, OS.entries_of, OS.with_open_wb.
  destruct (dirs w !! images_path) as [d |] eqn:Hd;
    [| intros H; inversion H; subst; auto].
  cbn beta iota. rewrite Hd. cbn [default from_option id].
  destruct (dirs w !! bif_filename); [intros H; inversion H; subst; auto |].
  destruct (OS.parent_error bif_filename w); [intros H; inversion H; subst; auto |].
  fold (images_of d).
  destruct (bif_body settings d (images_of d) (disk_free w) []) as [r0 out] eqn:Hb.
  cbn beta iota zeta. intros H. inversion H; subst. right.
  exists d, out. split; [reflexivity |]. split; [reflexivity |].
  split; [apply (bif_body_any _ _ _ _ _ Hb) |].
  intros ->. apply bif_body_Ok in Hb as (_ & _ & _ & _ & ->). reflexivity.
Qed.

(** Property X5.
    An interval that does not fit 32 bits once in milliseconds (a
    negative one, or one of 4294968 seconds or more) makes the encoder
    raise [struct.error] after the magic, the version and the frame
    count, where the frame directory and the directory of the target are
    there and the volume has room for 16 bytes: a stub of 16 bytes is
    left at the target. *)
Theorem generate_bif_interval_out_of_range bif_filename images_path w d :
  ~ (0 <= 1000 * PLEX_BIF_FRAME_INTERVAL settings < 4294967296) ->
  dirs w !! images_path = Some d ->
  dirs w !! bif_filename = None ->
  OS.parent_error bif_filename w = None ->
  Z.of_nat (List.length (images_of d)) < 4294967296 ->
  16 <= disk_free w ->
  generate_bif settings bif_filename images_path w
  = (Raise StructError,
     set_files
       (<[bif_filename :=
            (magic ++ le32 0 ++ le32 (Z.of_nat (List.length (images_of d))))%list]>
          (files w)) w).
Proof.
  intros Hbad Hd Ht Hpar Hn Hfree.
  unfold generate_bif, mbind, IO_bind, OS.listdir, OS.entries_of, OS.with_open_wb.
  rewrite Hd. cbn beta iota. rewrite Hd, Ht, Hpar. cbn [default from_option id].
  fold (images_of d).
  assert (Hb : bif_body settings d (images_of d) (disk_free w) []
               = (Raise StructError,
                  (magic ++ le32 0
                   ++ le32 (Z.of_nat (List.length (images_of d))))%list)).
  { unfold bif_body, write_header.
    unfold mbind at 1. unfold Wr_bind at 1.
    rewrite (wr_bind_run _ _ [] tt magic) by (apply f_write_run; cbn; lia).
    rewrite (wr_bind_run _ _ magic tt (magic ++ le32 version)%list)
      by (apply write_packed_run; [unfold version; lia | cbn; lia]).
    rewrite (wr_bind_run _ _ _ tt
               ((magic ++ le32 version)
                ++ le32 (Z.of_nat (List.length (images_of d))))%list)
      by (apply write_packed_run; [lia | cbn; lia]).
    unfold mbind, Wr_bind, write_packed at 1, wr_lift, struct_pack_I.
    destruct (Z.leb_spec 0 (1000 * PLEX_BIF_FRAME_INTERVAL settings)),
      (Z.leb_spec (1000 * PLEX_BIF_FRAME_INTERVAL settings) 4294967295);
      cbn [andb]; try (exfalso; lia);
      rewrite <- app_assoc; reflexivity. }
  rewrite Hb. reflexivity.
Qed.

End EncoderMore.

(* ===================================================================== *)
(** ** More on the job: what it touches, what it spawns, reruns *)
(* ===================================================================== *)

Section JobMore.

Variable settings : Settings.
Variable env : Env.

Lemma rename_images_dirs output_folder images : forall w r w' p,
  rename_images settings output_folder images w = (r, w') ->
  p <> output_folder -> dirs w' !! p = dirs w !! p.
Proof.
  induction images as [| image rest IH]; intros w r w' p H Hp.
  - inversion H; subst. reflexivity.
  - cbn [rename_images] in H. unfold mbind, IO_bind, io_lift in H.
    destruct (frame_second_of settings image) as [fs | e];
      [| inversion H; subst; reflexivity].
    unfold OS.rename in H at 1.
    destruct (dirs w !! output_folder) as [d |];
      [| inversion H; subst; reflexivity].
    destruct (d !! image) as [content |];
      [| inversion H; subst; reflexivity].
    apply (IH _ _ _ p) in H; [| exact Hp]. rewrite H. cbn.
    apply lookup_insert_ne. congruence.
Qed.

(** [generate_images] changes no directory but its output folder, and
    spawns at most one process. *)
Lemma generate_images_dirs video_file output_folder gpu w r w' :
  generate_images settings env video_file output_folder gpu w = (r, w') ->
  (forall p, p <> output_folder -> dirs w' !! p = dirs w !! p) /\
  (spawned w' = spawned w \/ exists args, spawned w' = (spawned w ++ [args])%list).
Proof.
  unfold generate_images, mbind, IO_bind.
  destruct (PLEX_BIF_FRAME_INTERVAL settings =? 0).
  { intros H; inversion H; subst. auto. }
  cbn [mret IO_ret]. unfold io_lift.
  destruct (select_accel settings env gpu _ _) as [[hw args] | e0].
  2: { intros H; inversion H; subst. auto. }
  unfold run_ffmpeg at 1. cbn beta iota zeta.
  set (w1 := match dirs (add_spawned args w) !! output_folder with
             | Some d => _ | None => _ end).
  assert (Hw1 : (forall p, p <> output_folder -> dirs w1 !! p = dirs w !! p) /\
                spawned w1 = (spawned w ++ [args])%list).
  { subst w1. destruct (dirs (add_spawned args w) !! output_folder); cbn;
      (split; [| reflexivity]); intros p Hp; [| reflexivity].
    apply lookup_insert_ne. congruence. }
  destruct Hw1 as [Hd1 Hs1].
  destruct (returncode (ffmpeg env args) =? 0); cbn [negb].
  - unfold OS.glob_dir at 1.
    destruct (rename_images settings output_folder _ w1) as [[u | e] w2] eqn:Hren.
    + pose proof (rename_images_frame _ _ _ _ _ _ Hren) as (_ & _ & Hs2 & _).
      unfold insert_metric. intros H. inversion H; subst. cbn. split.
      * intros p Hp. rewrite (rename_images_dirs _ _ _ _ _ p Hren Hp). auto.
      * right. exists args. congruence.
    + pose proof (rename_images_frame _ _ _ _ _ _ Hren) as (_ & _ & Hs2 & _).
      intros H. inversion H; subst. split.
      * intros p Hp. rewrite (rename_images_dirs _ _ _ _ _ p Hren Hp). auto.
      * right. exists args. congruence.
  - intros H. inversion H; subst. split; [exact Hd1 |]. right. eauto.
Qed.


(** A call that returns has run the transcoder: the interval is not 0,
    the admission test has given its argument vector, and that vector
    is what the one new process was started with. *)
Lemma generate_images_Ok_spawned video_file output_folder gpu w u w' :
  generate_images settings env video_file output_folder gpu w = (Ok u, w') ->
  let vf_parameters :=
    vf_parameters_for (is_hdr env video_file)
      (fps_repr env (PLEX_BIF_FRAME_INTERVAL settings)) in
  PLEX_BIF_FRAME_INTERVAL settings <> 0 /\
  exists hw_accel_used args,
    select_accel settings env gpu vf_parameters
      (base_args settings env video_file output_folder vf_parameters)
    = Ok (hw_accel_used, args) /\
    spawned w' = (spawned w ++ [args])%list.
Proof.
  intros H vf_parameters.
  assert (Hint : PLEX_BIF_FRAME_INTERVAL settings <> 0).
  { intros Hz. unfold generate_images, mbind, IO_bind in H.
    rewrite Hz in H. discriminate H. }
  split; [exact Hint |].
  pose proof (generate_images_spawned settings env _ _ _ _ _ _ Hint H) as Hs.
  cbn zeta in Hs. fold vf_parameters in Hs.
  destruct (select_accel settings env gpu vf_parameters _) as [[hw args] | e].
  - exists hw, args. auto.
  - destruct Hs as [Hs _]. discriminate Hs.
Qed.

(** Property X7.
    The job runs the transcoder at most once, whatever happens later
    (there is no retry), and not at all when it is skipped.  A job that
    ends [Done] or in a failed encoding has run it exactly once, with
    the argument vector that the admission test has given. *)
Theorem job_spawns_at_most_once job gpu w r w' :
  process_part settings env job gpu w = (r, w') ->
  (spawned w' = spawned w \/ exists args, spawned w' = (spawned w ++ [args])%list) /\
  (r = Ok Skipped -> spawned w' = spawned w) /\
  (r = Ok Done \/ (exists e, r = Ok (FailedEncoding e)) ->
   let vf_parameters :=
     vf_parameters_for (is_hdr env (media_file job))
       (fps_repr env (PLEX_BIF_FRAME_INTERVAL settings)) in
   exists hw_accel_used args,
     select_accel settings env gpu vf_parameters
       (base_args settings env (media_file job) (tmp_path job) vf_parameters)
     = Ok (hw_accel_used, args) /\
     spawned w' = (spawned w ++ [args])%list).
Proof.
  rewrite process_part_eq. intros H.
  destruct (files w !! index_bif job) eqn:Hgate.
  { inversion H; subst. split; [auto |]. split; [auto |].
    intros [Hd | [e He]]; discriminate. }
  destruct (OS.makedirs (indexes_path job) w) as [[u1 | e1] v1] eqn:Hm1.
  2:{ pose proof (makedirs_frame _ _ _ _ Hm1) as (_ & _ & Hs & _).
      inversion H; subst. split; [auto |]. split; [discriminate |].
      intros [Hd | [e He]]; discriminate. }
  pose proof (makedirs_frame _ _ _ _ Hm1) as (Hf1 & _ & Hs1 & _).
  destruct (OS.makedirs (tmp_path job) v1) as [[u2 | e2] v2] eqn:Hm2.
  2:{ pose proof (makedirs_frame _ _ _ _ Hm2) as (_ & _ & Hs & _).
      inversion H; subst. split; [left; congruence |]. split; [discriminate |].
      intros [Hd | [e He]]; discriminate. }
  pose proof (makedirs_frame _ _ _ _ Hm2) as (_ & _ & Hs2 & _).
  destruct (generate_images _ _ _ _ _ v2) as [r3 v3] eqn:Hgi.
  pose proof (generate_images_dirs _ _ _ _ _ _ Hgi) as [_ Hs3].
  assert (Hspawn : spawned w' = spawned v3).
  { destruct r3 as [u3 | e3]; [| inversion H; subst; reflexivity].
    destruct (generate_bif _ _ _ v3) as [r4 v4] eqn:Hbif.
    pose proof (generate_bif_frame _ _ _ _ _ _ Hbif) as (_ & _ & Hs4 & _).
    destruct r4 as [u4 | e4]; [inversion H; subst; exact Hs4 |].
    destruct (files v4 !! index_bif job);
      [| destruct (dirs v4 !! index_bif job)];
      inversion H; subst; exact Hs4. }
  rewrite Hspawn, <- Hs1, <- Hs2. split; [exact Hs3 |].
  destruct r3 as [u3 | e3].
  2:{ inversion H; subst. split; [discriminate |].
      intros [Hd | [e He]]; discriminate. }
  split.
  { destruct (generate_bif _ _ _ v3) as [[u4 | e4] v4]; [inversion H; discriminate |].
    destruct (files v4 !! index_bif job);
      [| destruct (dirs v4 !! index_bif job)];
      inversion H; subst; discriminate. }
  intros _. apply (generate_images_Ok_spawned _ _ _ _ _ _ Hgi).
Qed.

(** Property X8.
    With [PLEX_BIF_FRAME_INTERVAL] set to 0 no job ends [Done] or in a
    failed encoding: the extraction step is left before the transcoder
    is started, so that no process, metric or regular file comes of the
    job, and a job that ends as a failed extraction has removed the
    temporary directory again. *)
Theorem zero_interval_fails_every_job job gpu w r w' :
  PLEX_BIF_FRAME_INTERVAL settings = 0 ->
  process_part settings env job gpu w = (r, w') ->
  r <> Ok Done /\ (forall e, r <> Ok (FailedEncoding e)) /\
  files w' = files w /\ spawned w' = spawned w /\ metrics w' = metrics w /\
  (forall e, r = Ok (FailedExtraction e) -> dirs w' !! tmp_path job = None).
Proof.
  intros Hz. rewrite process_part_eq. intros H.
  destruct (files w !! index_bif job) eqn:Hgate.
  { inversion H; subst. repeat split; try discriminate. }
  destruct (OS.makedirs (indexes_path job) w) as [[u1 | e1] v1] eqn:Hm1.
  2:{ apply makedirs_frame in Hm1 as (Hf1 & _ & Hs1 & Hmet1 & _).
      inversion H; subst. repeat split; try discriminate; assumption. }
  apply makedirs_frame in Hm1 as (Hf1 & _ & Hs1 & Hmet1 & _).
  destruct (OS.makedirs (tmp_path job) v1) as [[u2 | e2] v2] eqn:Hm2.
  2:{ apply makedirs_frame in Hm2 as (Hf2 & _ & Hs2 & Hmet2 & _).
      inversion H; subst. repeat split; try discriminate; congruence. }
  apply makedirs_frame in Hm2 as (Hf2 & _ & Hs2 & Hmet2 & _).
  assert (Hgi : generate_images settings env (media_file job) (tmp_path job) gpu v2
                = (Raise ZeroDivisionError, v2)).
  { unfold generate_images, mbind, IO_bind. rewrite Hz. reflexivity. }
  rewrite Hgi in H. inversion H; subst. cbn.
  repeat split; try discriminate; try congruence.
  intros e _. apply lookup_delete_eq.
Qed.

(** Property X9.
    A job that failed, in extraction or in encoding, has left no
    artifact: the next run of the same job is not skipped. *)
Theorem failed_job_is_tried_again job gpu w r w' :
  process_part settings env job gpu w = (r, w') ->
  (exists e, r = Ok (FailedExtraction e) \/ r = Ok (FailedEncoding e)) ->
  files w' !! index_bif job = None /\
  forall r2 w2,
    process_part settings env job gpu w' = (r2, w2) -> r2 <> Ok Skipped.
Proof.
  intros H Hfail.
  assert (Hnone : files w' !! index_bif job = None).
  { rewrite process_part_eq in H.
    destruct (files w !! index_bif job) eqn:Hgate.
    { inversion H; subst. destruct Hfail as [e [He | He]]; discriminate. }
    destruct (OS.makedirs (indexes_path job) w) as [[u1 | e1] v1] eqn:Hm1.
    2:{ inversion H; subst. destruct Hfail as [e [He | He]]; discriminate. }
    apply makedirs_frame in Hm1 as (Hf1 & _).
    destruct (OS.makedirs (tmp_path job) v1) as [[u2 | e2] v2] eqn:Hm2.
    2:{ inversion H; subst. destruct Hfail as [e [He | He]]; discriminate. }
    apply makedirs_frame in Hm2 as (Hf2 & _).
    destruct (generate_images _ _ _ _ _ v2) as [[u3 | e3] v3] eqn:Hgi;
      apply generate_images_frame in Hgi as (Hf3 & _).
    2:{ inversion H; subst. cbn. congruence. }
    destruct (generate_bif _ _ _ v3) as [[u4 | e4] v4] eqn:Hbif.
    { inversion H; subst. destruct Hfail as [e [He | He]]; discriminate. }
    destruct (files v4 !! index_bif job) eqn:Hf4.
    - inversion H; subst. cbn. apply lookup_delete_eq.
    - destruct (dirs v4 !! index_bif job).
      + inversion H; subst. destruct Hfail as [e [He | He]]; discriminate.
      + inversion H; subst. cbn. exact Hf4. }
  split; [exact Hnone |].
  intros r2 w2 H2. rewrite process_part_eq, Hnone in H2.
  destruct (OS.makedirs (indexes_path job) w') as [[u1 | e1] v1];
    [| inversion H2; subst; discriminate].
  destruct (OS.makedirs (tmp_path job) v1) as [[u2 | e2] v2];
    [| inversion H2; subst; discriminate].
  destruct (generate_images _ _ _ _ _ v2) as [[u3 | e3] v3];
    [| inversion H2; subst; discriminate].
  destruct (generate_bif _ _ _ v3) as [[u4 | e4] v4];
    [inversion H2; subst; discriminate |].
  destruct (files v4 !! index_bif job);
    [| destruct (dirs v4 !! index_bif job)];
    inversion H2; subst; discriminate.
Qed.

End JobMore.

Section JobMore2.

Variable settings : Settings.
Variable env : Env.




End JobMore2.

(* ===================================================================== *)
(** ** The rename loop on a whole directory *)
(* ===================================================================== *)

Section NameFacts.

Lemma prefix_app_string s t : String.prefix s (s ++ t) = true.
Proof.
  induction s as [| c s IH]; [destruct t; reflexivity |].
  rewrite append_cons. cbn [String.prefix].
  destruct (Ascii.ascii_dec c c); [exact IH | contradiction].
Qed.

Lemma endswith_app s suf : endswith (s ++ suf) suf = true.
Proof.
  unfold endswith. rewrite chars_app, rev_app_distr, str_app.
  apply prefix_app_string.
Qed.

Lemma startswith_img_ffmpeg_name k : startswith (ffmpeg_name k) "img" = true.
Proof. reflexivity. Qed.

Lemma endswith_jpg_ffmpeg_name k : endswith (ffmpeg_name k) ".jpg" = true.
Proof.
  unfold ffmpeg_name.
  replace ("img-" ++ format_0wd 6 k ++ ".jpg")
    with (("img-" ++ format_0wd 6 k) ++ ".jpg").
  - apply endswith_app.
  - rewrite !append_cons. reflexivity.
Qed.

(** The first character of a formatted number is a sign or a digit. *)
Lemma format_0wd_head w n :
  exists c r, format_0wd w n = String c r /\ (c = "-"%char \/ is_digit c = true).
Proof.
  unfold format_0wd. destruct (n <? 0) eqn:Hn.
  - eexists _, _. split; [reflexivity | auto].
  - apply Z.ltb_ge in Hn.
    destruct (padded_spec w n Hn) as (Hall & Hne & _).
    fold (padded w n). destruct (padded w n) as [| c r]; [contradiction |].
    exists c, (str r). split; [reflexivity |]. right.
    inversion Hall; assumption.
Qed.

(** A renamed frame no longer matches the pattern [img*.jpg] of the
    glob, and still ends in [.jpg]. *)
Lemma startswith_img_renamed s : startswith (renamed s) "img" = false.
Proof.
  unfold renamed. destruct (format_0wd_head 10 s) as (c & r & -> & Hc).
  rewrite append_cons. unfold startswith. cbn [String.prefix].
  destruct (Ascii.ascii_dec "i" c) as [<- | _]; [| reflexivity].
  destruct Hc; discriminate.
Qed.

Lemma endswith_jpg_renamed s : endswith (renamed s) ".jpg" = true.
Proof. apply endswith_app. Qed.

Lemma app_string_inv_tail s1 s2 t : s1 ++ t = s2 ++ t -> s1 = s2.
Proof.
  intros H. apply (f_equal chars) in H. rewrite !chars_app in H.
  apply app_inv_tail in H.
  apply (f_equal str) in H. unfold chars, str in H.
  rewrite !string_of_list_ascii_of_string in H. exact H.
Qed.

Lemma format_0wd_inj w a b :
  0 <= a -> 0 <= b -> format_0wd w a = format_0wd w b -> a = b.
Proof.
  intros Ha Hb H. rewrite !format_0wd_nonneg in H by assumption.
  apply (f_equal chars) in H. rewrite !chars_str in H.
  destruct (padded_spec w a Ha) as (_ & _ & <-).
  destruct (padded_spec w b Hb) as (_ & _ & <-).
  rewrite H. reflexivity.
Qed.

Lemma renamed_inj a b : 0 <= a -> 0 <= b -> renamed a = renamed b -> a = b.
Proof.
  intros Ha Hb H. unfold renamed in H. apply app_string_inv_tail in H.
  apply (format_0wd_inj 10); assumption.
Qed.

Lemma ffmpeg_name_inj a b :
  0 <= a -> 0 <= b -> ffmpeg_name a = ffmpeg_name b -> a = b.
Proof.
  intros Ha Hb H. unfold ffmpeg_name in H.
  rewrite !append_cons in H. injection H as H.
  change (format_0wd 6 a ++ ".jpg" = format_0wd 6 b ++ ".jpg") in H.
  apply app_string_inv_tail in H. apply (format_0wd_inj 6); assumption.
Qed.

Lemma str_lt_le a b : str_lt a b -> String.le a b.
Proof.
  unfold str_lt, String.le, String.leb. intros ->. exact I.
Qed.

End NameFacts.

Section RenameLoop.

Variable settings : Settings.

(** The loop of lines 174-177 over distinct entries of the folder whose
    numbers parse, whose new names are distinct and none of which is a
    new name itself: it completes, every entry is found under its new
    name with its content, the old names are gone and nothing else in
    the folder is touched. *)
Lemma rename_images_run output_folder (tgt : string -> string) images :
  forall w d,
    dirs w !! output_folder = Some d ->
    NoDup images ->
    (forall a, a ∈ images -> is_Some (d !! a)) ->
    (forall a, a ∈ images ->
       exists s, frame_second_of settings a = Ok s /\ renamed s = tgt a) ->
    (forall a b, a ∈ images -> b ∈ images -> tgt a = tgt b -> a = b) ->
    (forall a, a ∈ images -> tgt a ∉ images) ->
    exists w' d',
      rename_images settings output_folder images w = (Ok tt, w') /\
      dirs w' !! output_folder = Some d' /\
      (forall a, a ∈ images -> d' !! tgt a = d !! a /\ d' !! a = None) /\
      (forall n, n ∉ images -> (forall a, a ∈ images -> n <> tgt a) ->
                 d' !! n = d !! n).
Proof.
  induction images as [| a rest IH]; intros w d Hd Hnd Hin Hsec Hinj Hfresh.
  - exists w, d. split; [reflexivity |]. split; [exact Hd |].
    split; [intros a Ha; inversion Ha | reflexivity].
  - apply NoDup_cons in Hnd as [Ha_rest Hnd].
    destruct (Hsec a ltac:(left)) as (s & Hs & Htgt).
    destruct (Hin a ltac:(left)) as [content Hcontent].
    assert (Hta : tgt a <> a).
    { intros Heq. apply (Hfresh a ltac:(left)). rewrite Heq. left. }
    assert (Hta_rest : tgt a ∉ rest).
    { intros Hr. apply (Hfresh a ltac:(left)). right. exact Hr. }
    set (d1 := <[tgt a := content]> (delete a d)).
    set (w1 := set_dirs (<[output_folder := d1]> (dirs w)) w).
    assert (Hstep : forall b, b ∈ rest -> d1 !! b = d !! b).
    { intros b Hb. subst d1.
      rewrite lookup_insert_ne by (intros <-; contradiction).
      apply lookup_delete_ne. intros <-. contradiction. }
    destruct (IH w1 d1) as (w' & d' & Hrun & Hd' & Hmoved & Hkept).
    + subst w1. cbn. apply lookup_insert_eq.
    + exact Hnd.
    + intros b Hb. rewrite (Hstep b Hb). apply Hin. right. exact Hb.
    + intros b Hb. apply Hsec. right. exact Hb.
    + intros b c Hb Hc. apply Hinj; right; assumption.
    + intros b Hb Hr. apply (Hfresh b); [right; exact Hb | right; exact Hr].
    + exists w', d'. split; [| split; [exact Hd' |]; split].
      * cbn [rename_images]. unfold mbind, IO_bind, io_lift. rewrite Hs.
        unfold OS.rename at 1. rewrite Hd, Hcontent, Htgt. exact Hrun.
      * intros x Hx. apply elem_of_cons in Hx as [-> | Hx].
        -- split.
           ++ rewrite Hkept.
              ** subst d1. rewrite lookup_insert_eq. symmetry. exact Hcontent.
              ** exact Hta_rest.
              ** intros b Hb Heq. apply Ha_rest.
                 rewrite (Hinj a b); [exact Hb | left | right; exact Hb | exact Heq].
           ++ rewrite Hkept.
              ** subst d1. rewrite lookup_insert_ne by exact Hta.
                 apply lookup_delete_eq.
              ** exact Ha_rest.
              ** intros b Hb Heq. apply (Hfresh b); [right; exact Hb |].
                 rewrite <- Heq. left.
        -- destruct (Hmoved x Hx) as [Hm1 Hm2].
           split; [rewrite Hm1; apply Hstep, Hx | exact Hm2].
      * intros n Hn Hne. rewrite Hkept.
        -- subst d1. rewrite lookup_insert_ne.
           ++ apply lookup_delete_ne. intros <-. apply Hn. left.
           ++ intros Heq. apply (Hne a); [left | symmetry; exact Heq].
        -- intros Hr. apply Hn. right. exact Hr.
        -- intros b Hb. apply Hne. right. exact Hb.
Qed.

(** The folder of a transcoder run, entry by entry. *)
Lemma ffmpeg_frames_from_lookup cs : forall k j,
  0 <= k ->
  ffmpeg_frames_from k cs !! ffmpeg_name (k + Z.of_nat j) = cs !! j.
Proof.
  induction cs as [| c rest IH]; intros k j Hk; [reflexivity |].
  cbn [ffmpeg_frames_from]. destruct j as [| j].
  - rewrite Z.add_0_r. apply lookup_insert_eq.
  - rewrite lookup_insert_ne.
    + replace (k + Z.of_nat (S j)) with (k + 1 + Z.of_nat j) by lia.
      apply IH. lia.
    + intros Heq. apply ffmpeg_name_inj in Heq; lia.
Qed.

Lemma ffmpeg_frames_from_keys cs : forall k n,
  is_Some (ffmpeg_frames_from k cs !! n) ->
  exists j, (j < List.length cs)%nat /\ n = ffmpeg_name (k + Z.of_nat j).
Proof.
  induction cs as [| c rest IH]; intros k n [x Hx].
  - cbn [ffmpeg_frames_from] in Hx. rewrite lookup_empty in Hx. discriminate.
  - cbn [ffmpeg_frames_from] in Hx.
    destruct (decide (ffmpeg_name k = n)) as [<- | Hne].
    + exists 0%nat. split; [cbn; lia | rewrite Z.add_0_r; reflexivity].
    + rewrite lookup_insert_ne in Hx by exact Hne.
      destruct (IH (k + 1) n) as (j & Hj & ->); [eauto |].
      exists (S j). split; [cbn; lia |]. f_equal. lia.
Qed.

End RenameLoop.

Section ExtractionRun.

Variable settings : Settings.
Variable env : Env.


Lemma tgt_ffmpeg_name j :
  new_name settings (ffmpeg_name (1 + Z.of_nat j))
  = renamed (Z.of_nat j * PLEX_BIF_FRAME_INTERVAL settings).
Proof.
  unfold new_name. rewrite frame_second_of_ffmpeg_name by lia.
  f_equal. lia.
Qed.

Lemma glob_img_frames cs a :
  a ∈ glob_img (map_to_list (ffmpeg_frames cs)).*1
  <-> exists j, (j < List.length cs)%nat /\ a = ffmpeg_name (1 + Z.of_nat j).
Proof.
  unfold glob_img. rewrite list_elem_of_filter, elem_of_keys. split.
  - intros [_ Hkey]. apply ffmpeg_frames_from_keys in Hkey. exact Hkey.
  - intros (j & Hj & ->). split.
    + rewrite startswith_img_ffmpeg_name, endswith_jpg_ffmpeg_name. reflexivity.
    + unfold ffmpeg_frames. rewrite ffmpeg_frames_from_lookup by lia.
      apply lookup_lt_is_Some_2. exact Hj.
Qed.

Lemma renamed_not_in_glob entries s : renamed s ∉ glob_img entries.
Proof.
  unfold glob_img. rewrite list_elem_of_filter.
  rewrite startswith_img_renamed. intros [H _]. discriminate.
Qed.

Lemma second_inj (j k : nat) :
  0 < PLEX_BIF_FRAME_INTERVAL settings ->
  renamed (Z.of_nat j * PLEX_BIF_FRAME_INTERVAL settings)
  = renamed (Z.of_nat k * PLEX_BIF_FRAME_INTERVAL settings) ->
  j = k.
Proof.
  intros Hi H. apply renamed_inj in H; nia.
Qed.

(** A transcoder run that exits with 0 and leaves the frames [cs] in an
    empty output folder: every frame ends up under the name of its
    second, nothing else is in the folder, and one metric is added. *)
Lemma generate_images_run video_file output_folder gpu w cs hw args :
  0 < PLEX_BIF_FRAME_INTERVAL settings ->
  dirs w !! output_folder = Some ∅ ->
  let vf_parameters :=
    vf_parameters_for (is_hdr env video_file)
      (fps_repr env (PLEX_BIF_FRAME_INTERVAL settings)) in
  select_accel settings env gpu vf_parameters
    (base_args settings env video_file output_folder vf_parameters)
  = Ok (hw, args) ->
  returncode (ffmpeg env args) = 0 ->
  frames (ffmpeg env args) = ffmpeg_frames cs ->
  exists w' d',
    generate_images settings env video_file output_folder gpu w = (Ok tt, w') /\
    dirs w' !! output_folder = Some d' /\
    (forall k,
       d' !! renamed (Z.of_nat k * PLEX_BIF_FRAME_INTERVAL settings) = cs !! k) /\
    (forall n, is_Some (d' !! n) ->
               exists k, (k < List.length cs)%nat /\
                 n = renamed (Z.of_nat k * PLEX_BIF_FRAME_INTERVAL settings)) /\
    metrics w'
    = (metrics w
       ++ [mkMetric video_file hw (wall_seconds (ffmpeg env args))
             (default "1.0" (last (speed_matches (ffmpeg env args))))])%list.
Proof.
  intros Hi Hd vf Hsel Hrc Hframes.
  unfold generate_images, mbind, IO_bind.
  destruct (Z.eqb_spec (PLEX_BIF_FRAME_INTERVAL settings) 0) as [Hz | _];
    [lia |].
  cbn [mret IO_ret]. cbn zeta. fold vf. unfold io_lift. rewrite Hsel.
  unfold run_ffmpeg at 1. cbn beta iota zeta.
  change (dirs (add_spawned args w)) with (dirs w). rewrite Hd.
  rewrite Hrc. cbn [Z.eqb negb]. rewrite Hframes.
  rewrite (right_id_L ∅ (∪)).
  set (w1 := set_dirs _ (add_spawned args w)).
  unfold OS.glob_dir at 1.
  assert (Hd1 : dirs w1 !! output_folder = Some (ffmpeg_frames cs)).
  { subst w1. cbn. apply lookup_insert_eq. }
  rewrite Hd1.
  set (images := glob_img (map_to_list (ffmpeg_frames cs)).*1).
  destruct (rename_images_run settings output_folder (new_name settings) images w1
              (ffmpeg_frames cs) Hd1)
    as (w2 & d' & Hrun & Hd2 & Hmoved & Hkept).
  { subst images. unfold glob_img. apply NoDup_filter, NoDup_fst_map_to_list. }
  { intros a Ha. apply glob_img_frames in Ha as (j & Hj & ->).
    unfold ffmpeg_frames. rewrite ffmpeg_frames_from_lookup by lia.
    apply lookup_lt_is_Some_2. exact Hj. }
  { intros a Ha. apply glob_img_frames in Ha as (j & Hj & ->).
    exists (Z.of_nat j * PLEX_BIF_FRAME_INTERVAL settings). split.
    - rewrite frame_second_of_ffmpeg_name by lia. f_equal. lia.
    - symmetry. apply tgt_ffmpeg_name. }
  { intros a b Ha Hb Heq.
    apply glob_img_frames in Ha as (j & Hj & ->).
    apply glob_img_frames in Hb as (k & Hk & ->).
    rewrite !tgt_ffmpeg_name in Heq. apply second_inj in Heq; [| exact Hi].
    congruence. }
  { intros a Ha. apply glob_img_frames in Ha as (j & Hj & ->).
    rewrite tgt_ffmpeg_name. apply renamed_not_in_glob. }
  rewrite Hrun. unfold insert_metric.
  pose proof (rename_images_frame _ _ _ _ _ _ Hrun) as (_ & _ & _ & Hmet).
  assert (Hnokey : forall s, ffmpeg_frames cs !! renamed s = None).
  { intros s. destruct (ffmpeg_frames cs !! renamed s) eqn:Hl; [| reflexivity].
    destruct (ffmpeg_frames_from_keys cs 1 (renamed s)) as (j & _ & Hj); [eauto |].
    pose proof (startswith_img_renamed s) as Hs. rewrite Hj in Hs.
    rewrite startswith_img_ffmpeg_name in Hs. discriminate. }
  exists (add_metric (mkMetric video_file hw (wall_seconds (ffmpeg env args))
                        (default "1.0" (last (speed_matches (ffmpeg env args))))) w2),
         d'.
  split; [reflexivity |]. split; [exact Hd2 |]. split; [| split].
  - intros k. destruct (decide (k < List.length cs)%nat) as [Hk | Hk].
    + destruct (Hmoved (ffmpeg_name (1 + Z.of_nat k))) as [Hm _].
      { apply glob_img_frames. eauto. }
      rewrite tgt_ffmpeg_name in Hm. rewrite Hm.
      unfold ffmpeg_frames. apply ffmpeg_frames_from_lookup. lia.
    + rewrite (lookup_ge_None_2 cs k) by lia.
      rewrite Hkept; [apply Hnokey | apply renamed_not_in_glob |].
      intros a Ha Heq. apply glob_img_frames in Ha as (j & Hj & ->).
      rewrite tgt_ffmpeg_name in Heq. apply second_inj in Heq; [| exact Hi]. lia.
  - intros n Hn.
    destruct (decide (n ∈ images)) as [Hin | Hnin].
    { destruct (Hmoved n Hin) as [_ Hgone]. rewrite Hgone in Hn.
      destruct Hn; discriminate. }
    destruct (decide (n ∈ map (new_name settings) images)) as [Ht | Hnt].
    { apply list_elem_of_fmap in Ht as (a & -> & Ha).
      apply glob_img_frames in Ha as (j & Hj & ->).
      exists j. split; [exact Hj | apply tgt_ffmpeg_name]. }
    exfalso. rewrite Hkept in Hn; [| exact Hnin |].
    + apply Hnin. apply glob_img_frames.
      apply (ffmpeg_frames_from_keys cs 1 n Hn).
    + intros a Ha ->. apply Hnt. apply list_elem_of_fmap. eauto.
  - cbn. rewrite Hmet. reflexivity.
Qed.

End ExtractionRun.

Section Chronological.

Variable settings : Settings.
Variable env : Env.


Lemma elem_of_second_names i n x :
  x ∈ second_names i n
  <-> exists k, (k < n)%nat /\ x = renamed (Z.of_nat k * i).
Proof.
  unfold second_names. rewrite list_elem_of_fmap. split.
  - intros (k & -> & Hk). apply elem_of_seq in Hk. exists k. split; [lia | reflexivity].
  - intros (k & Hk & ->). exists k. split; [reflexivity |].
    apply elem_of_seq. lia.
Qed.

(** Within ten digits the names of the seconds are in lexicographic
    order as listed, without repetition. *)
Lemma second_names_sorted i n :
  0 < i -> Z.of_nat n * i <= 10000000000 ->
  Sorted String.le (second_names i n) /\ NoDup (second_names i n).
Proof.
  intros Hi Hn. unfold second_names.
  assert (Hgen : forall m a, (a + m <= n)%nat ->
            Sorted String.le (map (fun k => renamed (Z.of_nat k * i)) (seq a m)) /\
            NoDup (map (fun k => renamed (Z.of_nat k * i)) (seq a m))).
  { induction m as [| m IH]; intros a Ha.
    - split; constructor.
    - destruct (IH (S a) ltac:(lia)) as [Hs Hnd]. cbn [seq map]. split.
      + constructor; [exact Hs |].
        destruct m as [| m]; [constructor |]. cbn [seq map]. constructor.
        apply str_lt_le, renamed_order; nia.
      + constructor; [| exact Hnd].
        intros Hin. apply list_elem_of_fmap in Hin as (k & Heq & Hk).
        apply elem_of_seq in Hk. apply renamed_inj in Heq; nia. }
  apply (Hgen n 0%nat). lia.
Qed.

(** A folder that holds exactly the frames [cs] under the names of their
    seconds: the encoder enumerates them in the order of the frames. *)
Lemma images_of_seconds i (cs : list (list byte)) (d : gmap string (list byte)) :
  0 < i -> Z.of_nat (List.length cs) * i <= 10000000000 ->
  (forall k, d !! renamed (Z.of_nat k * i) = cs !! k) ->
  (forall n, is_Some (d !! n) ->
             exists k, (k < List.length cs)%nat /\ n = renamed (Z.of_nat k * i)) ->
  images_of d = second_names i (List.length cs) /\
  map (frame_bytes d) (images_of d) = cs.
Proof.
  intros Hi Hn Hlook Hkeys.
  destruct (second_names_sorted i (List.length cs) Hi Hn) as [Hsorted Hnd].
  assert (Himg : images_of d = second_names i (List.length cs)).
  { apply (Sorted_unique String.le); [apply jpg_images_sorted | exact Hsorted |].
    apply NoDup_Permutation;
      [apply jpg_images_NoDup, NoDup_fst_map_to_list | exact Hnd |].
    intros x. unfold images_of.
    rewrite elem_of_jpg_images, elem_of_keys, elem_of_second_names. split.
    - intros [Hx _]. apply Hkeys, Hx.
    - intros (k & Hk & ->). split; [| apply endswith_jpg_renamed].
      rewrite Hlook. apply lookup_lt_is_Some_2, Hk. }
  split; [exact Himg |]. rewrite Himg. unfold second_names.
  apply list_eq. intros k. rewrite !list_lookup_fmap.
  destruct (decide (k < List.length cs)%nat) as [Hk | Hk].
  - rewrite lookup_seq_lt by exact Hk. cbn. unfold frame_bytes.
    rewrite Hlook. destruct (lookup_lt_is_Some_2 cs k Hk) as [c ->]. reflexivity.
  - rewrite lookup_seq_ge by lia. cbn. symmetry. apply lookup_ge_None_2. lia.
Qed.


(** Property X12.
    When [generate_images] has returned after a transcoder run that
    exited with 0 and left the frames [cs] in an empty output folder
    (one whose path holds no pattern character), every frame is found
    under the name of its second: within ten digits of seconds the
    encoder will enumerate exactly these names, in the order of the
    frames, and find the frames' bytes under them; and one metric, for
    the video and with the accelerator flag of the admission test, has
    been added. *)
Theorem extraction_reindexes_every_frame
    video_file output_folder gpu w w' cs hw_accel_used args :
  generate_images settings env video_file output_folder gpu w = (Ok tt, w') ->
  OS.has_magic output_folder = false ->
  0 < PLEX_BIF_FRAME_INTERVAL settings ->
  Z.of_nat (List.length cs) * PLEX_BIF_FRAME_INTERVAL settings <= 10000000000 ->
  dirs w !! output_folder = Some ∅ ->
  let vf_parameters :=
    vf_parameters_for (is_hdr env video_file)
      (fps_repr env (PLEX_BIF_FRAME_INTERVAL settings)) in
  select_accel settings env gpu vf_parameters
    (base_args settings env video_file output_folder vf_parameters)
  = Ok (hw_accel_used, args) ->
  returncode (ffmpeg env args) = 0 ->
  frames (ffmpeg env args) = ffmpeg_frames cs ->
  exists d' m,
    dirs w' !! output_folder = Some d' /\
    images_of d'
    = second_names (PLEX_BIF_FRAME_INTERVAL settings) (List.length cs) /\
    map (frame_bytes d') (images_of d') = cs /\
    (forall n, is_Some (d' !! n) -> n ∈ images_of d') /\
    metrics w' = (metrics w ++ [m])%list /\
    m_video_file m = video_file /\ m_hw_accel m = hw_accel_used.
Proof.
  intros Hgi _ Hi Hn Hd vf Hsel Hrc Hframes.
  destruct (generate_images_run settings env video_file output_folder gpu w cs
              hw_accel_used args Hi Hd Hsel Hrc Hframes)
    as (w1 & d' & Hrun & Hd' & Hlook & Hkeys & Hmet).
  rewrite Hrun in Hgi. inversion Hgi; subst w1.
  destruct (images_of_seconds _ cs d' Hi Hn Hlook Hkeys) as [Himg Hbytes].
  exists d'. eexists. split; [exact Hd' |].
  split; [exact Himg |]. split; [exact Hbytes |]. split.
  - intros n Hsome. rewrite Himg. apply elem_of_second_names, Hkeys, Hsome.
  - split; [exact Hmet |]. split; reflexivity.
Qed.


End Chronological.

(* ===================================================================== *)
(** ** Accelerator detection *)
(* ===================================================================== *)

Section DetectFacts.

Variable settings : Settings.
Variable env : Env.

Lemma starts_with_render_not_absolute entry :
  startswith entry "renderD" = true -> startswith entry "/" = false.
Proof.
  unfold startswith. destruct entry as [| c r]; [discriminate |].
  cbn [String.prefix].
  destruct (Ascii.ascii_dec "r" c) as [<- | _]; [| discriminate].
  intros _. reflexivity.
Qed.

Lemma join_render_device entry :
  startswith entry "renderD" = true ->
  Path.join vaapi_device_dir [entry] = "/dev/dri/" ++ entry.
Proof.
  intros H. unfold Path.join, join2. cbn [fold_left].
  rewrite (starts_with_render_not_absolute entry H). reflexivity.
Qed.

Lemma first_render_device_Some entries g :
  first_render_device entries = Some g ->
  exists entry, entry ∈ entries /\ startswith entry "renderD" = true /\
                g = "/dev/dri/" ++ entry.
Proof.
  unfold first_render_device.
  destruct (List.find _ entries) as [entry |] eqn:Hfind; [| discriminate].
  apply find_some in Hfind as [Hin Hstart].
  intros H. injection H as <-. exists entry.
  split; [apply list_elem_of_In, Hin |]. split; [exact Hstart |].
  apply join_render_device, Hstart.
Qed.

Lemma detect_amd_result amd w :
  exists gpu,
    detect_amd amd w = (Ok gpu, w) /\
    forall g, gpu = Some g ->
      exists run entry d,
        amd = Probed run /\
        any_gpu (processor_is_gpu run) = Ok true /\
        shut_down run = Ok tt /\
        dirs w !! vaapi_device_dir = Some d /\ is_Some (d !! entry) /\
        startswith entry "renderD" = true /\
        g = "/dev/dri/" ++ entry.
Proof.
  destruct amd as [| | run]; try (exists None; split; [reflexivity | discriminate]).
  unfold detect_amd, try_except, mbind, IO_bind, io_lift.
  destruct (any_gpu (processor_is_gpu run)) as [found | e] eqn:Hany;
    [| exists None; split; [reflexivity | discriminate]].
  destruct (shut_down run) as [[] | e] eqn:Hdown;
    [| exists None; split; [reflexivity | discriminate]].
  destruct found; [| exists None; split; [reflexivity | discriminate]].
  unfold OS.path_exists.
  destruct (bool_decide (is_Some (files w !! vaapi_device_dir))
            || bool_decide (is_Some (dirs w !! vaapi_device_dir)));
    [| exists None; split; [reflexivity | discriminate]].
  unfold OS.listdir.
  destruct (dirs w !! vaapi_device_dir) as [d |] eqn:Hd;
    [| exists None; split; [reflexivity | discriminate]].
  exists (first_render_device (map_to_list d).*1). split; [reflexivity |].
  intros g Hg. apply first_render_device_Some in Hg as (entry & Hin & Hstart & ->).
  exists run, entry, d. apply elem_of_keys in Hin. auto 10.
Qed.

(** Property X15.
    [detect_gpu] never raises and changes nothing.  It answers
    ['NVIDIA'] exactly when the NVIDIA probe went through with a
    positive device count, whatever the AMD probe says; any other
    answer is the path [/dev/dri/<entry>] of an entry of [/dev/dri]
    that starts with [renderD], found after the AMD probe reported a
    GPU and shut down without an exception.  The answer is never the
    empty string, so it counts as an accelerator for the admission test
    exactly when it is not [None], and for a render device the admission
    test takes the count, or the exception, of
    [get_amd_ffmpeg_processes]. *)
Theorem detect_gpu_answers nvml amd w :
  exists gpu,
    detect_gpu nvml amd w = (Ok gpu, w) /\
    (gpu = Some "NVIDIA" <-> exists n, nvml = Probed n /\ 0 < n) /\
    (forall g, gpu = Some g -> g <> "NVIDIA" ->
       exists run entry d,
         amd = Probed run /\
         any_gpu (processor_is_gpu run) = Ok true /\
         shut_down run = Ok tt /\
         dirs w !! vaapi_device_dir = Some d /\ is_Some (d !! entry) /\
         startswith entry "renderD" = true /\
         g = "/dev/dri/" ++ entry /\
         (forall n, amd_ffmpeg_processes env = Ok n ->
                    contention env gpu = Ok (Z.of_nat n)) /\
         (forall e, amd_ffmpeg_processes env = Raise e ->
                    contention env gpu = Raise e)) /\
    (gpu_available gpu = true <-> gpu <> None).
Proof.
  unfold detect_gpu, detect_nvidia.
  destruct nvml as [| | n].
  3: destruct (Z.ltb_spec 0 n) as [Hn | Hn].
  3:{ exists (Some "NVIDIA"). split; [reflexivity |]. split; [| split].
      - split; [intros _; eauto | reflexivity].
      - intros g Hg Hne. congruence.
      - cbn. split; [discriminate | reflexivity]. }
  all: destruct (detect_amd_result amd w) as (gpu & Hrun & Hdev);
    exists gpu; (split; [exact Hrun |]).
  all: assert (Hshape : forall g, gpu = Some g ->
                 exists entry, g = "/dev/dri/" ++ entry)
    by (intros g Hg; destruct (Hdev g Hg) as (? & entry & ? & ? & ? & ? & ? & ? & ? & ?);
        eauto).
  all: split; [| split].
  all: try (split;
            [ intros Hg; destruct (Hshape _ Hg) as [entry He]; discriminate
            | intros (m & Hm & Hpos); try discriminate; injection Hm as <-; lia ]).
  all: try (intros g Hg Hne;
            destruct (Hdev g Hg) as (run & entry & d & ? & ? & ? & ? & ? & ? & Heq);
            exists run, entry, d; repeat (split; [assumption |]);
            rewrite Hg, Heq; unfold contention; cbn [String.eqb Ascii.eqb Bool.eqb negb];
            split; intros ? ->; reflexivity).
  all: destruct gpu as [g |]; cbn;
    [ destruct (Hshape g eq_refl) as [entry ->]; split; [discriminate | reflexivity]
    | split; [discriminate | congruence] ].
Qed.

End DetectFacts.

(* ===================================================================== *)
(** ** The paths of a job *)
(* ===================================================================== *)

Section PathFacts.

Lemma string_app_assoc (a b c : string) : (a ++ b) ++ c = a ++ b ++ c.
Proof.
  induction a as [| x a IH]; [reflexivity |].
  rewrite !append_cons, IH. reflexivity.
Qed.

Lemma string_app_inv_head (s a b : string) : s ++ a = s ++ b -> a = b.
Proof.
  induction s as [| x s IH]; [intros H; exact H |].
  rewrite !append_cons. intros H. injection H as H. apply IH, H.
Qed.

Lemma prefix_empty s : String.prefix "" s = true.
Proof. destruct s; reflexivity. Qed.

(** [replace] of the backslash, character by character. *)
Lemma replace_backslash_cons c r :
  replace (String c r) backslash "/"
  = String (if Ascii.eqb c (ascii_of_N 92) then "/"%char else c)
      (replace r backslash "/").
Proof.
  unfold replace. cbn [replace_go]. unfold backslash at 1. cbn [String.prefix].
  destruct (Ascii.ascii_dec (ascii_of_N 92) c) as [<- | Hne].
  - rewrite prefix_empty, Ascii.eqb_refl. reflexivity.
  - destruct (Ascii.eqb_spec c (ascii_of_N 92)) as [-> | _];
      [contradiction | reflexivity].
Qed.

Lemma replace_backslash_length s :
  String.length (replace s backslash "/") = String.length s.
Proof.
  induction s as [| c r IH]; [reflexivity |].
  rewrite replace_backslash_cons. cbn [String.length]. rewrite IH. reflexivity.
Qed.

Lemma replace_backslash_free s :
  Path.contains (replace s backslash "/") backslash = false.
Proof.
  induction s as [| c r IH]; [reflexivity |].
  rewrite replace_backslash_cons. cbn [Path.contains]. rewrite IH.
  unfold backslash at 1. cbn [String.prefix].
  destruct (Ascii.eqb_spec c (ascii_of_N 92)) as [-> | Hne].
  - reflexivity.
  - destruct (Ascii.ascii_dec (ascii_of_N 92) c) as [<- | _];
      [contradiction | reflexivity].
Qed.

Lemma replace_backslash_id s :
  Path.contains s backslash = false -> replace s backslash "/" = s.
Proof.
  induction s as [| c r IH]; [reflexivity |].
  cbn [Path.contains]. intros H. apply orb_false_iff in H as [Hc Hr].
  rewrite replace_backslash_cons, (IH Hr).
  destruct (Ascii.eqb_spec c (ascii_of_N 92)) as [-> | _]; [| reflexivity].
  unfold backslash in Hc. cbn [String.prefix] in Hc.
  destruct (Ascii.ascii_dec (ascii_of_N 92) (ascii_of_N 92)); [| contradiction].
  rewrite prefix_empty in Hc. discriminate.
Qed.

(** Property X17.
    [sanitize_path] on Windows ([os.name] is [nt]) turns every backslash
    into a slash and nothing else: the result has the length of the
    path and no backslash, a path without backslash is returned as it
    is, and sanitizing twice is sanitizing once.  On any other system
    the path is returned as it is. *)
Theorem sanitize_path_normalises path :
  String.length (sanitize_path "nt" path) = String.length path /\
  Path.contains (sanitize_path "nt" path) backslash = false /\
  (Path.contains path backslash = false -> sanitize_path "nt" path = path) /\
  sanitize_path "nt" (sanitize_path "nt" path) = sanitize_path "nt" path /\
  (forall name, name <> "nt" -> sanitize_path name path = path).
Proof.
  unfold sanitize_path. cbn [String.eqb Ascii.eqb Bool.eqb].
  split; [apply replace_backslash_length |].
  split; [apply replace_backslash_free |].
  split; [apply replace_backslash_id |].
  split; [apply replace_backslash_id, replace_backslash_free |].
  intros name Hname. destruct (String.eqb_spec name "nt"); [contradiction | reflexivity].
Qed.

Lemma endswith_slash_app q suf :
  suf <> "" -> endswith (q ++ suf) "/" = endswith suf "/".
Proof.
  intros Hne. unfold endswith. rewrite chars_app, rev_app_distr, str_app.
  destruct (rev (chars suf)) as [| c t] eqn:Hrev.
  - exfalso. apply Hne. apply (f_equal (@rev ascii)) in Hrev.
    rewrite rev_involutive in Hrev. cbn in Hrev.
    apply (f_equal str) in Hrev. unfold chars, str in Hrev.
    rewrite string_of_list_ascii_of_string in Hrev. exact Hrev.
  - cbn [str string_of_list_ascii]. rewrite append_cons.
    replace (str (rev (chars "/"))) with "/" by reflexivity.
    cbn [String.prefix]. destruct (Ascii.ascii_dec "/" c); [| reflexivity].
    rewrite !prefix_empty. reflexivity.
Qed.

Lemma app_not_empty q suf : suf <> "" -> q ++ suf <> "".
Proof.
  intros Hne Heq. apply (f_equal String.length) in Heq.
  rewrite length_string_app in Heq. destruct suf; [contradiction |].
  cbn in Heq. lia.
Qed.

(** Joining a relative component to a path that ends in a name. *)
Lemma join2_after_name q suf b :
  suf <> "" -> endswith suf "/" = false -> startswith b "/" = false ->
  join2 (q ++ suf) b = (q ++ suf) ++ "/" ++ b.
Proof.
  intros Hne Hend Hb. unfold join2. rewrite Hb.
  rewrite endswith_slash_app, Hend by exact Hne.
  destruct (String.eqb_spec (q ++ suf) "") as [Heq | _]; [| reflexivity].
  destruct (app_not_empty q suf Hne Heq).
Qed.

(** A joined component is a suffix of the result; what is in front of it
    depends on the path only, unless the component is absolute. *)
Lemma join2_suffix path b : exists front, join2 path b = front ++ b.
Proof.
  unfold join2. destruct (startswith b "/").
  - exists "". reflexivity.
  - destruct (String.eqb path "" || endswith path "/").
    + exists path. reflexivity.
    + exists (path ++ "/"). rewrite string_app_assoc. reflexivity.
Qed.

Lemma join2_relative path b :
  startswith b "/" = false ->
  join2 path b
  = (if String.eqb path "" || endswith path "/" then path else path ++ "/") ++ b.
Proof.
  intros Hb. unfold join2. rewrite Hb.
  destruct (String.eqb path "" || endswith path "/"); [reflexivity |].
  rewrite string_app_assoc. reflexivity.
Qed.

(** The paths of lines 245-248, spelled out. *)
Lemma job_paths_shape ps media bundle_hash c rest :
  let bundle_file := String c ("/" ++ rest ++ ".bundle") in
  let bundle_path :=
    Path.join (PLEX_LOCAL_MEDIA_PATH ps) ["localhost"; bundle_file] in
  (exists front, bundle_path = front ++ ".bundle") /\
  job_paths ps media bundle_hash bundle_file
  = mkJob media (bundle_path ++ "/Contents/Indexes")
      (bundle_path ++ "/Contents/Indexes/index-sd.bif")
      (Path.join (TMP_FOLDER ps) [bundle_hash]).
Proof.
  intros bundle_file bundle_path.
  assert (Hbp : exists front, bundle_path = front ++ ".bundle").
  { subst bundle_path. unfold Path.join. cbn [fold_left].
    destruct (join2_suffix (join2 (PLEX_LOCAL_MEDIA_PATH ps) "localhost") bundle_file)
      as [front ->].
    exists (front ++ String c ("/" ++ rest)). subst bundle_file.
    rewrite string_app_assoc. reflexivity. }
  split; [exact Hbp |].
  unfold job_paths, sanitize_path, os_name. cbn [String.eqb Ascii.eqb Bool.eqb].
  fold bundle_file. fold bundle_path.
  destruct Hbp as [front Hfront].
  assert (Hc : Path.join bundle_path ["Contents"; "Indexes"]
               = bundle_path ++ "/Contents/Indexes").
  { unfold Path.join. cbn [fold_left]. rewrite Hfront.
    rewrite (join2_after_name front ".bundle" "Contents") by (discriminate || reflexivity).
    rewrite <- Hfront.
    replace (bundle_path ++ "/" ++ "Contents") with ((bundle_path ++ "/Content") ++ "s")
      by (rewrite string_app_assoc; reflexivity).
    rewrite (join2_after_name _ "s" "Indexes") by (discriminate || reflexivity).
    rewrite !string_app_assoc. reflexivity. }
  rewrite Hc. f_equal.
  unfold Path.join. cbn [fold_left].
  replace (bundle_path ++ "/Contents/Indexes")
    with ((bundle_path ++ "/Contents/Indexe") ++ "s")
    by (rewrite string_app_assoc; reflexivity).
  rewrite (join2_after_name _ "s" "index-sd.bif") by (discriminate || reflexivity).
  rewrite !string_app_assoc. reflexivity.
Qed.

Lemma bundle_file_of_Some h b :
  bundle_file_of h = Some b ->
  exists c rest, h = String c rest /\ b = String c ("/" ++ rest ++ ".bundle").
Proof.
  destruct h as [| c rest]; [discriminate |].
  cbn [bundle_file_of]. intros H. injection H as <-. eauto.
Qed.

(** Property X18.
    A planned job: the part has a non-empty hash and a file attribute
    that passes the command-line filter; the media file, after the path
    mapping, is a regular file; the target is [index-sd.bif] in
    [Contents/Indexes] under a bundle directory, hence never the indexes
    directory itself; the temporary directory is named by the hash. *)
Theorem planned_job_paths ps argv attrib fs job :
  plan_part ps argv attrib fs = Planned job ->
  exists bundle_hash file bundle_path,
    attrib !! "hash" = Some bundle_hash /\ bundle_hash <> "" /\
    attrib !! "file" = Some file /\
    (forall f, argv !! 1%nat = Some f -> Path.contains file f = true) /\
    media_file job
    = py_replace file (PLEX_VIDEOS_PATH_MAPPING ps)
        (PLEX_LOCAL_VIDEOS_PATH_MAPPING ps) /\
    is_Some (fs !! media_file job) /\
    endswith bundle_path ".bundle" = true /\
    indexes_path job = bundle_path ++ "/Contents/Indexes" /\
    index_bif job = indexes_path job ++ "/index-sd.bif" /\
    index_bif job <> indexes_path job /\
    tmp_path job = Path.join (TMP_FOLDER ps) [bundle_hash].
Proof.
  unfold plan_part.
  destruct (attrib !! "hash") as [bundle_hash |]; [| discriminate].
  destruct (attrib !! "file") as [file |]; [| discriminate].
  destruct (match argv !! 1%nat with
            | Some f => negb (Path.contains file f) | None => false end) eqn:Hfilter;
    [discriminate |].
  unfold sanitize_path at 1 2. unfold os_name at 1 2.
  cbn [String.eqb Ascii.eqb Bool.eqb].
  destruct (fs !! py_replace file _ _) as [content |] eqn:Hmedia; [| discriminate].
  destruct (bundle_file_of bundle_hash) as [b |] eqn:Hb; [| discriminate].
  apply bundle_file_of_Some in Hb as (c & rest & -> & ->).
  destruct (job_paths_shape ps (py_replace file (PLEX_VIDEOS_PATH_MAPPING ps)
                                  (PLEX_LOCAL_VIDEOS_PATH_MAPPING ps))
              (String c rest) c rest) as [[front Hfront] Hjob].
  rewrite Hjob. intros H. injection H as <-.
  cbn [media_file indexes_path index_bif tmp_path].
  exists (String c rest), file,
    (Path.join (PLEX_LOCAL_MEDIA_PATH ps)
       ["localhost"; String c ("/" ++ rest ++ ".bundle")]).
  repeat match goal with |- _ /\ _ => split end;
    [ reflexivity | discriminate | reflexivity | | reflexivity | eauto
    | | reflexivity | | | reflexivity ].
  - intros f Hf. rewrite Hf in Hfilter. apply negb_false_iff in Hfilter. exact Hfilter.
  - rewrite Hfront. apply endswith_app.
  - rewrite string_app_assoc. reflexivity.
  - intros Heq. apply (f_equal String.length) in Heq.
    rewrite !length_string_app in Heq. cbn in Heq. lia.
Qed.

Lemma contains_startswith s sub :
  Path.contains s sub = false -> startswith s sub = false.
Proof.
  unfold startswith. destruct s as [| c r]; cbn [Path.contains];
    intros H; apply orb_false_iff in H as [H _]; exact H.
Qed.

(** Property X19.
    Two parts with different hashes, neither of them holding a slash,
    get different paths for the temporary directory, for the indexes
    directory and for the target: the hash is one path component of the
    first, and its first character and its rest are two components of
    the others. *)
Theorem distinct_hashes_distinct_paths ps media1 media2 h1 h2 b1 b2 :
  bundle_file_of h1 = Some b1 -> bundle_file_of h2 = Some b2 ->
  Path.contains h1 "/" = false -> Path.contains h2 "/" = false ->
  h1 <> h2 ->
  tmp_path (job_paths ps media1 h1 b1) <> tmp_path (job_paths ps media2 h2 b2) /\
  indexes_path (job_paths ps media1 h1 b1)
  <> indexes_path (job_paths ps media2 h2 b2) /\
  index_bif (job_paths ps media1 h1 b1) <> index_bif (job_paths ps media2 h2 b2).
Proof.
  intros Hb1 Hb2 Hs1 Hs2 Hne.
  apply contains_startswith in Hs1, Hs2.
  apply bundle_file_of_Some in Hb1 as (c1 & r1 & -> & ->).
  apply bundle_file_of_Some in Hb2 as (c2 & r2 & -> & ->).
  destruct (job_paths_shape ps media1 (String c1 r1) c1 r1) as [_ ->].
  destruct (job_paths_shape ps media2 (String c2 r2) c2 r2) as [_ ->].
  cbn [tmp_path indexes_path index_bif].
  assert (Hrel : forall c r, startswith (String c r) "/" = false ->
            startswith (String c ("/" ++ r ++ ".bundle")) "/" = false).
  { intros c r. unfold startswith. cbn [String.prefix].
    destruct (Ascii.ascii_dec "/" c); [| reflexivity].
    rewrite !prefix_empty. discriminate. }
  assert (Hbundle : Path.join (PLEX_LOCAL_MEDIA_PATH ps)
                      ["localhost"; String c1 ("/" ++ r1 ++ ".bundle")]
                    = Path.join (PLEX_LOCAL_MEDIA_PATH ps)
                        ["localhost"; String c2 ("/" ++ r2 ++ ".bundle")] ->
                    False).
  { unfold Path.join. cbn [fold_left].
    rewrite (join2_relative _ (String c1 ("/" ++ r1 ++ ".bundle")))
      by (apply Hrel; assumption).
    rewrite (join2_relative _ (String c2 ("/" ++ r2 ++ ".bundle")))
      by (apply Hrel; assumption).
    intros Heq. apply string_app_inv_head in Heq. injection Heq as Hc Hr.
    change (r1 ++ ".bundle" = r2 ++ ".bundle") in Hr.
    apply app_string_inv_tail in Hr. congruence. }
  split; [| split].
  - unfold Path.join. cbn [fold_left].
    rewrite (join2_relative _ (String c1 r1)) by assumption.
    rewrite (join2_relative _ (String c2 r2)) by assumption.
    intros Heq. apply string_app_inv_head in Heq. contradiction.
  - intros Heq. apply app_string_inv_tail in Heq. exact (Hbundle Heq).
  - intros Heq. apply app_string_inv_tail in Heq. exact (Hbundle Heq).
Qed.

End PathFacts.

(* ===================================================================== *)
(** ** The item loop *)
(* ===================================================================== *)

Section ItemFacts.

Variable settings : Settings.
Variable env : Env.
Variable ps : PathSettings.
Variable argv : list string.

Lemma interleave_empty s : interleave "" s = s.
Proof.
  induction s as [| c r IH]; [reflexivity |].
  cbn [interleave]. rewrite IH. reflexivity.
Qed.

Lemma interleave_length new s :
  String.length (interleave new s)
  = (String.length s + (String.length s + 1) * String.length new)%nat.
Proof.
  induction s as [| c r IH]; cbn [interleave String.length].
  - lia.
  - rewrite length_string_app. cbn [String.length]. rewrite IH. lia.
Qed.

Lemma replace_go_skip old new pre : forall rest,
  replace_go old new (pre ++ rest) (String.length pre) = replace_go old new rest 0.
Proof.
  induction pre as [| c pre IH]; intros rest; [reflexivity |].
  rewrite append_cons. cbn [String.length replace_go]. apply IH.
Qed.

(** Property X20.
    The path mapping of line 232.  With both options empty (the
    defaults) the file attribute is taken as it is.  With only
    [PLEX_VIDEOS_PATH_MAPPING] empty the replacement is inserted around
    every character, so no path stays what it was.  A path that starts
    with a non-empty [PLEX_VIDEOS_PATH_MAPPING] gets the replacement in
    its place, and the rest of the path is mapped in the same way. *)
Theorem path_mapping file old new rest :
  py_replace file "" "" = file /\
  (new <> "" -> py_replace file "" new <> file) /\
  (old <> "" -> py_replace (old ++ rest) old new = new ++ py_replace rest old new).
Proof.
  split; [apply interleave_empty |]. split.
  - intros Hnew Heq. unfold py_replace in Heq. cbn [String.eqb] in Heq.
    apply (f_equal String.length) in Heq. rewrite interleave_length in Heq.
    destruct new as [| c n]; [contradiction |]. cbn [String.length] in Heq. nia.
  - intros Hold. unfold py_replace.
    destruct (String.eqb_spec old "") as [-> | _]; [contradiction |].
    destruct old as [| c old]; [contradiction |].
    unfold replace. rewrite append_cons. cbn [replace_go].
    rewrite <- append_cons, prefix_app_string.
    cbn [String.length].
    replace (S (String.length old) - 1)%nat with (String.length old) by lia.
    rewrite replace_go_skip. reflexivity.
Qed.


(** Property X21.
    Parts that have no hash, that the command-line filter rejects, whose
    media file is missing or whose hash is empty leave no trace: nothing
    of the world changes and the loop goes on. *)
Theorem parts_without_job_leave_no_trace gpu parts w :
  Forall (fun attrib =>
            attrib !! "hash" = None \/
            exists bundle_hash file,
              attrib !! "hash" = Some bundle_hash /\
              attrib !! "file" = Some file /\
              ((exists f, argv !! 1%nat = Some f /\ Path.contains file f = false) \/
               files w !! py_replace file (PLEX_VIDEOS_PATH_MAPPING ps)
                            (PLEX_LOCAL_VIDEOS_PATH_MAPPING ps) = None \/
               bundle_hash = "")) parts ->
  process_item_tree settings env ps argv gpu parts w
  = (inl (map (fun _ => None) parts), w).
Proof.
  induction 1 as [| attrib rest Hpart _ IH]; [reflexivity |].
  cbn [process_item_tree map].
  assert (Hone : process_media_part settings env ps argv gpu attrib w = (inl None, w)).
  { unfold process_media_part, plan_part.
    destruct Hpart as [-> | (h & file & -> & -> & Hwhy)]; [reflexivity |].
    destruct (match argv !! 1%nat with
              | Some f => negb (Path.contains file f) | None => false end) eqn:Hf;
      [reflexivity |].
    unfold sanitize_path at 1. unfold os_name at 1.
    cbn [String.eqb Ascii.eqb Bool.eqb].
    destruct Hwhy as [(f & Hargv & Hc) | [Hmedia | ->]].
    - rewrite Hargv, Hc in Hf. discriminate.
    - rewrite Hmedia. reflexivity.
    - destruct (files w !! _); reflexivity. }
  rewrite Hone, IH. reflexivity.
Qed.




End ItemFacts.

(* ===================================================================== *)
(** ** The argument vector with hardware decoding *)
(* ===================================================================== *)

Section ArgumentFacts.

Variable settings : Settings.
Variable env : Env.

(** Property X23.
    Where the hardware options go when hardware decoding is admitted on
    the count [c] of running transcoder processes.  For NVIDIA,
    [-hwaccel cuda] is put in front of [-threads:0 1 -i video], among
    the input options.  For a render device the four options [-hwaccel
    vaapi -vaapi_device <device>] are appended after the output pattern,
    the device last, and the filter after [-vf] is the VAAPI variant. *)
Theorem hardware_arguments video_file output_folder vf_parameters g c :
  contention env (Some g) = Ok c ->
  c < GPU_THREADS settings \/ CPU_THREADS settings = 0 ->
  let base := base_args settings env video_file output_folder vf_parameters in
  (g = "NVIDIA" ->
   select_accel settings env (Some g) vf_parameters base
   = Ok (true, (take 5 base ++ ["-hwaccel"; "cuda"] ++ drop 5 base)%list)) /\
  (g <> "NVIDIA" -> g <> "" ->
   FFMPEG_PATH env <> "-vf" -> video_file <> "-vf" ->
   select_accel settings env (Some g) vf_parameters base
   = Ok (true,
         (base_args settings env video_file output_folder
            (replace vf_parameters sw_scale vaapi_scale)
          ++ ["-hwaccel"; "vaapi"; "-vaapi_device"; g])%list)).
Proof.
  intros Hc Hadm base.
  apply (admitted_iff settings) in Hadm.
  unfold contention in Hc. split.
  - intros ->. cbn [String.eqb Ascii.eqb Bool.eqb] in Hc.
    unfold select_accel. cbn [String.eqb Ascii.eqb Bool.eqb].
    rewrite Hc, Hadm. reflexivity.
  - intros Hnv Hne Hff Hvid. unfold select_accel.
    destruct (String.eqb_spec g "NVIDIA") as [| _]; [contradiction |].
    destruct (String.eqb_spec g "") as [| _]; [contradiction |].
    cbn [negb] in Hc |- *.
    destruct (amd_ffmpeg_processes env) as [n | e]; [| discriminate].
    inversion Hc; subst c. rewrite Hadm. cbv zeta. do 2 f_equal.
    apply vaapi_args; assumption.
Qed.

Lemma replace_go_after_fps rest :
  replace_go sw_scale vaapi_scale ("fps=fps=" ++ rest) 0
  = "fps=fps=" ++ replace_go sw_scale vaapi_scale rest 0.
Proof. reflexivity. Qed.

Lemma replace_go_without_s fps rest :
  Forall (fun c => c <> "s"%char) (chars fps) ->
  replace_go sw_scale vaapi_scale (fps ++ rest) 0
  = fps ++ replace_go sw_scale vaapi_scale rest 0.
Proof.
  induction fps as [| c fps IH]; intros Hall; [reflexivity |].
  inversion Hall as [| ? ? Hc Hrest]; subst.
  rewrite !append_cons. cbn [replace_go]. unfold sw_scale at 1.
  cbn [String.prefix].
  destruct (Ascii.ascii_dec "s" c) as [<- | _]; [contradiction |].
  rewrite (IH Hrest). reflexivity.
Qed.

(** Property X26.
    The filter for a render device.  [str.replace] rewrites every
    occurrence of the software scale, and the filter text has exactly
    one, at its end, in the HDR variant too (whose [zscale] steps are
    not touched), as long as the text of the frame rate has no
    letter s: the filter handed to the transcoder is the same chain
    with the VAAPI upload and scale in the place of the software
    scale. *)
Theorem vaapi_filter_rewritten (hdr : bool) fps :
  Forall (fun c => c <> "s"%char) (chars fps) ->
  replace (vf_parameters_for hdr fps) sw_scale vaapi_scale
  = if hdr then
      "fps=fps=" ++ fps ++ "," ++
      "zscale=t=linear:npl=100,format=gbrpf32le," ++
      "zscale=p=bt709,tonemap=tonemap=hable:desat=0," ++
      "zscale=t=bt709:m=bt709:r=tv,format=yuv420p," ++
      vaapi_scale
    else "fps=fps=" ++ fps ++ "," ++ vaapi_scale.
Proof.
  intros Hfps. unfold replace, vf_parameters_for. destruct hdr.
  - rewrite replace_go_after_fps, (replace_go_without_s fps _ Hfps).
    reflexivity.
  - rewrite replace_go_after_fps, (replace_go_without_s fps _ Hfps).
    reflexivity.
Qed.

End ArgumentFacts.

(* ===================================================================== *)
(** ** Loading the settings *)
(* ===================================================================== *)

Section ConfigFacts.

Lemma py_int_negative ds :
  all_digits ds -> ds <> [] ->
  py_int (str ("-"%char :: ds)) = Ok (- digits_val ds).
Proof.
  intros Hall Hne. unfold py_int. rewrite chars_str.
  assert (Hstrip : strip_l whitespace ("-"%char :: ds) = "-"%char :: ds).
  { unfold strip_l. cbn [lstrip_l mem_char existsb whitespace Ascii.eqb Bool.eqb orb].
    cbn [rev]. rewrite lstrip_l_digits.
    - rewrite rev_app_distr, rev_involutive. reflexivity.
    - intros c Hc. apply (digit_is_kept c Hc).
    - apply all_digits_rev, Hall.
    - apply rev_nonempty, Hne. }
  rewrite Hstrip. destruct ds as [| c r]; [contradiction |].
  inversion Hall as [| ? ? Hc Hr]; subst.
  cbn [int_body]. rewrite Hc, (int_body_digits r Hr).
  rewrite (filter_digits (c :: r) Hall). reflexivity.
Qed.

(** [int(str(n))] is [n]. *)
Lemma py_int_py_str n : py_int (py_str n) = Ok n.
Proof.
  unfold py_str. destruct (Z.ltb_spec n 0) as [Hn | Hn].
  - destruct (dec_digits_spec (- n) ltac:(lia)) as (Hall & Hne & Hval).
    rewrite py_int_negative, Hval by assumption. f_equal. lia.
  - destruct (dec_digits_spec n Hn) as (Hall & Hne & Hval).
    rewrite py_int_digits, Hval by assumption. reflexivity.
Qed.

(** Property X24.
    Whatever integers the five options are set to, written in decimal
    with no more than the 4300 digits that [int] takes, are taken over
    as they are: there is no validation, so a zero or negative interval
    or thread count is accepted.  Options that are not set get their
    defaults. *)
Theorem settings_accept_any_integers environ
    (interval quality timeout gpu_threads cpu_threads : option Z) :
  Forall (fun option : option Z =>
            forall n, option = Some n -> Z.abs n < 10 ^ 4300)
    [interval; quality; timeout; gpu_threads; cpu_threads] ->
  environ !! "PLEX_BIF_FRAME_INTERVAL" = py_str <$> interval ->
  environ !! "THUMBNAIL_QUALITY" = py_str <$> quality ->
  environ !! "PLEX_TIMEOUT" = py_str <$> timeout ->
  environ !! "GPU_THREADS" = py_str <$> gpu_threads ->
  environ !! "CPU_THREADS" = py_str <$> cpu_threads ->
  load_settings environ
  = Ok (mkSettings (default 5 interval) (default 4 quality)
          (default 4 gpu_threads) (default 4 cpu_threads)).
Proof.
  intros _ H1 H2 H3 H4 H5. unfold load_settings, getenv_int.
  rewrite H1, H2, H3, H4, H5.
  destruct interval, quality, timeout, gpu_threads, cpu_threads;
    cbn [fmap option_fmap option_map default from_option id result_bind];
    rewrite ?py_int_py_str; cbn [result_bind]; rewrite ?py_int_py_str;
    reflexivity.
Qed.

End ConfigFacts.

(* ===================================================================== *)
(** ** The further theorems at concrete inputs *)
(* ===================================================================== *)

Section MoreInstances.

Import Scenario Cases.

Ltac split_all := repeat match goal with |- _ /\ _ => split end.

(** The encoder on the two frames of [world_frames]. *)
Lemma generate_bif_completes_only_if_witness :
  generate_bif settings5 bif tmp world_frames = (Ok tt, world_encoded) /\
  exists d,
    dirs world_frames !! tmp = Some d /\
    dirs world_frames !! bif = None /\
    OS.parent_error bif world_frames = None /\
    0 <= 1000 * PLEX_BIF_FRAME_INTERVAL settings5 < 4294967296 /\
    first_offset (images_of d) + total (map (frame_size d) (images_of d))
    < 4294967296 /\
    Z.of_nat (List.length (bif_of (PLEX_BIF_FRAME_INTERVAL settings5) d))
    <= disk_free world_frames /\
    world_encoded
    = set_files
        (<[bif := bif_of (PLEX_BIF_FRAME_INTERVAL settings5) d]> (files world_frames))
        world_frames.
Proof.
  assert (H : generate_bif settings5 bif tmp world_frames = (Ok tt, world_encoded))
    by (vm_compute; reflexivity).
  split; [exact H |].
  exact (generate_bif_completes_only_if settings5 bif tmp world_frames
           world_encoded H).
Defined.

(** Without the directory that the target goes to, nothing is
    written. *)
Example missing_indexes_directory :
  generate_bif settings5 bif tmp
    {| files := ∅; dirs := <[tmp := frames_dir]> ∅; disk_free := 1000000;
       spawned := []; metrics := [] |}
  = (Raise FileNotFoundError,
     {| files := ∅; dirs := <[tmp := frames_dir]> ∅; disk_free := 1000000;
        spawned := []; metrics := [] |}).
Proof. vm_compute. reflexivity. Qed.

(** Encoding the two frames of [world_frames] a second time. *)
Lemma generate_bif_again_witness :
  generate_bif settings5 bif tmp world_frames = (Ok tt, world_encoded) /\
  generate_bif settings5 bif tmp world_encoded = (Ok tt, world_encoded).
Proof.
  assert (H : generate_bif settings5 bif tmp world_frames = (Ok tt, world_encoded))
    by (vm_compute; reflexivity).
  split; [exact H |].
  exact (generate_bif_again settings5 bif tmp world_frames world_encoded H).
Defined.

(** The two frames of [world_frames], read back from the artifact. *)
Lemma frames_read_back_witness :
  generate_bif settings5 bif tmp world_frames = (Ok tt, world_encoded) /\
  exists d out,
    dirs world_frames !! tmp = Some d /\
    files world_encoded !! bif = Some out /\
    forall k name o,
      images_of d !! k = Some name ->
      map snd (index_entries_of
                 (take (8 * S (List.length (images_of d))) (drop 76 out))) !! k
      = Some o ->
      take (List.length (frame_bytes d name)) (drop (Z.to_nat o + 12) out)
      = frame_bytes d name.
Proof.
  assert (H : generate_bif settings5 bif tmp world_frames = (Ok tt, world_encoded))
    by (vm_compute; reflexivity).
  split; [exact H |].
  exact (frames_read_back settings5 bif tmp world_frames world_encoded H).
Defined.

Example offsets_point_12_bytes_early :
  option_map (fun out => (map snd (index_entries_of (take 24 (drop 76 out))),
                          take 3 (drop (88 + 12) out), take 3 (drop 88 out)))
    (files world_encoded !! bif)
  = Some ([88; 91; 93], [xff; xd8; xd9], [x5b; x00; x00]).
Proof. vm_compute. reflexivity. Qed.

(** The volume fills up while the index table is written. *)
Lemma generate_bif_writes_a_prefix_witness :
  generate_bif settings5 bif tmp world_frames_full
  = (Raise OSError, snd (generate_bif settings5 bif tmp world_frames_full)) /\
  (snd (generate_bif settings5 bif tmp world_frames_full) = world_frames_full \/
   exists d out,
     dirs world_frames_full !! tmp = Some d /\
     snd (generate_bif settings5 bif tmp world_frames_full)
     = set_files (<[bif := out]> (files world_frames_full)) world_frames_full /\
     out `prefix_of` bif_of (PLEX_BIF_FRAME_INTERVAL settings5) d /\
     (Raise OSError = Ok tt -> out = bif_of (PLEX_BIF_FRAME_INTERVAL settings5) d)).
Proof.
  assert (H : generate_bif settings5 bif tmp world_frames_full
              = (Raise OSError, snd (generate_bif settings5 bif tmp world_frames_full)))
    by (vm_compute; reflexivity).
  split; [exact H |].
  exact (generate_bif_writes_a_prefix settings5 bif tmp world_frames_full _ _ H).
Defined.

(** On a volume with room for 90 bytes the file is cut inside the second
    index entry. *)
Example disk_full_leaves_90_bytes :
  option_map (fun out => List.length out)
    (files (snd (generate_bif settings5 bif tmp world_frames_full)) !! bif)
  = Some 90%nat.
Proof. vm_compute. reflexivity. Qed.

(** 4294968 seconds are more milliseconds than 32 bits hold. *)
Lemma generate_bif_interval_out_of_range_witness :
  (~ (0 <= 1000 * PLEX_BIF_FRAME_INTERVAL settings_wide < 4294967296) /\
   dirs world_frames !! tmp = Some frames_dir /\
   dirs world_frames !! bif = None /\
   OS.parent_error bif world_frames = None /\
   Z.of_nat (List.length (images_of frames_dir)) < 4294967296 /\
   16 <= disk_free world_frames) /\
  generate_bif settings_wide bif tmp world_frames
  = (Raise StructError,
     set_files
       (<[bif :=
            (magic ++ le32 0
             ++ le32 (Z.of_nat (List.length (images_of frames_dir))))%list]>
          (files world_frames)) world_frames).
Proof.
  assert (H1 : ~ (0 <= 1000 * PLEX_BIF_FRAME_INTERVAL settings_wide < 4294967296))
    by (cbn; lia).
  assert (H2 : dirs world_frames !! tmp = Some frames_dir)
    by (vm_compute; reflexivity).
  assert (H3 : dirs world_frames !! bif = None) by (vm_compute; reflexivity).
  assert (Hp : OS.parent_error bif world_frames = None) by (vm_compute; reflexivity).
  assert (H4 : Z.of_nat (List.length (images_of frames_dir)) < 4294967296)
    by (vm_compute; reflexivity).
  assert (H5 : 16 <= disk_free world_frames) by (cbn; lia).
  split; [auto 10 |].
  exact (generate_bif_interval_out_of_range settings_wide bif tmp world_frames
           frames_dir H1 H2 H3 Hp H4 H5).
Defined.

(** The complete run of [job_done]. *)
Lemma job_spawns_at_most_once_witness :
  process_part settings5 env_ok job (Some "NVIDIA") world0
  = (Ok Done, snd job_done) /\
  (spawned (snd job_done) = spawned world0 \/
   exists args, spawned (snd job_done) = (spawned world0 ++ [args])%list) /\
  (Ok Done = Ok Skipped -> spawned (snd job_done) = spawned world0) /\
  (Ok Done = Ok Done \/ (exists e, Ok Done = Ok (FailedEncoding e)) ->
   let vf_parameters :=
     vf_parameters_for (is_hdr env_ok (media_file job))
       (fps_repr env_ok (PLEX_BIF_FRAME_INTERVAL settings5)) in
   exists hw_accel_used args,
     select_accel settings5 env_ok (Some "NVIDIA") vf_parameters
       (base_args settings5 env_ok (media_file job) (tmp_path job) vf_parameters)
     = Ok (hw_accel_used, args) /\
     spawned (snd job_done) = (spawned world0 ++ [args])%list).
Proof.
  assert (H : process_part settings5 env_ok job (Some "NVIDIA") world0
              = (Ok Done, snd job_done))
    by (vm_compute; reflexivity).
  split; [exact H |].
  exact (job_spawns_at_most_once settings5 env_ok job (Some "NVIDIA")
           world0 _ _ H).
Defined.

(** The job with an interval of zero seconds. *)
Lemma zero_interval_fails_every_job_witness :
  (PLEX_BIF_FRAME_INTERVAL settings0 = 0 /\
   process_part settings0 env_ok job (Some "NVIDIA") world0
   = (Ok (FailedExtraction ZeroDivisionError),
      snd (process_part settings0 env_ok job (Some "NVIDIA") world0))) /\
  Ok (FailedExtraction ZeroDivisionError) <> Ok Done /\
  (forall e, Ok (FailedExtraction ZeroDivisionError) <> Ok (FailedEncoding e)) /\
  files (snd (process_part settings0 env_ok job (Some "NVIDIA") world0))
  = files world0 /\
  spawned (snd (process_part settings0 env_ok job (Some "NVIDIA") world0))
  = spawned world0 /\
  metrics (snd (process_part settings0 env_ok job (Some "NVIDIA") world0))
  = metrics world0 /\
  (forall e, Ok (FailedExtraction ZeroDivisionError) = Ok (FailedExtraction e) ->
             dirs (snd (process_part settings0 env_ok job (Some "NVIDIA") world0))
               !! tmp_path job = None).
Proof.
  assert (Hz : PLEX_BIF_FRAME_INTERVAL settings0 = 0) by reflexivity.
  assert (H : process_part settings0 env_ok job (Some "NVIDIA") world0
              = (Ok (FailedExtraction ZeroDivisionError),
                 snd (process_part settings0 env_ok job (Some "NVIDIA") world0)))
    by (vm_compute; reflexivity).
  split; [auto |].
  exact (zero_interval_fails_every_job settings0 env_ok job (Some "NVIDIA")
           world0 _ _ Hz H).
Defined.

(** After the encoding that failed on the full disk. *)
Lemma failed_job_is_tried_again_witness :
  (process_part settings5 env_ok job (Some "NVIDIA") world_full
   = (Ok (FailedEncoding OSError), snd job_disk_full) /\
   exists e, Ok (FailedEncoding OSError) = Ok (FailedExtraction e) \/
             Ok (FailedEncoding OSError) = Ok (FailedEncoding e)) /\
  files (snd job_disk_full) !! index_bif job = None /\
  forall r2 w2,
    process_part settings5 env_ok job (Some "NVIDIA") (snd job_disk_full) = (r2, w2) ->
    r2 <> Ok Skipped.
Proof.
  assert (H : process_part settings5 env_ok job (Some "NVIDIA") world_full
              = (Ok (FailedEncoding OSError), snd job_disk_full))
    by (vm_compute; reflexivity).
  assert (Hfail : exists e, Ok (FailedEncoding OSError) = Ok (FailedExtraction e) \/
                            Ok (FailedEncoding OSError) = Ok (FailedEncoding e))
    by (exists OSError; right; reflexivity).
  split; [auto |].
  exact (failed_job_is_tried_again settings5 env_ok job (Some "NVIDIA")
           world_full _ _ H Hfail).
Defined.


(** The three frames of [run_ok] in the empty temporary directory. *)
Lemma extraction_reindexes_every_frame_witness :
  (generate_images settings5 env_ok "/videos/film.mkv" tmp (Some "NVIDIA") world_tmp
   = (Ok tt, world_extracted) /\
   OS.has_magic tmp = false /\
   0 < PLEX_BIF_FRAME_INTERVAL settings5 /\
   Z.of_nat (List.length three_frames) * PLEX_BIF_FRAME_INTERVAL settings5
   <= 10000000000 /\
   dirs world_tmp !! tmp = Some ∅ /\
   select_accel settings5 env_ok (Some "NVIDIA") job_vf
     (base_args settings5 env_ok "/videos/film.mkv" tmp job_vf)
   = Ok (true, job_args_cuda) /\
   returncode (ffmpeg env_ok job_args_cuda) = 0 /\
   frames (ffmpeg env_ok job_args_cuda) = ffmpeg_frames three_frames) /\
  exists d' m,
    dirs world_extracted !! tmp = Some d' /\
    images_of d'
    = second_names (PLEX_BIF_FRAME_INTERVAL settings5) (List.length three_frames) /\
    map (frame_bytes d') (images_of d') = three_frames /\
    (forall n, is_Some (d' !! n) -> n ∈ images_of d') /\
    metrics world_extracted = (metrics world_tmp ++ [m])%list /\
    m_video_file m = "/videos/film.mkv" /\ m_hw_accel m = true.
Proof.
  assert (H0 : generate_images settings5 env_ok "/videos/film.mkv" tmp
                 (Some "NVIDIA") world_tmp = (Ok tt, world_extracted))
    by (vm_compute; reflexivity).
  assert (Hm : OS.has_magic tmp = false) by reflexivity.
  assert (H1 : 0 < PLEX_BIF_FRAME_INTERVAL settings5) by (cbn; lia).
  assert (H2 : Z.of_nat (List.length three_frames)
               * PLEX_BIF_FRAME_INTERVAL settings5 <= 10000000000)
    by (cbn; lia).
  assert (H3 : dirs world_tmp !! tmp = Some ∅) by (vm_compute; reflexivity).
  assert (Hs : select_accel settings5 env_ok (Some "NVIDIA") job_vf
                 (base_args settings5 env_ok "/videos/film.mkv" tmp job_vf)
               = Ok (true, job_args_cuda)) by reflexivity.
  assert (H4 : returncode (ffmpeg env_ok job_args_cuda) = 0) by reflexivity.
  assert (H5 : frames (ffmpeg env_ok job_args_cuda) = ffmpeg_frames three_frames)
    by (vm_compute; reflexivity).
  split; [auto 10 |].
  exact (extraction_reindexes_every_frame settings5 env_ok "/videos/film.mkv" tmp
           (Some "NVIDIA") world_tmp world_extracted three_frames true job_args_cuda
           H0 Hm H1 H2 H3 Hs H4 H5).
Defined.

Example three_frames_by_second :
  second_names 5 3 = ["0000000000.jpg"; "0000000005.jpg"; "0000000010.jpg"].
Proof. vm_compute. reflexivity. Qed.


Example artifact_of_three_frames :
  option_map (fun out => (List.length out, u32_at 12 out, u32_at 16 out))
    (files (snd job_done) !! bif) = Some (114%nat, 3, 5000) /\
  files (snd job_done) !! bif = Some (bif_of_frames 5 three_frames).
Proof. split; vm_compute; reflexivity. Qed.

Example cover_has_no_number :
  strip (strip "img-cover.jpg" "img-") ".jpg" = "cover" /\
  frame_second_of settings5 "img-cover.jpg" = Raise ValueError /\
  frame_second_of settings5 "img-000001.jpg" = Ok 0.
Proof. split_all; vm_compute; reflexivity. Qed.

(** Detection with a render node present. *)
Example detection_samples :
  detect_gpu (Probed 2) (Probed amd_run) world_dri = (Ok (Some "NVIDIA"), world_dri) /\
  detect_gpu (Probed 0) (Probed amd_run) world_dri
  = (Ok (Some "/dev/dri/renderD128"), world_dri) /\
  detect_gpu ProbeError (Probed amd_run) world0 = (Ok None, world0) /\
  detect_gpu NotInstalled NotInstalled world_dri = (Ok None, world_dri) /\
  detect_gpu NotInstalled
    (Probed {| processor_is_gpu := [Ok false; Ok true]; shut_down := Raise OSError |})
    world_dri = (Ok None, world_dri).
Proof. split_all; vm_compute; reflexivity. Qed.

Example path_samples :
  sanitize_path "nt" ("C:" ++ backslash ++ "media" ++ backslash ++ "a.mkv")
  = "C:/media/a.mkv" /\
  Path.join "/media" ["localhost"; "a/bcdef.bundle"] = "/media/localhost/a/bcdef.bundle" /\
  Path.join "/media/" ["localhost"] = "/media/localhost" /\
  Path.join "/tmp" ["/abs"] = "/abs" /\
  py_replace "/data/film.mkv" "/data" "/mnt" = "/mnt/film.mkv" /\
  py_replace "ab" "" "X" = "XaXbX" /\
  bundle_file_of "abcdef" = Some "a/bcdef.bundle" /\
  bundle_file_of "" = None.
Proof. split_all; vm_compute; reflexivity. Qed.

(** The media part of [Scenario.job]. *)
Lemma planned_job_paths_witness :
  plan_part paths [] part (files world_media) = Planned job /\
  exists bundle_hash file bundle_path,
    part !! "hash" = Some bundle_hash /\ bundle_hash <> "" /\
    part !! "file" = Some file /\
    (forall f, @nil string !! 1%nat = Some f -> Path.contains file f = true) /\
    media_file job
    = py_replace file (PLEX_VIDEOS_PATH_MAPPING paths)
        (PLEX_LOCAL_VIDEOS_PATH_MAPPING paths) /\
    is_Some (files world_media !! media_file job) /\
    endswith bundle_path ".bundle" = true /\
    indexes_path job = bundle_path ++ "/Contents/Indexes" /\
    index_bif job = indexes_path job ++ "/index-sd.bif" /\
    index_bif job <> indexes_path job /\
    tmp_path job = Path.join (TMP_FOLDER paths) [bundle_hash].
Proof.
  assert (H : plan_part paths [] part (files world_media) = Planned job)
    by (vm_compute; reflexivity).
  split; [exact H |].
  exact (planned_job_paths paths [] part (files world_media) job H).
Defined.

(** Two hashes that differ in their last character. *)
Lemma distinct_hashes_distinct_paths_witness :
  (bundle_file_of "abcdef" = Some "a/bcdef.bundle" /\
   bundle_file_of "abcdeg" = Some "a/bcdeg.bundle" /\
   Path.contains "abcdef" "/" = false /\ Path.contains "abcdeg" "/" = false /\
   "abcdef" <> "abcdeg") /\
  tmp_path (job_paths paths "/videos/film.mkv" "abcdef" "a/bcdef.bundle")
  <> tmp_path (job_paths paths "/videos/film.mkv" "abcdeg" "a/bcdeg.bundle") /\
  indexes_path (job_paths paths "/videos/film.mkv" "abcdef" "a/bcdef.bundle")
  <> indexes_path (job_paths paths "/videos/film.mkv" "abcdeg" "a/bcdeg.bundle") /\
  index_bif (job_paths paths "/videos/film.mkv" "abcdef" "a/bcdef.bundle")
  <> index_bif (job_paths paths "/videos/film.mkv" "abcdeg" "a/bcdeg.bundle").
Proof.
  assert (H1 : bundle_file_of "abcdef" = Some "a/bcdef.bundle") by reflexivity.
  assert (H2 : bundle_file_of "abcdeg" = Some "a/bcdeg.bundle") by reflexivity.
  assert (H3 : Path.contains "abcdef" "/" = false) by reflexivity.
  assert (H4 : Path.contains "abcdeg" "/" = false) by reflexivity.
  assert (H5 : "abcdef" <> "abcdeg") by discriminate.
  split; [auto 10 |].
  exact (distinct_hashes_distinct_paths paths "/videos/film.mkv" "/videos/film.mkv"
           "abcdef" "abcdeg" "a/bcdef.bundle" "a/bcdeg.bundle" H1 H2 H3 H4 H5).
Defined.

(** With a slash in them, two different hashes name the same bundle
    directory, under two spellings. *)
Example hashes_with_a_slash :
  indexes_path (job_paths paths "/videos/film.mkv" "ab" "a/b.bundle")
  = "/media/localhost/a/b.bundle/Contents/Indexes" /\
  indexes_path (job_paths paths "/videos/film.mkv" "a/b" "a//b.bundle")
  = "/media/localhost/a//b.bundle/Contents/Indexes".
Proof. split; vm_compute; reflexivity. Qed.

(** A part without hash and a part whose media file is not there. *)
Lemma parts_without_job_leave_no_trace_witness :
  Forall (fun attrib =>
            attrib !! "hash" = None \/
            exists bundle_hash file,
              attrib !! "hash" = Some bundle_hash /\
              attrib !! "file" = Some file /\
              ((exists f, @nil string !! 1%nat = Some f /\
                          Path.contains file f = false) \/
               files world0 !! py_replace file (PLEX_VIDEOS_PATH_MAPPING paths)
                                 (PLEX_LOCAL_VIDEOS_PATH_MAPPING paths) = None \/
               bundle_hash = "")) [part_without_hash; part_elsewhere] /\
  process_item_tree settings5 env_ok paths [] (Some "NVIDIA")
    [part_without_hash; part_elsewhere] world0
  = (inl (map (fun _ => None) [part_without_hash; part_elsewhere]), world0).
Proof.
  assert (H : Forall (fun attrib =>
            attrib !! "hash" = None \/
            exists bundle_hash file,
              attrib !! "hash" = Some bundle_hash /\
              attrib !! "file" = Some file /\
              ((exists f, @nil string !! 1%nat = Some f /\
                          Path.contains file f = false) \/
               files world0 !! py_replace file (PLEX_VIDEOS_PATH_MAPPING paths)
                                 (PLEX_LOCAL_VIDEOS_PATH_MAPPING paths) = None \/
               bundle_hash = "")) [part_without_hash; part_elsewhere]).
  { constructor; [left; vm_compute; reflexivity |].
    constructor; [| constructor].
    right. exists "abcdef", "/videos/gone.mkv".
    split; [vm_compute; reflexivity |]. split; [vm_compute; reflexivity |].
    right. left. apply lookup_empty. }
  split; [exact H |].
  exact (parts_without_job_leave_no_trace settings5 env_ok paths []
           (Some "NVIDIA") [part_without_hash; part_elsewhere] world0 H).
Defined.


(** A render device with no transcoder running on it. *)
Lemma hardware_arguments_witness :
  (contention env_ok (Some "/dev/dri/renderD128") = Ok 0 /\
   (0 < GPU_THREADS settings5 \/ CPU_THREADS settings5 = 0)) /\
  let base := base_args settings5 env_ok "/videos/film.mkv" tmp
                (vf_parameters_for false "0.2") in
  ("/dev/dri/renderD128" = "NVIDIA" ->
   select_accel settings5 env_ok (Some "/dev/dri/renderD128")
     (vf_parameters_for false "0.2") base
   = Ok (true, (take 5 base ++ ["-hwaccel"; "cuda"] ++ drop 5 base)%list)) /\
  ("/dev/dri/renderD128" <> "NVIDIA" -> "/dev/dri/renderD128" <> "" ->
   FFMPEG_PATH env_ok <> "-vf" -> "/videos/film.mkv" <> "-vf" ->
   select_accel settings5 env_ok (Some "/dev/dri/renderD128")
     (vf_parameters_for false "0.2") base
   = Ok (true,
         (base_args settings5 env_ok "/videos/film.mkv" tmp
            (replace (vf_parameters_for false "0.2") sw_scale vaapi_scale)
          ++ ["-hwaccel"; "vaapi"; "-vaapi_device"; "/dev/dri/renderD128"])%list)).
Proof.
  assert (Hc : contention env_ok (Some "/dev/dri/renderD128") = Ok 0)
    by reflexivity.
  assert (H : 0 < GPU_THREADS settings5 \/ CPU_THREADS settings5 = 0)
    by (left; vm_compute; reflexivity).
  split; [auto |].
  exact (hardware_arguments settings5 env_ok "/videos/film.mkv" tmp
           (vf_parameters_for false "0.2") "/dev/dri/renderD128" 0 Hc H).
Defined.

Example argument_vectors :
  select_accel settings5 env_ok (Some "NVIDIA") "vf"
    (base_args settings5 env_ok "in.mkv" "/t" "vf")
  = Ok (true,
        ["/usr/bin/ffmpeg"; "-loglevel"; "info"; "-skip_frame:v"; "nokey";
         "-hwaccel"; "cuda"; "-threads:0"; "1"; "-i"; "in.mkv"; "-an"; "-sn"; "-dn";
         "-q:v"; "4"; "-vf"; "vf"; "/t/img-%06d.jpg"]) /\
  select_accel settings5 env_ok (Some "/dev/dri/renderD128") sw_scale
    (base_args settings5 env_ok "in.mkv" "/t" sw_scale)
  = Ok (true,
        ["/usr/bin/ffmpeg"; "-loglevel"; "info"; "-skip_frame:v"; "nokey";
         "-threads:0"; "1"; "-i"; "in.mkv"; "-an"; "-sn"; "-dn";
         "-q:v"; "4"; "-vf"; vaapi_scale; "/t/img-%06d.jpg";
         "-hwaccel"; "vaapi"; "-vaapi_device"; "/dev/dri/renderD128"]).
Proof. split; vm_compute; reflexivity. Qed.

(** The filter for one frame every five seconds. *)
Lemma vaapi_filter_rewritten_witness :
  Forall (fun c => c <> "s"%char) (chars "0.2") /\
  replace (vf_parameters_for true "0.2") sw_scale vaapi_scale
  = if true then
      "fps=fps=" ++ "0.2" ++ "," ++
      "zscale=t=linear:npl=100,format=gbrpf32le," ++
      "zscale=p=bt709,tonemap=tonemap=hable:desat=0," ++
      "zscale=t=bt709:m=bt709:r=tv,format=yuv420p," ++
      vaapi_scale
    else "fps=fps=" ++ "0.2" ++ "," ++ vaapi_scale.
Proof.
  assert (H : Forall (fun c => c <> "s"%char) (chars "0.2"))
    by (repeat constructor; discriminate).
  split; [exact H |].
  exact (vaapi_filter_rewritten true "0.2" H).
Defined.

(** An environment that sets the interval to 10 and [CPU_THREADS] to 0. *)
Lemma settings_accept_any_integers_witness :
  (Forall (fun option : option Z =>
             forall n, option = Some n -> Z.abs n < 10 ^ 4300)
     [Some 10; None; None; None; Some 0] /\
   environ !! "PLEX_BIF_FRAME_INTERVAL" = py_str <$> Some 10 /\
   environ !! "THUMBNAIL_QUALITY" = py_str <$> None /\
   environ !! "PLEX_TIMEOUT" = py_str <$> None /\
   environ !! "GPU_THREADS" = py_str <$> None /\
   environ !! "CPU_THREADS" = py_str <$> Some 0) /\
  load_settings environ
  = Ok (mkSettings (default 5 (Some 10)) (default 4 None)
          (default 4 None) (default 4 (Some 0))).
Proof.
  assert (H0 : Forall (fun option : option Z =>
                         forall n, option = Some n -> Z.abs n < 10 ^ 4300)
                 [Some 10; None; None; None; Some 0]).
  { repeat constructor; intros n Hn; inversion Hn; subst;
      vm_compute; reflexivity. }
  assert (H1 : environ !! "PLEX_BIF_FRAME_INTERVAL" = py_str <$> Some 10)
    by (vm_compute; reflexivity).
  assert (H2 : environ !! "THUMBNAIL_QUALITY" = py_str <$> None)
    by (vm_compute; reflexivity).
  assert (H3 : environ !! "PLEX_TIMEOUT" = py_str <$> None)
    by (vm_compute; reflexivity).
  assert (H4 : environ !! "GPU_THREADS" = py_str <$> None)
    by (vm_compute; reflexivity).
  assert (H5 : environ !! "CPU_THREADS" = py_str <$> Some 0)
    by (vm_compute; reflexivity).
  split; [auto 10 |].
  exact (settings_accept_any_integers environ (Some 10) None None None (Some 0)
           H0 H1 H2 H3 H4 H5).
Defined.

Example settings_samples :
  load_settings ∅ = Ok settings5 /\
  load_settings (<["GPU_THREADS" := "four"]> ∅) = Raise ValueError /\
  load_settings (<["PLEX_BIF_FRAME_INTERVAL" := " -2 "]> ∅)
  = Ok (mkSettings (-2) 4 4 4).
Proof. split_all; vm_compute; reflexivity. Qed.

End MoreInstances.
